(** * EngiVibe canvas engine: viewport, tools, history and hit-testing

    A shallow embedding of the [Canvas] component (the second module of
    [src/components/DetailModal.tsx]).  React state is a record, every event
    handler is a function from the rendered snapshot to the list of state
    updates it enqueues, and JavaScript numbers are IEEE-754 binary64 values
    (Rocq's primitive floats). *)

From Stdlib Require Import ZArith QArith Qabs List String Ascii Bool Lia.
From Stdlib Require Import Floats.
Import ListNotations.

Set Warnings "-inexact-float,-register-all".
Close Scope Q_scope.

(** ** The JavaScript built-ins the component calls *)

Module JS.

Definition number := float.

(** The binary64 value nearest to [num / den] (ties to even), negated when
    [neg]; this is how a decimal literal becomes a number. *)
Definition nearest (neg : bool) (num den : Z) : number :=
  match num, den with
  | Zpos n, Zpos d =>
      SF2Prim (SFdiv prec emax (S754_finite neg n 0) (S754_finite false d 0))
  | _, _ => if neg then (-0)%float else 0%float
  end.

(** [a > b] and [a < b]; both are false when an operand is NaN. *)
Definition gt (a b : number) : bool := PrimFloat.ltb b a.
Definition lt (a b : number) : bool := PrimFloat.ltb a b.

Definition Math_abs (x : number) : number := PrimFloat.abs x.

(** [Math.hypot(...values)].  The standard leaves its precision to the
    implementation; this is the algorithm of V8 (Chrome, Node), step by
    step: the largest absolute value of the arguments that are not NaN is
    factored out, and the squares of the scaled arguments are added with
    Kahan's compensated summation. *)
Definition hypot_max (values : list number) : number :=
  fold_left (fun max value =>
               if is_nan value then max
               else if PrimFloat.ltb max (PrimFloat.abs value)
                    then PrimFloat.abs value else max)
            values 0%float.

(** The loop of the summation, on the pair [(sum, compensation)]. *)
Definition hypot_sum (max : number) (values : list number) : number * number :=
  fold_left (fun acc value =>
               let sum := fst acc in
               let compensation := snd acc in
               let n := (PrimFloat.abs value / max)%float in
               let summand := (n * n - compensation)%float in
               let preliminary := (sum + summand)%float in
               (preliminary, (preliminary - sum - summand)%float))
            values (0%float, 0%float).

Definition Math_hypot_of (values : list number) : number :=
  let max := hypot_max values in
  if PrimFloat.eqb max infinity then infinity
  else if existsb is_nan values then nan
  else if PrimFloat.eqb max 0 then 0%float
  else (PrimFloat.sqrt (fst (hypot_sum max values)) * max)%float.

Definition Math_hypot (x y : number) : number := Math_hypot_of [x; y].

(** [Math.round(x)]: the integer nearest to [x], halves towards +Infinity,
    computed on the exact value [m * 2^e] of [x]; the sign of a zero result
    follows [x]. *)
Definition Math_round (x : number) : number :=
  match Prim2SF x with
  | S754_finite s m e =>
      if (0 <=? e)%Z then x
      else
        let k := (- e)%Z in
        let sm := if s then Zneg m else Zpos m in
        let n := ((2 * sm + 2 ^ k) / 2 ^ (k + 1))%Z in
        if (n =? 0)%Z then (if s then (-0)%float else 0%float)
        else nearest (n <? 0)%Z (Z.abs n) 1
  | _ => x
  end.

(** [parseFloat(x.toFixed(fractionDigits))].  [toFixed] prints the integer
    [n] with [n / 10^f - |x|] closest to zero (the larger [n] on a tie)
    behind the sign of [x]; at or above 1e21, and for NaN and the
    infinities, it prints [x] itself, which [parseFloat] reads back. *)
Definition parseFloat_toFixed (x : number) (fractionDigits : Z) : number :=
  match Prim2SF x with
  | S754_finite s m e =>
      if PrimFloat.leb 1e21 (PrimFloat.abs x) then x
      else
        let scale := (10 ^ fractionDigits)%Z in
        let n := if (0 <=? e)%Z then (Zpos m * 2 ^ e * scale)%Z
                 else ((2 * Zpos m * scale + 2 ^ (- e)) / 2 ^ (- e + 1))%Z in
        nearest s n scale
  | S754_zero _ => 0%float
  | _ => x
  end.

(** *** Strings (code units below 256) *)

(** White space and line terminators of [\s] and [trim]. *)
Definition isWhiteSpace (c : ascii) : bool :=
  match nat_of_ascii c with
  | 9 | 10 | 11 | 12 | 13 | 32 | 160 => true
  | _ => false
  end.

Definition isEmpty (s : string) : bool :=
  match s with EmptyString => true | _ => false end.

Fixpoint trimStart (s : string) : string :=
  match s with
  | String c r => if isWhiteSpace c then trimStart r else s
  | EmptyString => EmptyString
  end.

Fixpoint trimEnd (s : string) : string :=
  match s with
  | String c r =>
      let r' := trimEnd r in
      if isWhiteSpace c && isEmpty r' then EmptyString else String c r'
  | EmptyString => EmptyString
  end.

Definition trim (s : string) : string := trimEnd (trimStart s).

(** [s.split(/\s+/)]: the pieces between maximal runs of white space; a run
    at either end leaves an empty piece there, and the empty string has the
    single piece [""].  [inSep] tells that the previous unit was white. *)
Fixpoint split_run (inSep : bool) (s : string) : list string :=
  match s with
  | EmptyString => [EmptyString]
  | String c r =>
      if isWhiteSpace c then
        if inSep then split_run true r else EmptyString :: split_run true r
      else
        match split_run false r with
        | tok :: rest => String c tok :: rest
        | [] => [String c EmptyString]
        end
  end.

Definition split_ws (s : string) : list string := split_run false s.

(** *** [Number(string)] (StringToNumber) *)

Definition digitValue (radix : Z) (c : ascii) : option Z :=
  let n := Z.of_nat (nat_of_ascii c) in
  let v := if (48 <=? n)%Z && (n <=? 57)%Z then (n - 48)%Z
           else if (97 <=? n)%Z && (n <=? 102)%Z then (n - 87)%Z
           else if (65 <=? n)%Z && (n <=? 70)%Z then (n - 55)%Z
           else 99%Z in
  if (v <? radix)%Z then Some v else None.

(** Reads the longest run of digits: accumulated value, digits read, rest. *)
Fixpoint scanDigits (radix : Z) (s : string) (acc count : Z) : Z * Z * string :=
  match s with
  | String c r =>
      match digitValue radix c with
      | Some v => scanDigits radix r (acc * radix + v)%Z (count + 1)%Z
      | None => (acc, count, s)
      end
  | EmptyString => (acc, count, s)
  end.

Definition scanSign (s : string) : bool * string :=
  match s with
  | String "-" r => (true, r)
  | String "+" r => (false, r)
  | _ => (false, s)
  end.

(** ExponentPart_opt followed by the end of the string. *)
Definition scanExponent (s : string) : option Z :=
  match s with
  | EmptyString => Some 0%Z
  | String c r =>
      if (Ascii.eqb c "e" || Ascii.eqb c "E")%bool then
        let '(neg, r1) := scanSign r in
        match scanDigits 10 r1 0 0 with
        | (v, n, EmptyString) =>
            if (0 <? n)%Z then Some (if neg then (- v)%Z else v) else None
        | _ => None
        end
      else None
  end.

(** StrUnsignedDecimalLiteral without [Infinity]: mantissa and power of ten. *)
Definition scanDecimal (s : string) : option (Z * Z) :=
  let '(ip, ni, r1) := scanDigits 10 s 0 0 in
  let '(m, nf, r2) :=
    match r1 with
    | String "." r => scanDigits 10 r ip 0
    | _ => (ip, 0%Z, r1)
    end in
  if (0 <? ni + nf)%Z then
    match scanExponent r2 with
    | Some e => Some (m, (e - nf)%Z)
    | None => None
    end
  else None.

Definition scaled (neg : bool) (m e10 : Z) : number :=
  if (0 <=? e10)%Z then nearest neg (m * 10 ^ e10) 1
  else nearest neg m (10 ^ (- e10)).

Definition scanRadix (radix : Z) (s : string) : number :=
  match scanDigits radix s 0 0 with
  | (v, n, EmptyString) => if (0 <? n)%Z then nearest false v 1 else nan
  | _ => nan
  end.

Definition Number (str : string) : number :=
  match trim str with
  | EmptyString => 0%float
  | String "0" (String "x" r) | String "0" (String "X" r) => scanRadix 16 r
  | String "0" (String "o" r) | String "0" (String "O" r) => scanRadix 8 r
  | String "0" (String "b" r) | String "0" (String "B" r) => scanRadix 2 r
  | t =>
      let '(neg, u) := scanSign t in
      if String.eqb u "Infinity" then (if neg then neg_infinity else infinity)
      else match scanDecimal u with
           | Some (m, e10) => scaled neg m e10
           | None => nan
           end
  end.

End JS.

Bind Scope float_scope with JS.number.

(** ** Data model *)

Module Point.
Record t := mk { x : JS.number; y : JS.number }.
End Point.

(** The viewport [{x, y, w, h}], over the type of its coordinates. *)
Module View.
Record t (A : Type) := mk { x : A; y : A; w : A; h : A }.
Arguments mk {A} _ _ _ _.
Arguments x {A} _.
Arguments y {A} _.
Arguments w {A} _.
Arguments h {A} _.
End View.

Inductive ToolType :=
  select | measure | detail | draw_rect | draw_circle | draw_polyline | draw_arc.

Definition ToolType_eqb (a b : ToolType) : bool :=
  match a, b with
  | select, select | measure, measure | detail, detail
  | draw_rect, draw_rect | draw_circle, draw_circle
  | draw_polyline, draw_polyline | draw_arc, draw_arc => true
  | _, _ => false
  end.

(** [tool.startsWith('draw_')] *)
Definition startsWith_draw (t : ToolType) : bool :=
  match t with
  | draw_rect | draw_circle | draw_polyline | draw_arc => true
  | _ => false
  end.

Module Measurement.
Record t := mk { p1 : Point.t; p2 : Point.t; distance : JS.number }.
End Measurement.

(** [UserShape]: the [type] tag and the [data] object it goes with are one
    constructor of [data]. *)
Module Shape.
Inductive data :=
| rect (x y w h startX startY : JS.number)
| circle (cx cy r : JS.number)
| polyline (points : list Point.t)
| arc (p1 p2 control : Point.t).

Record t := mk { id : string; shape : data; color : string }.

(** [shape.data.w] and [shape.data.r]: [undefined] on the other types. *)
Definition data_w (s : t) : option JS.number :=
  match shape s with rect _ _ w _ _ _ => Some w | _ => None end.
Definition data_h (s : t) : option JS.number :=
  match shape s with rect _ _ _ h _ _ => Some h | _ => None end.
Definition data_r (s : t) : option JS.number :=
  match shape s with circle _ _ r => Some r | _ => None end.
Definition points (s : t) : list Point.t :=
  match shape s with polyline pts => pts | _ => [] end.
End Shape.

(** [v > 0] for a property that may be [undefined] (then false). *)
Definition positive (v : option JS.number) : bool :=
  match v with Some n => JS.gt n 0%float | None => false end.

(** *** The rendered document, as far as a click sees it *)

Record DOMRect := mkDOMRect {
  rx : JS.number; ry : JS.number; rwidth : JS.number; rheight : JS.number }.

(** An element with its chain of parents; [node] is its identity. *)
Inductive Element := mkElement {
  node : nat;
  tagName : string;
  attributes : list (string * string);
  getBBox : DOMRect;
  parentElement : option Element }.

Fixpoint assoc (k : string) (l : list (string * string)) : option string :=
  match l with
  | (k', v) :: r => if String.eqb k k' then Some v else assoc k r
  | [] => None
  end.

Definition getAttribute (e : Element) (name : string) : option string :=
  assoc name (attributes e).

(** [element.id]: the [id] attribute, [""] when absent. *)
Definition element_id (e : Element) : string :=
  match getAttribute e "id" with Some v => v | None => EmptyString end.

Module Selected.
Record t := mk {
  id : string;
  type : string;
  attributes : list (string * string);
  bbox : option DOMRect }.
End Selected.

(** What a handler reads from outside the React state: the container's size
    ([containerRef.current]), the canvas [svg] ([svgRef.current]) with the
    inverse of its screen matrix, and the clock behind [Date.now()]. *)
Record SvgRoot := mkSvgRoot {
  svgNode : nat;
  inverseCTM : option (Point.t -> Point.t) }.

Record Dom := mkDom {
  containerRef : option (JS.number * JS.number);
  svgRef : option SvgRoot;
  Date_now : string }.

Record MouseEvent := mkMouseEvent {
  button : Z;
  clientX : JS.number;
  clientY : JS.number;
  target : Element }.

Record KeyboardEvent := mkKeyboardEvent {
  metaKey : bool; ctrlKey : bool; shiftKey : bool; key : string }.

(** The component's props, as far as the engine reads them. *)
Record Props := mkProps {
  viewBox : string;
  svgContent : option string;
  onReqDetail : bool }.

(** ** React state *)

Record State := mkState {
  viewState : option (View.t JS.number);
  isPanning : bool;
  lastMousePos : Point.t;
  snapEnabled : bool;
  cursorPos : option Point.t;
  activeTool : ToolType;
  measureStart : option Point.t;
  measurements : list Measurement.t;
  detailInput : string;
  userShapes : list Shape.t;
  currentShape : option Shape.t;
  drawStep : Z;
  history : list (list Shape.t);
  future : list (list Shape.t);
  selectedElement : option Selected.t;
  dragStartRef : option Point.t
}.

(** A state update as React enqueues it: [setX (fun prev => ...)]; the plain
    form [setX v] is [setX (value v)]. *)
Definition Update := State -> State.

Definition value {A : Type} (v : A) : A -> A := fun _ => v.

Definition setViewState (g : (option (View.t JS.number)) -> option (View.t JS.number))
  : Update := fun s =>
  {| viewState := g (viewState s); isPanning := isPanning s;
     lastMousePos := lastMousePos s; snapEnabled := snapEnabled s;
     cursorPos := cursorPos s; activeTool := activeTool s;
     measureStart := measureStart s; measurements := measurements s;
     detailInput := detailInput s; userShapes := userShapes s;
     currentShape := currentShape s; drawStep := drawStep s;
     history := history s; future := future s;
     selectedElement := selectedElement s; dragStartRef := dragStartRef s |}.

Definition setIsPanning (g : bool -> bool) : Update := fun s =>
  {| viewState := viewState s; isPanning := g (isPanning s);
     lastMousePos := lastMousePos s; snapEnabled := snapEnabled s;
     cursorPos := cursorPos s; activeTool := activeTool s;
     measureStart := measureStart s; measurements := measurements s;
     detailInput := detailInput s; userShapes := userShapes s;
     currentShape := currentShape s; drawStep := drawStep s;
     history := history s; future := future s;
     selectedElement := selectedElement s; dragStartRef := dragStartRef s |}.

Definition setLastMousePos (g : Point.t -> Point.t) : Update := fun s =>
  {| viewState := viewState s; isPanning := isPanning s;
     lastMousePos := g (lastMousePos s); snapEnabled := snapEnabled s;
     cursorPos := cursorPos s; activeTool := activeTool s;
     measureStart := measureStart s; measurements := measurements s;
     detailInput := detailInput s; userShapes := userShapes s;
     currentShape := currentShape s; drawStep := drawStep s;
     history := history s; future := future s;
     selectedElement := selectedElement s; dragStartRef := dragStartRef s |}.

Definition setSnapEnabled (g : bool -> bool) : Update := fun s =>
  {| viewState := viewState s; isPanning := isPanning s;
     lastMousePos := lastMousePos s; snapEnabled := g (snapEnabled s);
     cursorPos := cursorPos s; activeTool := activeTool s;
     measureStart := measureStart s; measurements := measurements s;
     detailInput := detailInput s; userShapes := userShapes s;
     currentShape := currentShape s; drawStep := drawStep s;
     history := history s; future := future s;
     selectedElement := selectedElement s; dragStartRef := dragStartRef s |}.

Definition setCursorPos (g : (option Point.t) -> option Point.t)
  : Update := fun s =>
  {| viewState := viewState s; isPanning := isPanning s;
     lastMousePos := lastMousePos s; snapEnabled := snapEnabled s;
     cursorPos := g (cursorPos s); activeTool := activeTool s;
     measureStart := measureStart s; measurements := measurements s;
     detailInput := detailInput s; userShapes := userShapes s;
     currentShape := currentShape s; drawStep := drawStep s;
     history := history s; future := future s;
     selectedElement := selectedElement s; dragStartRef := dragStartRef s |}.

Definition setActiveTool (g : ToolType -> ToolType) : Update := fun s =>
  {| viewState := viewState s; isPanning := isPanning s;
     lastMousePos := lastMousePos s; snapEnabled := snapEnabled s;
     cursorPos := cursorPos s; activeTool := g (activeTool s);
     measureStart := measureStart s; measurements := measurements s;
     detailInput := detailInput s; userShapes := userShapes s;
     currentShape := currentShape s; drawStep := drawStep s;
     history := history s; future := future s;
     selectedElement := selectedElement s; dragStartRef := dragStartRef s |}.

Definition setMeasureStart (g : (option Point.t) -> option Point.t)
  : Update := fun s =>
  {| viewState := viewState s; isPanning := isPanning s;
     lastMousePos := lastMousePos s; snapEnabled := snapEnabled s;
     cursorPos := cursorPos s; activeTool := activeTool s;
     measureStart := g (measureStart s); measurements := measurements s;
     detailInput := detailInput s; userShapes := userShapes s;
     currentShape := currentShape s; drawStep := drawStep s;
     history := history s; future := future s;
     selectedElement := selectedElement s; dragStartRef := dragStartRef s |}.

Definition setMeasurements (g : (list Measurement.t) -> list Measurement.t)
  : Update := fun s =>
  {| viewState := viewState s; isPanning := isPanning s;
     lastMousePos := lastMousePos s; snapEnabled := snapEnabled s;
     cursorPos := cursorPos s; activeTool := activeTool s;
     measureStart := measureStart s; measurements := g (measurements s);
     detailInput := detailInput s; userShapes := userShapes s;
     currentShape := currentShape s; drawStep := drawStep s;
     history := history s; future := future s;
     selectedElement := selectedElement s; dragStartRef := dragStartRef s |}.

Definition setDetailInput (g : string -> string) : Update := fun s =>
  {| viewState := viewState s; isPanning := isPanning s;
     lastMousePos := lastMousePos s; snapEnabled := snapEnabled s;
     cursorPos := cursorPos s; activeTool := activeTool s;
     measureStart := measureStart s; measurements := measurements s;
     detailInput := g (detailInput s); userShapes := userShapes s;
     currentShape := currentShape s; drawStep := drawStep s;
     history := history s; future := future s;
     selectedElement := selectedElement s; dragStartRef := dragStartRef s |}.

Definition setUserShapes (g : (list Shape.t) -> list Shape.t)
  : Update := fun s =>
  {| viewState := viewState s; isPanning := isPanning s;
     lastMousePos := lastMousePos s; snapEnabled := snapEnabled s;
     cursorPos := cursorPos s; activeTool := activeTool s;
     measureStart := measureStart s; measurements := measurements s;
     detailInput := detailInput s; userShapes := g (userShapes s);
     currentShape := currentShape s; drawStep := drawStep s;
     history := history s; future := future s;
     selectedElement := selectedElement s; dragStartRef := dragStartRef s |}.

Definition setCurrentShape (g : (option Shape.t) -> option Shape.t)
  : Update := fun s =>
  {| viewState := viewState s; isPanning := isPanning s;
     lastMousePos := lastMousePos s; snapEnabled := snapEnabled s;
     cursorPos := cursorPos s; activeTool := activeTool s;
     measureStart := measureStart s; measurements := measurements s;
     detailInput := detailInput s; userShapes := userShapes s;
     currentShape := g (currentShape s); drawStep := drawStep s;
     history := history s; future := future s;
     selectedElement := selectedElement s; dragStartRef := dragStartRef s |}.

Definition setDrawStep (g : Z -> Z) : Update := fun s =>
  {| viewState := viewState s; isPanning := isPanning s;
     lastMousePos := lastMousePos s; snapEnabled := snapEnabled s;
     cursorPos := cursorPos s; activeTool := activeTool s;
     measureStart := measureStart s; measurements := measurements s;
     detailInput := detailInput s; userShapes := userShapes s;
     currentShape := currentShape s; drawStep := g (drawStep s);
     history := history s; future := future s;
     selectedElement := selectedElement s; dragStartRef := dragStartRef s |}.

Definition setHistory (g : (list (list Shape.t)) -> list (list Shape.t))
  : Update := fun s =>
  {| viewState := viewState s; isPanning := isPanning s;
     lastMousePos := lastMousePos s; snapEnabled := snapEnabled s;
     cursorPos := cursorPos s; activeTool := activeTool s;
     measureStart := measureStart s; measurements := measurements s;
     detailInput := detailInput s; userShapes := userShapes s;
     currentShape := currentShape s; drawStep := drawStep s;
     history := g (history s); future := future s;
     selectedElement := selectedElement s; dragStartRef := dragStartRef s |}.

Definition setFuture (g : (list (list Shape.t)) -> list (list Shape.t))
  : Update := fun s =>
  {| viewState := viewState s; isPanning := isPanning s;
     lastMousePos := lastMousePos s; snapEnabled := snapEnabled s;
     cursorPos := cursorPos s; activeTool := activeTool s;
     measureStart := measureStart s; measurements := measurements s;
     detailInput := detailInput s; userShapes := userShapes s;
     currentShape := currentShape s; drawStep := drawStep s;
     history := history s; future := g (future s);
     selectedElement := selectedElement s; dragStartRef := dragStartRef s |}.

Definition setSelectedElement (g : (option Selected.t) -> option Selected.t)
  : Update := fun s =>
  {| viewState := viewState s; isPanning := isPanning s;
     lastMousePos := lastMousePos s; snapEnabled := snapEnabled s;
     cursorPos := cursorPos s; activeTool := activeTool s;
     measureStart := measureStart s; measurements := measurements s;
     detailInput := detailInput s; userShapes := userShapes s;
     currentShape := currentShape s; drawStep := drawStep s;
     history := history s; future := future s;
     selectedElement := g (selectedElement s);
     dragStartRef := dragStartRef s |}.

Definition setDragStartRef (g : (option Point.t) -> option Point.t)
  : Update := fun s =>
  {| viewState := viewState s; isPanning := isPanning s;
     lastMousePos := lastMousePos s; snapEnabled := snapEnabled s;
     cursorPos := cursorPos s; activeTool := activeTool s;
     measureStart := measureStart s; measurements := measurements s;
     detailInput := detailInput s; userShapes := userShapes s;
     currentShape := currentShape s; drawStep := drawStep s;
     history := history s; future := future s;
     selectedElement := selectedElement s;
     dragStartRef := g (dragStartRef s) |}.

(** A handler reads the state of the render it was created in and enqueues
    updates; React applies them in order before the next render. *)
Definition Handler := State -> list Update.

Definition apply_updates (us : list Update) (s : State) : State :=
  fold_left (fun st u => u st) us s.

Definition dispatch (h : Handler) (s : State) : State := apply_updates (h s) s.

Definition initialState : State :=
  {| viewState := None; isPanning := false;
     lastMousePos := Point.mk 0 0; snapEnabled := true; cursorPos := None;
     activeTool := select; measureStart := None; measurements := [];
     detailInput := EmptyString; userShapes := []; currentShape := None;
     drawStep := 0; history := []; future := [];
     selectedElement := None; dragStartRef := None |}.

(** ** The component's functions *)

(** [baseViewBox]: the memoised parse of the [viewBox] prop. *)
Definition baseViewBox (viewBox : string) : list JS.number :=
  let parts := map JS.Number (JS.split_ws (JS.trim viewBox)) in
  if (List.length parts =? 4)%nat then parts else [0; 0; 100; 100]%float.

(** [{x: baseViewBox[0], y: baseViewBox[1], w: baseViewBox[2],
    h: baseViewBox[3]}]; [baseViewBox] always has four entries. *)
Definition baseView (p : Props) : View.t JS.number :=
  let b := baseViewBox (viewBox p) in
  View.mk (nth 0 b nan) (nth 1 b nan) (nth 2 b nan) (nth 3 b nan).

(** The effect on [baseViewBox]: initialise / reset. *)
Definition resetEffect (p : Props) : Handler := fun _ =>
  [ setViewState (value (Some (baseView p)));
    setMeasurements (value []);
    setUserShapes (value []);
    setHistory (value []);
    setFuture (value []);
    setSelectedElement (value None) ].

(** React runs the effect after the first render and after each render in
    which [baseViewBox] is a new array, that is when the [viewBox] prop is a
    different string. *)
Definition mount (p : Props) : State := dispatch (resetEffect p) initialState.

Definition rerender (prev next : Props) (s : State) : State :=
  if String.eqb (viewBox prev) (viewBox next) then s
  else dispatch (resetEffect next) s.


(** *** History *)

Definition saveState : Handler := fun s =>
  [ setHistory (fun prev => prev ++ [userShapes s]);
    setFuture (value []) ].

Definition handleUndo : Handler := fun s =>
  if (List.length (history s) =? 0)%nat then []
  else
    let previous := last (history s) [] in
    let newHistory := removelast (history s) in
    [ setFuture (fun prev => userShapes s :: prev);
      setUserShapes (value previous);
      setHistory (value newHistory) ].

Definition handleRedo : Handler := fun s =>
  if (List.length (future s) =? 0)%nat then []
  else
    let next := hd [] (future s) in
    let newFuture := tl (future s) in
    [ setHistory (fun prev => prev ++ [userShapes s]);
      setUserShapes (value next);
      setFuture (value newFuture) ].

Definition handleKeyDown (e : KeyboardEvent) : Handler := fun s =>
  (if (metaKey e || ctrlKey e) && String.eqb (key e) "z"
   then (if shiftKey e then handleRedo s else handleUndo s) else [])
  ++
  (if (metaKey e || ctrlKey e) && String.eqb (key e) "y"
   then handleRedo s else []).

(** *** Zoom *)

(** The body of [handleZoom], over the arithmetic it is read in. *)
Section Zoom.
Context {A : Type} (add sub div : A -> A -> A) (two : A).

Definition zoom (factor : A) (v : View.t A) : View.t A :=
  let newW := div (View.w v) factor in
  let newH := div (View.h v) factor in
  let dx := div (sub (View.w v) newW) two in
  let dy := div (sub (View.h v) newH) two in
  View.mk (add (View.x v) dx) (add (View.y v) dy) newW newH.
End Zoom.

Definition handleZoom (factor : JS.number) : Handler := fun s =>
  match viewState s with
  | None => []
  | Some v =>
      [ setViewState
          (value (Some (zoom PrimFloat.add PrimFloat.sub PrimFloat.div 2%float
                             factor v))) ]
  end.

Definition handleZoomIn : Handler := handleZoom 1.2.
Definition handleZoomOut : Handler := handleZoom 0.8.

Definition handleReset (p : Props) : Handler := fun _ =>
  [ setViewState (value (Some (baseView p))) ].

(** *** Drawing *)

Definition emerald : string := "#10b981".

Definition handleDrawingStart (dom : Dom) (tool : ToolType) (pos : Point.t)
  : Handler := fun s =>
  match tool with
  | draw_rect =>
      [ setCurrentShape (value (Some
          (Shape.mk (Date_now dom)
             (Shape.rect (Point.x pos) (Point.y pos) 0 0 (Point.x pos) (Point.y pos))
             emerald))) ]
  | draw_circle =>
      [ setCurrentShape (value (Some
          (Shape.mk (Date_now dom)
             (Shape.circle (Point.x pos) (Point.y pos) 0) emerald))) ]
  | draw_polyline =>
      match currentShape s with
      | None =>
          [ setCurrentShape (value (Some
              (Shape.mk (Date_now dom) (Shape.polyline [pos; pos]) emerald))) ]
      | Some cur =>
          match Shape.shape cur with
          | Shape.polyline points =>
              let newPoints := points ++ [pos] in
              [ setCurrentShape (value (Some
                  (Shape.mk (Shape.id cur) (Shape.polyline newPoints)
                     (Shape.color cur)))) ]
          | _ => []  (* spreading [undefined] throws: nothing is enqueued *)
          end
      end
  | draw_arc =>
      if (drawStep s =? 0)%Z then
        [ setCurrentShape (value (Some
            (Shape.mk (Date_now dom) (Shape.arc pos pos pos) emerald)));
          setDrawStep (value 1%Z) ]
      else if (drawStep s =? 1)%Z then [ setDrawStep (value 2%Z) ]
      else if (drawStep s =? 2)%Z then
        match currentShape s with
        | Some cur => saveState s ++ [ setUserShapes (fun prev => prev ++ [cur]) ]
        | None => []
        end
        ++ [ setCurrentShape (value None); setDrawStep (value 0%Z) ]
      else []
  | _ => []
  end.

(** [pts[pts.length - 1] = pos] on a copy: with no element there is no last
    one to replace (index -1 is not an element). *)
Definition set_last (pos : Point.t) (pts : list Point.t) : list Point.t :=
  match pts with
  | [] => []
  | _ => removelast pts ++ [pos]
  end.

Definition updateDrawingPreview (pos : Point.t) : Handler := fun s =>
  match currentShape s with
  | None => []
  | Some cur =>
      match Shape.shape cur with
      | Shape.rect _ _ _ _ startX startY =>
          let w := (Point.x pos - startX)%float in
          let h := (Point.y pos - startY)%float in
          [ setCurrentShape (value (Some
              (Shape.mk (Shape.id cur)
                 (Shape.rect (if JS.lt w 0 then Point.x pos else startX)
                             (if JS.lt h 0 then Point.y pos else startY)
                             (JS.Math_abs w) (JS.Math_abs h) startX startY)
                 (Shape.color cur)))) ]
      | Shape.circle cx cy _ =>
          let r := JS.Math_hypot (Point.x pos - cx) (Point.y pos - cy) in
          [ setCurrentShape (value (Some
              (Shape.mk (Shape.id cur) (Shape.circle cx cy r) (Shape.color cur)))) ]
      | Shape.polyline points =>
          let pts := set_last pos points in
          [ setCurrentShape (value (Some
              (Shape.mk (Shape.id cur) (Shape.polyline pts) (Shape.color cur)))) ]
      | Shape.arc p1 p2 control =>
          if (drawStep s =? 1)%Z then
            [ setCurrentShape (value (Some
                (Shape.mk (Shape.id cur)
                   (Shape.arc p1 pos
                      (Point.mk ((Point.x p1 + Point.x pos) / 2)
                                ((Point.y p1 + Point.y pos) / 2)))
                   (Shape.color cur)))) ]
          else if (drawStep s =? 2)%Z then
            [ setCurrentShape (value (Some
                (Shape.mk (Shape.id cur) (Shape.arc p1 p2 pos) (Shape.color cur)))) ]
          else []
      end
  end.

(** *** Pointer handlers *)

Definition onMouseDown (dom : Dom) (e : MouseEvent) : Handler := fun s =>
  if negb (button e =? 0)%Z then []
  else
    setDragStartRef (value (Some (Point.mk (clientX e) (clientY e)))) ::
    match cursorPos s with
    | None => []
    | Some pos =>
        if ToolType_eqb (activeTool s) measure then
          match measureStart s with
          | None => [ setMeasureStart (value (Some pos)) ]
          | Some start =>
              let distance :=
                JS.Math_hypot (Point.x pos - Point.x start)
                              (Point.y pos - Point.y start) in
              (if JS.gt distance 0.01 then
                 [ setMeasurements (fun prev => prev ++
                     [ Measurement.mk start pos (JS.parseFloat_toFixed distance 3) ]) ]
               else [])
              ++ [ setMeasureStart (value None) ]
          end
        else if startsWith_draw (activeTool s) then
          handleDrawingStart dom (activeTool s) pos s
        else if ToolType_eqb (activeTool s) select then
          [ setIsPanning (value true);
            setLastMousePos (value (Point.mk (clientX e) (clientY e))) ]
        else []
    end.

(** Grid snapping of one coordinate: [Math.round(v / SNAP) * SNAP]. *)
Definition SNAP : JS.number := 0.5.

Definition snap (v : JS.number) : JS.number :=
  (JS.Math_round (v / SNAP) * SNAP)%float.

Definition onMouseMove (dom : Dom) (e : MouseEvent) : Handler := fun s =>
  (* 1. panning *)
  (if isPanning s && ToolType_eqb (activeTool s) select then
     match viewState s, containerRef dom with
     | Some v, Some (clientWidth, clientHeight) =>
         let dxPx := (clientX e - Point.x (lastMousePos s))%float in
         let dyPx := (clientY e - Point.y (lastMousePos s))%float in
         let ratioX := (View.w v / clientWidth)%float in
         let ratioY := (View.h v / clientHeight)%float in
         [ setViewState (value (Some
             (View.mk (View.x v - dxPx * ratioX)%float (View.y v - dyPx * ratioY)%float
                      (View.w v) (View.h v))));
           setLastMousePos (value (Point.mk (clientX e) (clientY e))) ]
     | _, _ => []
     end
   else [])
  ++
  (* 2. cursor snapping, 3. drawing preview *)
  match svgRef dom, viewState s with
  | Some svg, Some _ =>
      match inverseCTM svg with
      | Some inverse =>
          let worldPt := inverse (Point.mk (clientX e) (clientY e)) in
          let finalX := if snapEnabled s then snap (Point.x worldPt) else Point.x worldPt in
          let finalY := if snapEnabled s then snap (Point.y worldPt) else Point.y worldPt in
          let newCursorPos := Point.mk finalX finalY in
          setCursorPos (value (Some newCursorPos))
          :: updateDrawingPreview newCursorPos s
      | None => []
      end
  | _, _ => []
  end.

(** *** Hit-testing *)

(** [target === svgRef.current] *)
Definition is_svgRef (dom : Dom) (e : Element) : bool :=
  match svgRef dom with
  | Some svg => (node e =? svgNode svg)%nat
  | None => false
  end.

(** [id && !id.startsWith('grid') && !id.startsWith('arrow')] *)
Definition identifiable (id : string) : bool :=
  negb (JS.isEmpty id) && negb (String.prefix "grid" id)
  && negb (String.prefix "arrow" id).

Definition select_element (current : Element) : Selected.t :=
  let type :=
    match getAttribute current "data-type" with
    | Some v => if JS.isEmpty v then tagName current else v
    | None => tagName current
    end in
  Selected.mk (element_id current) type (attributes current)
              (Some (getBBox current)).

(** The loop [while (current && current !== svgRef.current && depth < 5)];
    [remaining] is [5 - depth]. *)
Fixpoint find_candidate (dom : Dom) (remaining : nat) (current : option Element)
  : option Selected.t :=
  match remaining, current with
  | S n, Some cur =>
      if is_svgRef dom cur then None
      else if identifiable (element_id cur) then Some (select_element cur)
      else find_candidate dom n (parentElement cur)
  | _, _ => None
  end.

(** [target === svgRef.current || target.tagName === 'svg' ||
    target.id === 'grid-layer'] *)
Definition is_background (dom : Dom) (target : Element) : bool :=
  is_svgRef dom target || String.eqb (tagName target) "svg"
  || String.eqb (element_id target) "grid-layer".

Definition handleElementClick (dom : Dom) (target : Element) : Handler := fun _ =>
  if is_background dom target then [ setSelectedElement (value None) ]
  else
    match find_candidate dom 5 (Some target) with
    | Some found => [ setSelectedElement (value (Some found)) ]
    | None => [ setSelectedElement (value None) ]
    end.

Definition onMouseUp (dom : Dom) (e : MouseEvent) : Handler := fun s =>
  setIsPanning (value false) ::
  (* finish drag shapes *)
  match currentShape s with
  | Some cur =>
      if ToolType_eqb (activeTool s) draw_rect
         || ToolType_eqb (activeTool s) draw_circle then
        let valid :=
          if ToolType_eqb (activeTool s) draw_rect
          then positive (Shape.data_w cur) else positive (Shape.data_r cur) in
        (if valid then saveState s ++ [ setUserShapes (fun prev => prev ++ [cur]) ]
         else [])
        ++ [ setCurrentShape (value None) ]
      else []
  | None => []
  end
  ++
  (* selection: a click, not a drag *)
  (if ToolType_eqb (activeTool s) select then
     match dragStartRef s with
     | Some start =>
         let dx := (clientX e - Point.x start)%float in
         let dy := (clientY e - Point.y start)%float in
         if JS.lt (JS.Math_hypot dx dy) 5 then handleElementClick dom (target e) s
         else []
     | None => []
     end
   else [])
  ++ [ setDragStartRef (value None) ].

Definition onDoubleClick : Handler := fun s =>
  match currentShape s with
  | Some cur =>
      if ToolType_eqb (activeTool s) draw_polyline then
        saveState s
        ++ [ setUserShapes (fun prev => prev ++ [cur]);
             setCurrentShape (value None) ]
      else []
  | None => []
  end.

Definition onMouseLeave (dom : Dom) (e : MouseEvent) : Handler := fun s =>
  onMouseUp dom e s ++ [ setCursorPos (value None) ].

(** *** Toolbar *)

Definition clearMeasurements : Handler := fun _ =>
  [ setMeasurements (value []); setMeasureStart (value None) ].

Definition clearUserShapes : Handler := fun s =>
  (if (0 <? List.length (userShapes s))%nat then saveState s else [])
  ++ [ setUserShapes (value []);
       setCurrentShape (value None);
       setDrawStep (value 0%Z) ].

Definition eraser : Handler := fun s => clearMeasurements s ++ clearUserShapes s.

Definition handleRequestDetail (p : Props) : Handler := fun s =>
  if negb (JS.isEmpty (JS.trim (detailInput s))) && onReqDetail p then
    [ setDetailInput (value EmptyString); setActiveTool (value select) ]
  else [].

(** The [onClick] of each tool button of the palette. *)
Definition toolButton (t : ToolType) : Handler := fun _ =>
  match t with
  | select => [ setActiveTool (value select) ]
  | measure => [ setActiveTool (value measure); setMeasureStart (value None) ]
  | draw_rect => [ setActiveTool (value draw_rect); setCurrentShape (value None) ]
  | draw_circle => [ setActiveTool (value draw_circle); setCurrentShape (value None) ]
  | draw_polyline =>
      [ setActiveTool (value draw_polyline); setCurrentShape (value None) ]
  | draw_arc =>
      [ setActiveTool (value draw_arc); setCurrentShape (value None);
        setDrawStep (value 0%Z) ]
  | detail => [ setActiveTool (value detail) ]
  end.

Definition snapButton : Handler := fun s =>
  [ setSnapEnabled (value (negb (snapEnabled s))) ].

(** ** Events and runs *)

Inductive Event :=
| MouseDown (e : MouseEvent)
| MouseMove (e : MouseEvent)
| MouseUp (e : MouseEvent)
| MouseLeave (e : MouseEvent)
| DoubleClick
| KeyDown (e : KeyboardEvent)
| ToolButton (t : ToolType)
| UndoButton
| RedoButton
| EraserButton
| ZoomInButton
| ZoomOutButton
| ResetButton
| SnapButton
| DetailInput (text : string)
| DetailSubmit
| InspectorClose.

Definition handler (p : Props) (dom : Dom) (ev : Event) : Handler :=
  match ev with
  | MouseDown e => onMouseDown dom e
  | MouseMove e => onMouseMove dom e
  | MouseUp e => onMouseUp dom e
  | MouseLeave e => onMouseLeave dom e
  | DoubleClick => onDoubleClick
  | KeyDown e => handleKeyDown e
  | ToolButton t => toolButton t
  | UndoButton => handleUndo
  | RedoButton => handleRedo
  | EraserButton => eraser
  | ZoomInButton => handleZoomIn
  | ZoomOutButton => handleZoomOut
  | ResetButton => handleReset p
  | SnapButton => snapButton
  | DetailInput text => fun _ => [ setDetailInput (value text) ]
  | DetailSubmit => handleRequestDetail p
  | InspectorClose => fun _ => [ setSelectedElement (value None) ]
  end.

(** One event, handled to completion and re-rendered before the next. *)
Definition step (p : Props) (s : State) (occ : Dom * Event) : State :=
  dispatch (handler p (fst occ) (snd occ)) s.

Definition run (p : Props) (evs : list (Dom * Event)) (s : State) : State :=
  fold_left (step p) evs s.

Fixpoint iter {A : Type} (n : nat) (f : A -> A) (a : A) : A :=
  match n with
  | O => a
  | S k => iter k f (f a)
  end.

(** ** Vocabulary of the properties *)

(** *** History *)

(** A commit, seen from outside: the step pushed the shape list it started
    from onto the past and emptied the future. *)
Definition is_commit (s s' : State) : Prop :=
  history s' = history s ++ [userShapes s] /\ future s' = [].

(** A step that is no user-shape action: list and stacks stay. *)
Definition is_neutral (s s' : State) : Prop :=
  userShapes s' = userShapes s /\ history s' = history s /\ future s' = future s.

(** [commits s n s']: [s'] is reached from [s] by [n] commits, with neutral
    steps anywhere in between. *)
Inductive commits : State -> nat -> State -> Prop :=
| commits_refl s : commits s 0 s
| commits_commit s n s' s'' :
    commits s n s' -> is_commit s' s'' -> commits s (S n) s''
| commits_neutral s n s' s'' :
    commits s n s' -> is_neutral s' s'' -> commits s n s''.

(** Everything but the user-shape list and the two stacks is the same. *)
Definition same_outside_history (s s' : State) : Prop :=
  measurements s' = measurements s
  /\ viewState s' = viewState s
  /\ selectedElement s' = selectedElement s
  /\ activeTool s' = activeTool s
  /\ drawStep s' = drawStep s
  /\ currentShape s' = currentShape s
  /\ measureStart s' = measureStart s
  /\ cursorPos s' = cursorPos s
  /\ snapEnabled s' = snapEnabled s
  /\ isPanning s' = isPanning s
  /\ lastMousePos s' = lastMousePos s
  /\ detailInput s' = detailInput s
  /\ dragStartRef s' = dragStartRef s.

(** *** Reset *)


(** *** Exact values *)

(** The rational number a finite binary64 value stands for. *)
Definition exactQ (x : JS.number) : Q :=
  match Prim2SF x with
  | S754_finite s m e =>
      let sm := if s then Zneg m else Zpos m in
      match e with
      | Zneg k => sm # (2 ^ k)
      | _ => inject_Z (sm * 2 ^ e)
      end
  | _ => 0%Q
  end.

(** *** Clicks of the polyline tool *)

(** Where [onMouseMove] puts the cursor for a pointer event. *)
Definition cursorAt (snapOn : bool) (inverse : Point.t -> Point.t) (e : MouseEvent)
  : Point.t :=
  let worldPt := inverse (Point.mk (clientX e) (clientY e)) in
  Point.mk (if snapOn then snap (Point.x worldPt) else Point.x worldPt)
           (if snapOn then snap (Point.y worldPt) else Point.y worldPt).

(** One click as the browser delivers it. *)
Definition click (dom : Dom) (e : MouseEvent) : list (Dom * Event) :=
  [ (dom, MouseMove e); (dom, MouseDown e); (dom, MouseUp e) ].

(** What a click of the polyline tool leaves alone. *)
Definition same_drawing_context (s s' : State) : Prop :=
  activeTool s' = activeTool s
  /\ viewState s' = viewState s
  /\ snapEnabled s' = snapEnabled s
  /\ userShapes s' = userShapes s
  /\ history s' = history s
  /\ future s' = future s.

(** *** Bounds strings *)

(** A run of white space, possibly empty. *)
Fixpoint allWhite (s : string) : bool :=
  match s with
  | EmptyString => true
  | String c r => JS.isWhiteSpace c && allWhite r
  end.

(** A token: at least one unit and no white space. *)
Fixpoint noWhite (s : string) : bool :=
  match s with
  | EmptyString => true
  | String c r => negb (JS.isWhiteSpace c) && noWhite r
  end.

Definition isToken (s : string) : bool := negb (JS.isEmpty s) && noWhite s.
Definition isSeparator (s : string) : bool := negb (JS.isEmpty s) && allWhite s.

(** Numeric: [Number] reads it as a number, not NaN. *)
Definition isNumeric (tok : string) : bool := negb (PrimFloat.is_nan (JS.Number tok)).

(** "Exactly four numeric tokens", as the bounds are described. *)
Definition four_numeric_tokens (vb : string) : bool :=
  let toks := JS.split_ws (JS.trim vb) in
  (List.length toks =? 4)%nat && forallb isNumeric toks.

(** *** Ancestors *)

(** The clicked node and its ancestors, nearest first. *)
Fixpoint chain (e : Element) : list Element :=
  match e with
  | mkElement _ _ _ _ parent =>
      e :: match parent with Some q => chain q | None => [] end
  end.

(** The ancestors a click can reach: those before the canvas [svg]. *)
Fixpoint below_canvas (dom : Dom) (l : list Element) : list Element :=
  match l with
  | e :: r => if is_svgRef dom e then [] else e :: below_canvas dom r
  | [] => []
  end.

(** The hit-test as it is described: nothing for the canvas or a background
    node; otherwise, among the clicked node and its ancestors, five levels at
    most, the first one whose identifier is not empty and not skipped. *)
Definition hitTest (dom : Dom) (clicked : Element) : option Element :=
  if is_background dom clicked then None
  else find (fun e => identifiable (element_id e))
            (firstn 5 (below_canvas dom (chain clicked))).

(** ** A concrete session *)

Definition demoProps : Props :=
  mkProps "0 0 100 100" (Some "<rect id='C-1' data-type='column'/>"%string) true.

(** The canvas [svg], node 0, whose screen matrix is the identity: pointer
    coordinates are world coordinates. *)
Definition canvasSvg : Element :=
  mkElement 0 "svg" [] (mkDOMRect 0 0 100 100) None.

Definition demoDom : Dom :=
  mkDom (Some (100, 100)%float) (Some (mkSvgRoot 0 (Some (fun pt => pt))))
        "1700000000000".

Definition pointer (x y : JS.number) : MouseEvent := mkMouseEvent 0 x y canvasSvg.

(** Moving the pointer to a point, and clicking there. *)
Definition moveTo (x y : JS.number) : list (Dom * Event) :=
  [ (demoDom, MouseMove (pointer x y)) ].

Definition clickAt (x y : JS.number) : list (Dom * Event) :=
  click demoDom (pointer x y).

Definition dragRect : list (Dom * Event) :=
  [ (demoDom, ToolButton draw_rect) ]
  ++ moveTo 1 1 ++ [ (demoDom, MouseDown (pointer 1 1)) ]
  ++ moveTo 3 2 ++ [ (demoDom, MouseUp (pointer 3 2)) ].

Definition measureSession (x1 y1 x2 y2 : JS.number) : State :=
  run demoProps
      ((demoDom, ToolButton measure) :: clickAt x1 y1 ++ clickAt x2 y2)
      (mount demoProps).

(** A rectangle gesture from (1,1), dragged to (3,2), and then the select
    button before the pointer is released. *)
Definition abandonedRect : State :=
  run demoProps
      ([ (demoDom, ToolButton draw_rect) ]
       ++ moveTo 1 1 ++ [ (demoDom, MouseDown (pointer 1 1)) ]
       ++ moveTo 3 2 ++ [ (demoDom, ToolButton select) ])
      (mount demoProps).

(** A rectangle dragged from (0,0) to (2,0), and one dragged to (0,2). *)
Definition dragRectTo (x y : JS.number) : State :=
  run demoProps
      ([ (demoDom, ToolButton draw_rect) ]
       ++ moveTo 0 0 ++ [ (demoDom, MouseDown (pointer 0 0)) ]
       ++ moveTo x y ++ [ (demoDom, MouseUp (pointer x y)) ])
      (mount demoProps).

(** The polyline tool, clicks at (0,0), (1,0) and (1,1), then the
    double-click handler. *)
Definition polylineSession : State :=
  run demoProps
      (flat_map (click demoDom) [ pointer 0 0; pointer 1 0; pointer 1 1 ]
       ++ [ (demoDom, DoubleClick) ])
      (step demoProps (mount demoProps) (demoDom, ToolButton draw_polyline)).

(** The same with the two presses a browser delivers at (1,1) before it
    fires [dblclick]. *)
Definition polylineSessionBrowser : State :=
  run demoProps
      (flat_map (click demoDom)
                [ pointer 0 0; pointer 1 0; pointer 1 1; pointer 1 1; pointer 1 1 ]
       ++ [ (demoDom, DoubleClick) ])
      (step demoProps (mount demoProps) (demoDom, ToolButton draw_polyline)).

(** The drawing: the canvas [svg], the group of generated geometry, and a
    column [C-1] in it. *)
Definition cadGeometry : Element :=
  mkElement 1 "g" [ ("class", "cad-geometry") ]%string (mkDOMRect 0 0 100 100)
            (Some canvasSvg).

Definition columnC1 : Element :=
  mkElement 2 "g" [ ("id", "C-1"); ("data-type", "column") ]%string
            (mkDOMRect 10 10 4 4) (Some cadGeometry).

(** [n] anonymous groups nested below [e]; the innermost is the result. *)
Fixpoint nested (n : nat) (e : Element) : Element :=
  match n with
  | O => e
  | S m => mkElement (100 + m) "g" [] (mkDOMRect 11 11 1 1) (Some (nested m e))
  end.

(** ** Vocabulary of the further properties *)

(** What an event may do to the user shapes and the two stacks. *)
Definition shape_action (s s' : State) : Prop :=
  is_neutral s s'
  \/ (is_commit s s'
      /\ (userShapes s' = [] \/ exists sh, userShapes s' = userShapes s ++ [sh]))
  \/ (history s <> [] /\ s' = dispatch handleUndo s)
  \/ (future s <> [] /\ s' = dispatch handleRedo s).

(** The events that come from the pointer. *)
Definition is_pointer_event (ev : Event) : bool :=
  match ev with
  | MouseDown _ | MouseMove _ | MouseUp _ | MouseLeave _ | DoubleClick => true
  | _ => false
  end.

(** The three view controls of the top-right bar. *)
Definition is_view_control (ev : Event) : bool :=
  match ev with
  | ZoomInButton | ZoomOutButton | ResetButton => true
  | _ => false
  end.

(** *** Well-formed drawing state *)

(** A shape as it may sit in the shape list or in a history frame. *)
Definition stored_ok (sh : Shape.t) : Prop :=
  match Shape.shape sh with
  | Shape.rect _ _ w h _ _ => JS.gt w 0 = true /\ JS.lt h 0 = false
  | Shape.circle _ _ r => JS.gt r 0 = true
  | Shape.polyline points => 2 <= List.length points
  | Shape.arc _ _ _ => True
  end.

(** A shape in progress. *)
Definition preview_ok (sh : Shape.t) : Prop :=
  match Shape.shape sh with
  | Shape.rect _ _ w h _ _ => JS.lt w 0 = false /\ JS.lt h 0 = false
  | Shape.circle _ _ r => JS.lt r 0 = false
  | Shape.polyline points => 2 <= List.length points
  | Shape.arc _ _ _ => True
  end.

(** The shape in progress is of the kind the drawing tool makes. *)
Definition tool_match (t : ToolType) (sh : Shape.t) : Prop :=
  match t, Shape.shape sh with
  | draw_rect, Shape.rect _ _ _ _ _ _ => True
  | draw_circle, Shape.circle _ _ _ => True
  | draw_polyline, Shape.polyline _ => True
  | draw_arc, Shape.arc _ _ _ => True
  | (draw_rect | draw_circle | draw_polyline | draw_arc), _ => False
  | _, _ => True
  end.

Definition wellFormed (s : State) : Prop :=
  (drawStep s = 0 \/ drawStep s = 1 \/ drawStep s = 2)%Z
  /\ (forall sh, currentShape s = Some sh ->
                 preview_ok sh /\ tool_match (activeTool s) sh)
  /\ Forall stored_ok (userShapes s)
  /\ Forall (Forall stored_ok) (history s)
  /\ Forall (Forall stored_ok) (future s).

(** Two shapes of the same kind. *)
Definition same_kind (a b : Shape.t) : Prop :=
  match Shape.shape a, Shape.shape b with
  | Shape.rect _ _ _ _ _ _, Shape.rect _ _ _ _ _ _
  | Shape.circle _ _ _, Shape.circle _ _ _
  | Shape.polyline _, Shape.polyline _
  | Shape.arc _ _ _, Shape.arc _ _ _ => True
  | _, _ => False
  end.

Definition step_in_range (s : State) : Prop :=
  (drawStep s = 0 \/ drawStep s = 1 \/ drawStep s = 2)%Z.

(** ** The inspector *)

(** A JavaScript object used as a string map, as the list of its entries in
    insertion order; [assign] is one property assignment. *)
Fixpoint assign (k v : string) (obj : list (string * string)) : list (string * string) :=
  match obj with
  | [] => [ (k, v) ]
  | (k', v') :: r =>
      if String.eqb k k' then (k, v) :: r else (k', v') :: assign k v r
  end.

(** [{...a, ...b}] *)
Definition spread (a b : list (string * string)) : list (string * string) :=
  fold_left (fun obj kv => assign (fst kv) (snd kv) obj) b a.

(** [attributes.stroke || '#22d3ee']: the default for an absent or empty
    value. *)
Definition or_default (v : option string) (d : string) : string :=
  match v with
  | Some x => if JS.isEmpty x then d else x
  | None => d
  end.

(** The four fields of the inspector panel ([InspectorPanel]'s state). *)
Record PanelFields := mkPanelFields {
  localId : string;
  stroke : string;
  fill : string;
  strokeWidth : string }.

(** The panel's fields as it initialises them from its props. *)
Definition panelFields (elementId : string) (attributes : list (string * string))
  : PanelFields :=
  mkPanelFields elementId
    (or_default (assoc "stroke" attributes) "#22d3ee")
    (or_default (assoc "fill" attributes) "none")
    (or_default (assoc "stroke-width" attributes) "2").

(** [handleApply]: the object passed to [onUpdate]. *)
Definition handleApply (f : PanelFields) : list (string * string) :=
  [ ("id", localId f); ("stroke", stroke f); ("fill", fill f);
    ("stroke-width", strokeWidth f) ]%string.

(** [!svgContent]: null or the empty string. *)
Definition no_content (p : Props) : bool :=
  match svgContent p with
  | Some c => JS.isEmpty c
  | None => true
  end.

(** [handleInspectorUpdate], its part on the React state; [newAttrs] is the
    object [handleApply] builds. *)
Definition handleInspectorUpdate (p : Props) (f : PanelFields) : Handler := fun s =>
  match selectedElement s with
  | None => []
  | Some _ =>
      if no_content p then []
      else
        [ setSelectedElement (fun prev =>
            match prev with
            | Some sel =>
                Some (Selected.mk (localId f) (Selected.type sel)
                        (spread (Selected.attributes sel) (handleApply f))
                        (Selected.bbox sel))
            | None => None
            end) ]
  end.

(** The rendered document as [document.getElementById] sees it: the
    attributes of its elements, in document order. *)
Definition Document := list (list (string * string)).

Definition has_id (id : string) (attrs : list (string * string)) : bool :=
  match assoc "id" attrs with
  | Some v => String.eqb v id
  | None => false
  end.

(** The patch of the element: [el.id = ...] unless unchanged, then the three
    [setAttribute] calls. *)
Definition patchElement (selectedId : string) (f : PanelFields)
  (attrs : list (string * string)) : list (string * string) :=
  let a := if String.eqb (localId f) selectedId then attrs
           else assign "id" (localId f) attrs in
  assign "stroke-width" (strokeWidth f) (assign "fill" (fill f) (assign "stroke" (stroke f) a)).

(** The first element with the identifier is patched; [getElementById("")]
    finds nothing. *)
Fixpoint patchFirst (selectedId : string) (f : PanelFields) (doc : Document)
  : Document :=
  match doc with
  | [] => []
  | el :: r =>
      if has_id selectedId el then patchElement selectedId f el :: r
      else el :: patchFirst selectedId f r
  end.

(** [handleInspectorUpdate], its part on the live document. *)
Definition patchDocument (p : Props) (f : PanelFields) (s : State) (doc : Document)
  : Document :=
  match selectedElement s with
  | None => doc
  | Some sel =>
      if no_content p then doc
      else if JS.isEmpty (Selected.id sel) then doc
      else patchFirst (Selected.id sel) f doc
  end.

(** *** The detail form *)

(** The identifier [handleRequestDetail] passes to [onReqDetail], if it
    calls it. *)
Definition requestedDetail (p : Props) (s : State) : option string :=
  if negb (JS.isEmpty (JS.trim (detailInput s))) && onReqDetail p
  then Some (JS.trim (detailInput s)) else None.

(** The first and the last code unit of a string. *)
Definition firstUnit (s : string) : option ascii :=
  match s with String c _ => Some c | EmptyString => None end.

Fixpoint lastUnit (s : string) : option ascii :=
  match s with
  | EmptyString => None
  | String c EmptyString => Some c
  | String _ r => lastUnit r
  end.

Definition is_white (c : option ascii) : bool :=
  match c with Some a => JS.isWhiteSpace a | None => false end.

(** ** The states the component can be in *)

(** Mounted, then any events and any "apply" of the inspector, the props
    changing in between. *)
Inductive reachable (p0 : Props) : Props -> State -> Prop :=
| reachable_mount : reachable p0 p0 (mount p0)
| reachable_step p s dom ev :
    reachable p0 p s -> reachable p0 p (step p s (dom, ev))
| reachable_inspector p f s :
    reachable p0 p s -> reachable p0 p (dispatch (handleInspectorUpdate p f) s)
| reachable_rerender p p' s :
    reachable p0 p s -> reachable p0 p' (rerender p p' s).

(** The session in which the column [C-1] was clicked with the select tool. *)
Definition demoSelection : State :=
  let ev := mkMouseEvent 0 10 10 (nested 2 columnC1) in
  run demoProps [ (demoDom, MouseDown ev); (demoDom, MouseUp ev) ] (mount demoProps).

(** * Properties *)

(** ** The built-ins on examples *)

Example Number_ex1 : JS.Number "100" = 100%float.
Proof. reflexivity. Qed.
Example Number_ex2 : JS.Number "-12.5e1" = (-125)%float.
Proof. reflexivity. Qed.
Example Number_ex3 : JS.Number ".5" = 0.5%float.
Proof. reflexivity. Qed.
Example Number_ex4 : JS.Number "0x1F" = 31%float.
Proof. reflexivity. Qed.
Example Number_ex5 : Prim2SF (JS.Number "12px") = S754_nan.
Proof. reflexivity. Qed.
Example Number_ex6 : Prim2SF (JS.Number ".") = S754_nan.
Proof. reflexivity. Qed.
Example Number_ex7 : JS.Number "0.1" = 0.1%float.
Proof. reflexivity. Qed.
Example round_ex1 : JS.Math_round 2.5%float = 3%float.
Proof. reflexivity. Qed.
Example round_ex2 : JS.Math_round (-2.5)%float = (-2)%float.
Proof. reflexivity. Qed.
Example round_ex3 : JS.Math_round (-0.5)%float = (-0)%float.
Proof. reflexivity. Qed.
Example round_ex4 : JS.Math_round 7.49%float = 7%float.
Proof. reflexivity. Qed.
Example toFixed_ex1 : JS.parseFloat_toFixed 1.23456%float 3 = 1.235%float.
Proof. reflexivity. Qed.
Example toFixed_ex2 : JS.parseFloat_toFixed 1.0005%float 3 = 1%float.
Proof. reflexivity. Qed.
Example toFixed_ex3 : JS.parseFloat_toFixed 5%float 3 = 5%float.
Proof. reflexivity. Qed.
Example toFixed_ex4 : JS.parseFloat_toFixed 1.4142135623730951%float 3 = 1.414%float.
Proof. reflexivity. Qed.
Example toFixed_ex5 : JS.parseFloat_toFixed 0.0625%float 3 = 0.063%float.
Proof. reflexivity. Qed.
Example hypot_ex1 : JS.Math_hypot 3 4 = 5%float.
Proof. reflexivity. Qed.
Example hypot_ex2 : JS.Math_hypot 0.5 2.5 = 2.5495097567963927%float.
Proof. reflexivity. Qed.
Example hypot_ex3 : JS.Math_hypot 1e200 1e200 = 1.414213562373095e+200%float.
Proof. reflexivity. Qed.
Example hypot_ex4 : JS.Math_hypot 1e-170 1e-170 = 1.4142135623730951e-170%float.
Proof. reflexivity. Qed.
Example hypot_ex5 :
  JS.Math_hypot 0.003626053229716063 0.009319427985411214 = 0.010000000000000002%float.
Proof. reflexivity. Qed.
Example hypot_ex6 :
  JS.Math_hypot 0.01 4.9999899999899995 = 4.9999999999999991%float.
Proof. reflexivity. Qed.
Example hypot_ex7 : JS.Math_hypot nan infinity = infinity.
Proof. reflexivity. Qed.
Example hypot_ex8 : Prim2SF (JS.Math_hypot nan 1) = S754_nan.
Proof. reflexivity. Qed.
Example split_ex1 : JS.split_ws "0 0  100 100" = ["0"; "0"; "100"; "100"]%string.
Proof. reflexivity. Qed.
Example split_ex2 : JS.split_ws "" = [""]%string.
Proof. reflexivity. Qed.
Example split_ex3 : JS.split_ws " a " = [""; "a"; ""]%string.
Proof. reflexivity. Qed.
Example trim_ex1 : JS.trim "  a b  " = "a b"%string.
Proof. reflexivity. Qed.

(** ** Undo / redo history *)

Section History.

Lemma dispatch_undo_empty (s : State) :
  history s = [] -> dispatch handleUndo s = s.
Proof.
  intros E. unfold dispatch, handleUndo. rewrite E. reflexivity.
Qed.

Lemma dispatch_redo_empty (s : State) :
  future s = [] -> dispatch handleRedo s = s.
Proof.
  intros E. unfold dispatch, handleRedo. rewrite E. reflexivity.
Qed.

(** One undo with [p] on top of the past. *)
Lemma dispatch_undo_top (s : State) (h : list (list Shape.t)) (p : list Shape.t) :
  history s = h ++ [p] ->
  userShapes (dispatch handleUndo s) = p
  /\ history (dispatch handleUndo s) = h
  /\ future (dispatch handleUndo s) = userShapes s :: future s.
Proof.
  intros E. unfold dispatch, handleUndo. rewrite E.
  rewrite length_app, Nat.add_comm. cbn [List.length Nat.add Nat.eqb].
  rewrite last_last, removelast_last. repeat split.
Qed.

(** One redo with [a] at the front of the future. *)
Lemma dispatch_redo_front (s : State) (f : list (list Shape.t)) (a : list Shape.t) :
  future s = a :: f ->
  userShapes (dispatch handleRedo s) = a
  /\ history (dispatch handleRedo s) = history s ++ [userShapes s]
  /\ future (dispatch handleRedo s) = f.
Proof.
  intros E. unfold dispatch, handleRedo. rewrite E. repeat split.
Qed.

Lemma hd_app_single {A : Type} (l : list A) (a d : A) :
  hd d (l ++ [a]) = hd a l.
Proof. destruct l; reflexivity. Qed.

Lemma tl_app_single {A : Type} (l r : list A) (a b : A) :
  tl ((l ++ [a]) ++ [b]) ++ r = tl (l ++ [a]) ++ b :: r.
Proof.
  destruct l as [|c l]; cbn [app tl]; [reflexivity|].
  now rewrite <- !app_assoc.
Qed.

(** Undoing as many times as there are frames on top of [h]. *)
Lemma undo_frames (frames h : list (list Shape.t)) :
  forall s, history s = h ++ frames ->
    let s' := iter (List.length frames) (dispatch handleUndo) s in
    userShapes s' = hd (userShapes s) frames
    /\ history s' = h
    /\ future s' = tl (frames ++ [userShapes s]) ++ future s.
Proof.
  induction frames as [|p fr IH] using rev_ind; intros s E.
  - rewrite app_nil_r in E. cbn. auto.
  - rewrite length_app, Nat.add_comm. cbn [List.length Nat.add iter].
    rewrite app_assoc in E.
    destruct (dispatch_undo_top s _ _ E) as (U & H & F).
    specialize (IH _ H). cbv zeta in IH |- *.
    destruct IH as (U' & H' & F'). rewrite U', H', F', U, F.
    repeat split.
    + now rewrite hd_app_single.
    + now rewrite tl_app_single.
Qed.

Lemma last_cons_default {A : Type} (l : list A) (a d d' : A) :
  last (a :: l) d = last (a :: l) d'.
Proof.
  revert a. induction l as [|b l IH]; intros a; [reflexivity|].
  change (last (b :: l) d = last (b :: l) d'). apply IH.
Qed.

(** Redoing as many times as there are frames in front of [f]. *)
Lemma redo_frames (m f : list (list Shape.t)) :
  forall s, future s = m ++ f ->
    let s' := iter (List.length m) (dispatch handleRedo) s in
    userShapes s' = last m (userShapes s) /\ future s' = f.
Proof.
  induction m as [|a m IH]; intros s E.
  - cbn. auto.
  - cbn [List.length iter].
    destruct (dispatch_redo_front s _ _ E) as (U & _ & F).
    specialize (IH _ F). cbv zeta in IH |- *.
    destruct IH as (U' & F'). rewrite U', F', U. split; [|reflexivity].
    destruct m as [|b m]; [reflexivity|].
    change (last (b :: m) a = last (b :: m) (userShapes s)).
    apply last_cons_default.
Qed.

End History.

Lemma commits_frames (s : State) (n : nat) (s' : State) :
  commits s n s' ->
  exists frames,
    List.length frames = n
    /\ history s' = history s ++ frames
    /\ hd (userShapes s') frames = userShapes s.
Proof.
  induction 1 as [s | s n s' s'' _ (fr & L & H & U) (Hc & _)
                    | s n s' s'' _ (fr & L & H & U) (Un & Hn & _)].
  - exists []. now rewrite app_nil_r.
  - exists (fr ++ [userShapes s']). repeat split.
    + rewrite length_app, Nat.add_comm. cbn. now rewrite L.
    + now rewrite Hc, H, app_assoc.
    + now rewrite hd_app_single.
  - exists fr. repeat split; [assumption | congruence |].
    destruct fr; cbn in *; congruence.
Qed.

(** The four places where the component commits user shapes are commits in
    this sense. *)
Lemma onMouseUp_rect_commit (dom : Dom) (e : MouseEvent) (s : State) (cur : Shape.t) :
  currentShape s = Some cur -> activeTool s = draw_rect ->
  positive (Shape.data_w cur) = true ->
  is_commit s (dispatch (onMouseUp dom e) s)
  /\ userShapes (dispatch (onMouseUp dom e) s) = userShapes s ++ [cur].
Proof.
  intros C T V. unfold is_commit, dispatch, onMouseUp.
  rewrite C, T. cbn [ToolType_eqb orb]. rewrite V. repeat split.
Qed.

Lemma onMouseUp_circle_commit (dom : Dom) (e : MouseEvent) (s : State) (cur : Shape.t) :
  currentShape s = Some cur -> activeTool s = draw_circle ->
  positive (Shape.data_r cur) = true ->
  is_commit s (dispatch (onMouseUp dom e) s)
  /\ userShapes (dispatch (onMouseUp dom e) s) = userShapes s ++ [cur].
Proof.
  intros C T V. unfold is_commit, dispatch, onMouseUp.
  rewrite C, T. cbn [ToolType_eqb orb]. rewrite V. repeat split.
Qed.

Lemma onDoubleClick_commit (s : State) (cur : Shape.t) :
  currentShape s = Some cur -> activeTool s = draw_polyline ->
  is_commit s (dispatch onDoubleClick s)
  /\ userShapes (dispatch onDoubleClick s) = userShapes s ++ [cur].
Proof.
  intros C T. unfold is_commit, dispatch, onDoubleClick.
  rewrite C, T. repeat split.
Qed.

Lemma arc_third_click_commit (dom : Dom) (pos : Point.t) (s : State) (cur : Shape.t) :
  currentShape s = Some cur -> drawStep s = 2%Z ->
  is_commit s (dispatch (handleDrawingStart dom draw_arc pos) s)
  /\ userShapes (dispatch (handleDrawingStart dom draw_arc pos) s)
     = userShapes s ++ [cur].
Proof.
  intros C D. unfold is_commit, dispatch, handleDrawingStart.
  rewrite C, D. repeat split.
Qed.

Lemma eraser_commit (s : State) :
  userShapes s <> [] ->
  is_commit s (dispatch eraser s) /\ userShapes (dispatch eraser s) = [].
Proof.
  intros N. unfold is_commit, dispatch, eraser, clearUserShapes, clearMeasurements.
  destruct (userShapes s) as [|a l] eqn:E; [congruence|].
  cbn. rewrite E. repeat split.
Qed.

(** C1 -- History round trip.  After any [n] commits (each pushed the shape
    list it started from onto the past and cleared the future), [n] undos
    bring the shape list, and the past, back to what they were before the
    first commit, and [n] redos after that bring the shape list back to what
    it was after the last commit.  Undo on an empty past and redo on an empty
    future change nothing. *)
Theorem history_round_trip (s0 sn : State) (n : nat) (H : commits s0 n sn) :
  let undone := iter n (dispatch handleUndo) sn in
  userShapes undone = userShapes s0
  /\ history undone = history s0
  /\ userShapes (iter n (dispatch handleRedo) undone) = userShapes sn
  /\ (forall s, history s = [] -> dispatch handleUndo s = s)
  /\ (forall s, future s = [] -> dispatch handleRedo s = s).
Proof.
  destruct (commits_frames _ _ _ H) as (frames & L & Hh & Hu). subst n.
  destruct (undo_frames frames (history s0) sn Hh) as (U & Hi & F).
  cbv zeta. repeat split.
  - now rewrite U.
  - exact Hi.
  - set (undone := iter (List.length frames) (dispatch handleUndo) sn) in *.
    assert (Lm : List.length (tl (frames ++ [userShapes sn])) = List.length frames).
    { destruct frames; cbn; [reflexivity|].
      now rewrite length_app, Nat.add_comm. }
    rewrite <- Lm.
    destruct (redo_frames _ _ undone F) as (R & _). rewrite R.
    destruct frames as [|a fr]; cbn [app tl last].
    + now rewrite U.
    + apply last_last.
  - apply dispatch_undo_empty.
  - apply dispatch_redo_empty.
Qed.

Ltac chain_step :=
  lazymatch goal with
  | |- commits ?s 0 ?s => apply commits_refl
  | |- commits _ _ (step ?p ?s ?e) =>
      first [ apply (commits_neutral _ _ s); [| solve [vm_compute; repeat split] ]
            | apply (commits_commit _ _ s); [| solve [vm_compute; repeat split] ] ]
  end.

(** Drawing a rectangle and then erasing everything are two commits. *)
Lemma demo_two_commits :
  commits (mount demoProps) 2
          (run demoProps (dragRect ++ [ (demoDom, EraserButton) ]) (mount demoProps)).
Proof.
  cbn [run dragRect moveTo app fold_left]. repeat chain_step.
Defined.

Lemma history_round_trip_witness :
  let s0 := mount demoProps in
  let sn := run demoProps (dragRect ++ [ (demoDom, EraserButton) ]) s0 in
  let undone := iter 2 (dispatch handleUndo) sn in
  userShapes undone = userShapes s0
  /\ history undone = history s0
  /\ userShapes (iter 2 (dispatch handleRedo) undone) = userShapes sn
  /\ (forall s, history s = [] -> dispatch handleUndo s = s)
  /\ (forall s, future s = [] -> dispatch handleRedo s = s).
Proof.
  exact (history_round_trip _ _ 2 demo_two_commits).
Defined.

(** ** Frame of undo and redo *)

(** C10 -- Undo/redo frame.  [handleUndo] and [handleRedo] write the
    user-shape list and the past/future stacks only: measurements, viewport,
    selection, active tool, draw step and in-progress shape (and the rest of
    the state) are the same after every undo and every redo. *)
Theorem undo_redo_frame (s : State) :
  same_outside_history s (dispatch handleUndo s)
  /\ same_outside_history s (dispatch handleRedo s).
Proof.
  unfold same_outside_history, dispatch, handleUndo, handleRedo. split.
  - destruct (List.length (history s) =? 0)%nat; cbn; repeat split.
  - destruct (List.length (future s) =? 0)%nat; cbn; repeat split.
Qed.

(** The keyboard shortcuts run one of the two handlers, or nothing. *)
Lemma handleKeyDown_cases (e : KeyboardEvent) (s : State) :
  handleKeyDown e s = handleUndo s \/ handleKeyDown e s = handleRedo s
  \/ handleKeyDown e s = [].
Proof.
  unfold handleKeyDown.
  destruct (metaKey e || ctrlKey e); cbn [andb]; [|auto].
  destruct (String.eqb_spec (key e) "z") as [Ez|Nz].
  - rewrite Ez. cbn. rewrite app_nil_r. destruct (shiftKey e); auto.
  - destruct (String.eqb (key e) "y"); cbn; rewrite ?app_nil_r; auto.
Qed.

(** ** Reset on a new document *)

Lemma baseViewBox_length (vb : string) : List.length (baseViewBox vb) = 4%nat.
Proof.
  unfold baseViewBox.
  destruct (List.length (map JS.Number (JS.split_ws (JS.trim vb))) =? 4)%nat eqn:E.
  - now apply Nat.eqb_eq.
  - reflexivity.
Qed.





(** ** Zoom *)

(** The zoom-out control does not zoom by 0.8333: on the base viewport
    "0 0 100 100" it zooms to width 125, and [zoom(0.8333)] would give
    120.0048... *)
Lemma zoom_out_factor_is_not_08333 :
  handleZoomOut = handleZoom 0.8
  /\ viewState (dispatch handleZoomOut (mount demoProps))
     = Some (View.mk (-12.5) (-12.5) 125 125)%float
  /\ viewState (dispatch handleZoomOut (mount demoProps))
     <> viewState (dispatch (handleZoom 0.8333) (mount demoProps)).
Proof.
  split; [reflexivity|]. split; [vm_compute; reflexivity|].
  intros E.
  apply (f_equal (fun o => match o with
                           | Some v => Prim2SF (View.w v)
                           | None => S754_nan
                           end)) in E.
  vm_compute in E. discriminate E.
Qed.

(** In exact arithmetic the body of [handleZoom] keeps the centre. *)
Lemma zoom_centre_exact (v : View.t Q) (factor : Q) :
  ~ (factor == 0)%Q ->
  let v' := zoom Qplus Qminus Qdiv 2%Q factor v in
  (View.x v' + View.w v' / 2 == View.x v + View.w v / 2)%Q
  /\ (View.y v' + View.h v' / 2 == View.y v + View.h v / 2)%Q.
Proof.
  intros N. cbn. split; field; exact N.
Qed.

(** C9 (amended) -- Zoom.  For every viewport and every factor,
    [handleZoom factor] replaces the dimensions by [w / factor] and
    [h / factor] and moves the corner by [dx = (w - w / factor) / 2] and
    [dy = (h - h / factor) / 2], leaving the rest of the state alone; read in
    exact arithmetic with [factor <> 0] this keeps the centre of the viewport
    fixed.  With no viewport yet it does nothing.  The zoom-in control zooms
    by 1.2 and the zoom-out control by 0.8. *)
Theorem zoom_semantics (s : State) (v : View.t JS.number) (factor : JS.number)
  (vq : View.t Q) (fq : Q)
  (Hview : viewState s = Some v) (Hfactor : ~ (fq == 0)%Q) :
  let newW := (View.w v / factor)%float in
  let newH := (View.h v / factor)%float in
  let dx := ((View.w v - newW) / 2)%float in
  let dy := ((View.h v - newH) / 2)%float in
  dispatch (handleZoom factor) s
  = setViewState
      (value (Some (View.mk (View.x v + dx)%float (View.y v + dy)%float newW newH))) s
  /\ (forall s0, viewState s0 = None -> dispatch (handleZoom factor) s0 = s0)
  /\ (let vq' := zoom Qplus Qminus Qdiv 2%Q fq vq in
      (View.w vq' == View.w vq / fq)%Q /\ (View.h vq' == View.h vq / fq)%Q
      /\ (View.x vq' + View.w vq' / 2 == View.x vq + View.w vq / 2)%Q
      /\ (View.y vq' + View.h vq' / 2 == View.y vq + View.h vq / 2)%Q)
  /\ handleZoomIn = handleZoom 1.2
  /\ handleZoomOut = handleZoom 0.8.
Proof.
  cbv zeta. split; [|split; [|split; [|split]]].
  - unfold dispatch, handleZoom. rewrite Hview. reflexivity.
  - intros s0 E. unfold dispatch, handleZoom. rewrite E. reflexivity.
  - split; [reflexivity|]. split; [reflexivity|].
    apply (zoom_centre_exact vq fq Hfactor).
  - reflexivity.
  - reflexivity.
Qed.

Lemma zoom_semantics_witness :
  viewState (dispatch (handleZoom 2) (mount demoProps))
  = Some (View.mk 25 25 50 50)%float
  /\ (let vq' := zoom Qplus Qminus Qdiv 2%Q (6 # 5)%Q (View.mk 0 0 100 100)%Q in
      (View.x vq' + View.w vq' / 2 == 50)%Q /\ (View.y vq' + View.h vq' / 2 == 50)%Q).
Proof.
  destruct (zoom_semantics (mount demoProps) (View.mk 0 0 100 100)%float 2%float
              (View.mk 0 0 100 100)%Q (6 # 5)%Q)
    as (Z & _ & (_ & _ & Cx & Cy) & _).
  - vm_compute. reflexivity.
  - vm_compute. discriminate.
  - split.
    + rewrite Z. vm_compute. reflexivity.
    + split; [rewrite Cx | rewrite Cy]; vm_compute; reflexivity.
Defined.

(** ** Measuring *)

(** In binary64 a number minus itself is +0, or NaN when it is infinite or
    NaN. *)
Lemma sub_self (x : float) : (x - x)%float = 0%float \/ (x - x)%float = nan.
Proof.
  rewrite <- (SF2Prim_Prim2SF (x - x)), sub_spec.
  destruct (Prim2SF x) as [s|s| |s m e].
  - left. destruct s; reflexivity.
  - right. destruct s; reflexivity.
  - right. reflexivity.
  - left. unfold SF64sub, SFsub. rewrite Z.sub_diag. reflexivity.
Qed.

(** The distance from a point to itself never passes the threshold. *)
Lemma hypot_same_point (x y : float) :
  JS.gt (JS.Math_hypot (x - x) (y - y)) 0.01 = false.
Proof.
  destruct (sub_self x) as [-> | ->], (sub_self y) as [-> | ->];
    vm_compute; reflexivity.
Qed.

(** Swapping the operands of a comparison swaps its outcome. *)
Lemma SFcompare_antisym (a b : spec_float) :
  SFcompare b a = option_map CompOpp (SFcompare a b).
Proof.
  destruct a as [sa|sa| |sa ma ea], b as [sb|sb| |sb mb eb]; cbn;
    try reflexivity; try (destruct sa; reflexivity);
    try (destruct sb; reflexivity); try (destruct sa, sb; reflexivity).
  destruct sa, sb; try reflexivity; f_equal;
    rewrite (Z.compare_antisym ea eb); destruct (ea ?= eb)%Z; cbn;
      try reflexivity;
      change (Pos.compare_cont Eq mb ma) with (Pos.compare mb ma);
      change (Pos.compare_cont Eq ma mb) with (Pos.compare ma mb);
      rewrite (Pos.compare_antisym ma mb); destruct (ma ?= mb)%positive; reflexivity.
Qed.

Lemma lt_not_ge (a b : float) :
  PrimFloat.ltb a b = true -> PrimFloat.leb b a = false.
Proof.
  rewrite ltb_spec, leb_spec. unfold SFltb, SFleb.
  rewrite (SFcompare_antisym (Prim2SF a) (Prim2SF b)).
  destruct (SFcompare (Prim2SF a) (Prim2SF b)) as [[| |]|]; cbn; congruence.
Qed.

(** A number above 0.01 and below 1e21 is finite and positive. *)
Lemma in_range_finite (x : float) :
  JS.gt x 0.01 = true -> JS.lt x 1e21 = true ->
  exists m e, Prim2SF x = S754_finite false m e.
Proof.
  unfold JS.gt, JS.lt. rewrite !ltb_spec.
  destruct (Prim2SF x) as [s|s| |[|] m e]; intros G L;
    try (vm_compute in G; discriminate G);
    try (destruct s; vm_compute in G, L; discriminate).
  now exists m, e.
Qed.

(** Rounding half up to an integer: [(2 a + d) / (2 d)] is within one half
    of [a / d]. *)
Lemma round_half_up_bounds (a d : Z) :
  (0 < d)%Z ->
  let n := ((2 * a + d) / (2 * d))%Z in
  (- d <= 2 * n * d - 2 * a <= d)%Z.
Proof.
  intros D n.
  pose proof (Z.mul_div_le (2 * a + d) (2 * d) ltac:(lia)) as L.
  pose proof (Z.mul_succ_div_gt (2 * a + d) (2 * d) ltac:(lia)) as U.
  fold n in L, U. nia.
Qed.

(** [parseFloat(x.toFixed(3))] is the number nearest to a whole number of
    thousandths, the one nearest to [x] (the larger one on a tie). *)
Lemma toFixed3_nearest_thousandth (x : float) :
  JS.gt x 0.01 = true -> JS.lt x 1e21 = true ->
  exists n : Z,
    JS.parseFloat_toFixed x 3 = JS.nearest false n 1000
    /\ (Qabs (inject_Z n - 1000 * exactQ x) <= 1 # 2)%Q.
Proof.
  intros G L. destruct (in_range_finite x G L) as (m & e & E).
  assert (B : PrimFloat.leb 1e21 (PrimFloat.abs x) = false).
  { apply lt_not_ge. unfold JS.lt in L.
    rewrite ltb_spec in *. rewrite abs_spec. rewrite E in *. exact L. }
  unfold JS.parseFloat_toFixed, exactQ. rewrite E, B.
  change (10 ^ 3)%Z with 1000%Z.
  destruct e as [|k|k]; cbn [Z.leb Z.compare Z.opp].
  - eexists. split; [reflexivity|]. generalize (Z.pos m * 2 ^ 0)%Z. intros z.
    apply Qabs_Qle_condition. unfold Qle, Qminus, Qplus, Qmult, Qopp, inject_Z.
    cbn [Qnum Qden]. lia.
  - eexists. split; [reflexivity|]. generalize (Z.pos m * 2 ^ Z.pos k)%Z. intros z.
    apply Qabs_Qle_condition. unfold Qle, Qminus, Qplus, Qmult, Qopp, inject_Z.
    cbn [Qnum Qden]. lia.
  - eexists. split; [reflexivity|].
    rewrite Z.pow_add_r, Z.pow_1_r by lia.
    change (2 ^ Z.pos k)%Z with (Z.pos 2 ^ Z.pos k)%Z.
    rewrite <- Pos2Z.inj_pow.
    generalize (2 ^ k)%positive. intros d.
    pose proof (round_half_up_bounds (Z.pos m * 1000) (Z.pos d) ltac:(lia)) as R.
    cbv zeta in R.
    replace (2 * Z.pos m * 1000 + Z.pos d)%Z
      with (2 * (Z.pos m * 1000) + Z.pos d)%Z by lia.
    replace (Z.pos d * 2)%Z with (2 * Z.pos d)%Z by lia.
    revert R. generalize ((2 * (Z.pos m * 1000) + Z.pos d) / (2 * Z.pos d))%Z.
    intros n R.
    apply Qabs_Qle_condition. unfold Qle, Qminus, Qplus, Qmult, Qopp, inject_Z.
    cbn [Qnum Qden]. lia.
Qed.

(** The first click of the measure tool records the start point. *)
Lemma measure_first_click (dom : Dom) (e : MouseEvent) (s : State) (pos : Point.t) :
  button e = 0%Z -> activeTool s = measure ->
  measureStart s = None -> cursorPos s = Some pos ->
  measureStart (dispatch (onMouseDown dom e) s) = Some pos
  /\ measurements (dispatch (onMouseDown dom e) s) = measurements s.
Proof.
  intros B T M C. unfold dispatch, onMouseDown. rewrite B, T, M, C. split; reflexivity.
Qed.

(** C7 -- Measurement commit threshold.  With the measure tool and a first
    point recorded, a click appends a measurement exactly when the distance
    [Math.hypot] gives from the first point is greater than 0.01, and clears
    [measureStart] either way.  The distance stored is the computed one
    rounded to three decimals: the number nearest to [n / 1000] for the
    integer [n] nearest to a thousand times the distance.  A second click at
    the first point itself adds nothing, whatever the point; clicks at (0,0)
    and (3,4) add one measurement of distance 5, clicks at (0,0) and (1,1)
    one of distance 1.414. *)
Theorem measurement_commit_threshold
  (dom : Dom) (e : MouseEvent) (s : State) (start pos : Point.t)
  (Hbutton : button e = 0%Z) (Htool : activeTool s = measure)
  (Hstart : measureStart s = Some start) (Hcursor : cursorPos s = Some pos) :
  let distance :=
    JS.Math_hypot (Point.x pos - Point.x start) (Point.y pos - Point.y start) in
  let s' := dispatch (onMouseDown dom e) s in
  measureStart s' = None
  /\ measurements s'
     = (if JS.gt distance 0.01
        then measurements s
             ++ [ Measurement.mk start pos (JS.parseFloat_toFixed distance 3) ]
        else measurements s)
  /\ (JS.gt distance 0.01 = true -> JS.lt distance 1e21 = true ->
      exists n : Z,
        JS.parseFloat_toFixed distance 3 = JS.nearest false n 1000
        /\ (Qabs (inject_Z n - 1000 * exactQ distance) <= 1 # 2)%Q)
  /\ (pos = start -> measurements s' = measurements s)
  /\ measurements (measureSession 2 2 2 2) = []
  /\ measureStart (measureSession 2 2 2 2) = None
  /\ measurements (measureSession 0 0 3 4)
     = [ Measurement.mk (Point.mk 0 0) (Point.mk 3 4) 5 ]
  /\ measureStart (measureSession 0 0 3 4) = None
  /\ measurements (measureSession 0 0 1 1)
     = [ Measurement.mk (Point.mk 0 0) (Point.mk 1 1) 1.414 ].
Proof.
  cbv zeta. unfold dispatch, onMouseDown.
  rewrite Hbutton, Htool, Hstart, Hcursor. cbn [Z.eqb negb ToolType_eqb].
  split; [|split; [|split; [|split]]].
  - destruct (JS.gt _ _); reflexivity.
  - destruct (JS.gt _ _); reflexivity.
  - apply toFixed3_nearest_thousandth.
  - intros ->. rewrite hypot_same_point. reflexivity.
  - repeat split; vm_compute; reflexivity.
Qed.

Lemma measurement_commit_threshold_witness :
  let s := run demoProps
               ((demoDom, ToolButton measure) :: clickAt 0 0 ++ moveTo 1 1)
               (mount demoProps) in
  let s' := dispatch (onMouseDown demoDom (pointer 1 1)) s in
  measureStart s = Some (Point.mk 0 0)
  /\ measureStart s' = None
  /\ measurements s' = [ Measurement.mk (Point.mk 0 0) (Point.mk 1 1) 1.414 ].
Proof.
  cbv zeta.
  destruct (measurement_commit_threshold demoDom (pointer 1 1)
              (run demoProps
                   ((demoDom, ToolButton measure) :: clickAt 0 0 ++ moveTo 1 1)
                   (mount demoProps))
              (Point.mk 0 0) (Point.mk 1 1))
    as (M & L & _); try (vm_compute; reflexivity).
  split; [vm_compute; reflexivity|]. split; [exact M|].
  rewrite L. vm_compute. reflexivity.
Defined.

(** ** Tool switches *)

Lemma toolButton_shapes_and_history (t : ToolType) (s : State) :
  userShapes (dispatch (toolButton t) s) = userShapes s
  /\ history (dispatch (toolButton t) s) = history s
  /\ future (dispatch (toolButton t) s) = future s
  /\ activeTool (dispatch (toolButton t) s) = t.
Proof. destruct t; repeat split. Qed.

Lemma toolButton_currentShape (t : ToolType) (s : State) :
  currentShape (dispatch (toolButton t) s)
  = if startsWith_draw t then None else currentShape s.
Proof. destruct t; reflexivity. Qed.

(** C3 -- Tool switch.  The select button only sets the active tool: the
    in-progress rectangle is still the current shape after the switch, and
    still after the pointer-up that follows, and goes on following the
    pointer; the shape list and the history are untouched.  The measure and
    detail buttons leave the in-progress shape as well; only the four
    drawing buttons clear it. *)
Theorem tool_switch_keeps_in_progress_shape :
  currentShape abandonedRect
  = Some (Shape.mk "1700000000000" (Shape.rect 1 1 2 1 1 1) emerald)
  /\ currentShape (step demoProps abandonedRect (demoDom, MouseUp (pointer 3 2)))
     = Some (Shape.mk "1700000000000" (Shape.rect 1 1 2 1 1 1) emerald)
  /\ currentShape (run demoProps (moveTo 5 5) abandonedRect)
     = Some (Shape.mk "1700000000000" (Shape.rect 1 1 4 4 1 1) emerald)
  /\ userShapes (step demoProps abandonedRect (demoDom, MouseUp (pointer 3 2))) = []
  /\ history (step demoProps abandonedRect (demoDom, MouseUp (pointer 3 2))) = []
  /\ (forall s, currentShape (dispatch (toolButton select) s) = currentShape s)
  /\ (forall s, currentShape (dispatch (toolButton measure) s) = currentShape s)
  /\ (forall s, currentShape (dispatch (toolButton detail) s) = currentShape s)
  /\ (forall s t, startsWith_draw t = true ->
                  currentShape (dispatch (toolButton t) s) = None).
Proof.
  repeat split; try (vm_compute; reflexivity).
  intros s t D. rewrite toolButton_currentShape, D. reflexivity.
Qed.

(** ** Pointer-up on a dragged shape *)

Lemma onMouseUp_rect (dom : Dom) (e : MouseEvent) (s : State) (cur : Shape.t) :
  currentShape s = Some cur -> activeTool s = draw_rect ->
  let s' := dispatch (onMouseUp dom e) s in
  currentShape s' = None
  /\ userShapes s'
     = (if positive (Shape.data_w cur) then userShapes s ++ [cur] else userShapes s)
  /\ history s'
     = (if positive (Shape.data_w cur) then history s ++ [userShapes s] else history s).
Proof.
  intros C T. cbv zeta. unfold dispatch, onMouseUp. rewrite C, T.
  cbn [ToolType_eqb orb]. destruct (positive (Shape.data_w cur)); repeat split.
Qed.

Lemma onMouseUp_circle (dom : Dom) (e : MouseEvent) (s : State) (cur : Shape.t) :
  currentShape s = Some cur -> activeTool s = draw_circle ->
  let s' := dispatch (onMouseUp dom e) s in
  currentShape s' = None
  /\ userShapes s'
     = (if positive (Shape.data_r cur) then userShapes s ++ [cur] else userShapes s)
  /\ history s'
     = (if positive (Shape.data_r cur) then history s ++ [userShapes s] else history s).
Proof.
  intros C T. cbv zeta. unfold dispatch, onMouseUp. rewrite C, T.
  cbn [ToolType_eqb orb]. destruct (positive (Shape.data_r cur)); repeat split.
Qed.

(** C4 -- Degenerate shapes.  Pointer-up looks at the width of a rectangle
    (and the radius of a circle) only: a rectangle of width 2 and height 0 is
    appended and a history frame pushed, while one of width 0 and height 2
    is dropped. *)
Theorem zero_height_rect_is_committed :
  userShapes (dragRectTo 2 0)
  = [ Shape.mk "1700000000000" (Shape.rect 0 0 2 0 0 0) emerald ]
  /\ history (dragRectTo 2 0) = [ [] ]
  /\ userShapes (dragRectTo 0 2) = []
  /\ history (dragRectTo 0 2) = [].
Proof. repeat split; vm_compute; reflexivity. Qed.

(** ** Polylines *)

Lemma same_drawing_context_trans (a b c : State) :
  same_drawing_context a b -> same_drawing_context b c -> same_drawing_context a c.
Proof.
  unfold same_drawing_context.
  intros (A1 & A2 & A3 & A4 & A5 & A6) (B1 & B2 & B3 & B4 & B5 & B6).
  repeat split; congruence.
Qed.

Section PolylineClicks.

Variables (p : Props) (dom : Dom) (svg : SvgRoot) (inverse : Point.t -> Point.t).
Hypothesis Hsvg : svgRef dom = Some svg.
Hypothesis Hctm : inverseCTM svg = Some inverse.

Lemma polyline_move (e : MouseEvent) (s : State) (v : View.t JS.number) :
  activeTool s = draw_polyline -> viewState s = Some v ->
  let c := cursorAt (snapEnabled s) inverse e in
  let s' := dispatch (onMouseMove dom e) s in
  cursorPos s' = Some c
  /\ currentShape s'
     = match currentShape s with
       | Some cur =>
           match Shape.shape cur with
           | Shape.polyline points =>
               Some (Shape.mk (Shape.id cur) (Shape.polyline (set_last c points))
                              (Shape.color cur))
           | _ => currentShape s'
           end
       | None => None
       end
  /\ same_drawing_context s s'.
Proof.
  intros T V. cbv zeta. unfold same_drawing_context, dispatch, onMouseMove.
  rewrite T, V, Hsvg, Hctm, andb_false_r. unfold updateDrawingPreview.
  destruct (currentShape s) as [cur|] eqn:C.
  - destruct (Shape.shape cur) eqn:D.
    + cbn. rewrite T, V. repeat split; auto.
    + cbn. rewrite T, V. repeat split; auto.
    + cbn. rewrite T, V. repeat split; auto.
    + destruct (drawStep s =? 1)%Z; [|destruct (drawStep s =? 2)%Z];
        cbn; rewrite ?T, ?V, ?C; repeat split; auto.
  - cbn. rewrite T, V. repeat split; auto.
Qed.

Lemma polyline_down (e : MouseEvent) (s : State) (c : Point.t) :
  button e = 0%Z -> activeTool s = draw_polyline -> cursorPos s = Some c ->
  let s' := dispatch (onMouseDown dom e) s in
  currentShape s'
  = match currentShape s with
    | Some cur =>
        match Shape.shape cur with
        | Shape.polyline points =>
            Some (Shape.mk (Shape.id cur) (Shape.polyline (points ++ [c]))
                           (Shape.color cur))
        | _ => currentShape s
        end
    | None => Some (Shape.mk (Date_now dom) (Shape.polyline [c; c]) emerald)
    end
  /\ same_drawing_context s s'.
Proof.
  intros B T C. cbv zeta. unfold same_drawing_context, dispatch, onMouseDown.
  rewrite B, T, C. cbn [Z.eqb negb ToolType_eqb startsWith_draw handleDrawingStart].
  destruct (currentShape s) as [cur|] eqn:E.
  - destruct (Shape.shape cur); cbn; rewrite ?T, ?E; repeat split; auto.
  - cbn. rewrite T. repeat split; auto.
Qed.

Lemma polyline_up (e : MouseEvent) (s : State) :
  activeTool s = draw_polyline ->
  let s' := dispatch (onMouseUp dom e) s in
  currentShape s' = currentShape s /\ same_drawing_context s s'.
Proof.
  intros T. cbv zeta. unfold same_drawing_context, dispatch, onMouseUp.
  rewrite T. cbn [ToolType_eqb orb].
  destruct (currentShape s) eqn:C; cbn; rewrite T; repeat split; auto.
Qed.

Lemma run_click (e : MouseEvent) (s : State) :
  run p (click dom e) s
  = dispatch (onMouseUp dom e)
      (dispatch (onMouseDown dom e) (dispatch (onMouseMove dom e) s)).
Proof. reflexivity. Qed.

(** One click of the polyline tool leaves the context alone and, on the
    current shape, seeds [c; c] or moves the live vertex to [c] and appends
    [c] once more. *)
Lemma polyline_click (e : MouseEvent) (s : State) :
  button e = 0%Z -> activeTool s = draw_polyline -> viewState s <> None ->
  let c := cursorAt (snapEnabled s) inverse e in
  let s' := run p (click dom e) s in
  same_drawing_context s s'
  /\ forall points,
       match currentShape s with
       | Some cur => Shape.shape cur = Shape.polyline points
       | None => True
       end ->
       currentShape s'
       = match currentShape s with
         | Some cur =>
             Some (Shape.mk (Shape.id cur)
                     (Shape.polyline (set_last c points ++ [c])) (Shape.color cur))
         | None => Some (Shape.mk (Date_now dom) (Shape.polyline [c; c]) emerald)
         end.
Proof.
  intros B T V. cbv zeta. rewrite run_click.
  destruct (viewState s) as [v|] eqn:Ev; [clear V | congruence].
  destruct (polyline_move e s v T Ev) as (M1 & M2 & M3).
  set (s1 := dispatch (onMouseMove dom e) s) in *.
  assert (T1 : activeTool s1 = draw_polyline) by (destruct M3 as (-> & _); exact T).
  destruct (polyline_down e s1 _ B T1 M1) as (D1 & D2).
  set (s2 := dispatch (onMouseDown dom e) s1) in *.
  assert (T2 : activeTool s2 = draw_polyline) by (destruct D2 as (-> & _); exact T1).
  destruct (polyline_up e s2 T2) as (U1 & U2).
  split.
  - eapply same_drawing_context_trans; [|exact U2].
    eapply same_drawing_context_trans; [exact M3 | exact D2].
  - intros points P. rewrite U1, D1, M2.
    destruct (currentShape s) as [cur|]; [|reflexivity].
    rewrite P. reflexivity.
Qed.

End PolylineClicks.

Lemma run_app (p : Props) (a b : list (Dom * Event)) (s : State) :
  run p (a ++ b) s = run p b (run p a s).
Proof. apply fold_left_app. Qed.

Lemma set_last_snoc (c l : Point.t) (vs : list Point.t) :
  set_last c (vs ++ [l]) = vs ++ [c].
Proof.
  unfold set_last. rewrite removelast_last. destruct vs; reflexivity.
Qed.

Lemma last_cons_head {A : Type} (m : list A) (c l : A) :
  last (c :: m) l = last m c.
Proof.
  destruct m as [|a r]; [reflexivity|].
  change (last (a :: r) l = last (a :: r) c). apply last_cons_default.
Qed.

(** Clicks after the first: the vertex list is the clicked points followed by
    one more copy of the last of them, the live vertex. *)
Lemma polyline_later_clicks (p : Props) (dom : Dom) (svg : SvgRoot)
  (inverse : Point.t -> Point.t) (es : list MouseEvent) :
  svgRef dom = Some svg -> inverseCTM svg = Some inverse ->
  Forall (fun e => button e = 0%Z) es ->
  forall (s : State) (i col : string) (vs : list Point.t) (l : Point.t),
    activeTool s = draw_polyline -> viewState s <> None ->
    currentShape s = Some (Shape.mk i (Shape.polyline (vs ++ [l])) col) ->
    let cs := map (cursorAt (snapEnabled s) inverse) es in
    let s' := run p (flat_map (click dom) es) s in
    same_drawing_context s s'
    /\ currentShape s'
       = Some (Shape.mk i (Shape.polyline ((vs ++ cs) ++ [last cs l])) col).
Proof.
  intros Hsvg Hctm HB. induction HB as [|e es B _ IH]; intros s i col vs l T V C.
  - cbn. rewrite app_nil_r. split; [repeat split | exact C].
  - cbv zeta. cbn [flat_map]. rewrite run_app.
    destruct (polyline_click p dom svg inverse Hsvg Hctm e s B T V) as (K & S1).
    specialize (S1 (vs ++ [l])). rewrite C in S1. specialize (S1 eq_refl).
    cbn [Shape.id Shape.color] in S1. rewrite set_last_snoc in S1.
    set (s1 := run p (click dom e) s) in *.
    pose proof K as (K1 & K2 & K3 & _).
    assert (T1 : activeTool s1 = draw_polyline) by congruence.
    assert (V1 : viewState s1 <> None) by congruence.
    destruct (IH s1 i col (vs ++ [cursorAt (snapEnabled s) inverse e])
                (cursorAt (snapEnabled s) inverse e) T1 V1 S1) as (K' & S').
    split; [eapply same_drawing_context_trans; eassumption|].
    rewrite S', K3. cbn [map]. rewrite <- !app_assoc. cbn [app].
    now rewrite last_cons_head.
Qed.

(** C2 (amended) -- Polyline commit.  With the polyline tool and nothing in
    progress, clicks at [c1 .. cn] (each a pointer-move to the point, a press
    and a release) followed by the double-click handler append exactly one
    polyline whose vertices are [c1 .. cn] and one more copy of [cn], the
    live preview vertex, so [n + 1] vertices; one history frame is pushed,
    the redo stack is emptied and nothing stays in progress. *)
Theorem polyline_commit (p : Props) (dom : Dom) (svg : SvgRoot)
  (inverse : Point.t -> Point.t) (s : State) (e1 : MouseEvent) (es : list MouseEvent)
  (Hsvg : svgRef dom = Some svg) (Hctm : inverseCTM svg = Some inverse)
  (Hbuttons : Forall (fun e => button e = 0%Z) (e1 :: es))
  (Htool : activeTool s = draw_polyline) (Hview : viewState s <> None)
  (Hidle : currentShape s = None) :
  let clicked := map (cursorAt (snapEnabled s) inverse) (e1 :: es) in
  let vertices := clicked ++ [last clicked (cursorAt (snapEnabled s) inverse e1)] in
  let s' := run p (flat_map (click dom) (e1 :: es) ++ [ (dom, DoubleClick) ]) s in
  userShapes s'
  = userShapes s ++ [ Shape.mk (Date_now dom) (Shape.polyline vertices) emerald ]
  /\ List.length vertices = S (List.length (e1 :: es))
  /\ history s' = history s ++ [ userShapes s ]
  /\ future s' = []
  /\ currentShape s' = None.
Proof.
  cbv zeta. inversion Hbuttons as [|? ? B1 Bs]; subst.
  rewrite run_app. cbn [flat_map]. rewrite run_app.
  destruct (polyline_click p dom svg inverse Hsvg Hctm e1 s B1 Htool Hview)
    as (K & S1).
  specialize (S1 []). rewrite Hidle in S1. specialize (S1 I).
  set (c1 := cursorAt (snapEnabled s) inverse e1) in *.
  set (s1 := run p (click dom e1) s) in *.
  pose proof K as (K1 & K2 & K3 & K4 & K5 & K6).
  assert (T1 : activeTool s1 = draw_polyline) by congruence.
  assert (V1 : viewState s1 <> None) by congruence.
  destruct (polyline_later_clicks p dom svg inverse es Hsvg Hctm Bs s1
              (Date_now dom) emerald [c1] c1 T1 V1 S1) as (K' & S').
  cbv zeta in K', S'. rewrite K3 in S'.
  set (s2 := run p (flat_map (click dom) es) s1) in *.
  destruct K' as (L1 & L2 & L3 & L4 & L5 & L6).
  assert (T2 : activeTool s2 = draw_polyline) by congruence.
  destruct (onDoubleClick_commit s2 _ S' T2) as ((H1 & H2) & H3).
  change (run p [ (dom, DoubleClick) ] s2) with (dispatch onDoubleClick s2).
  assert (C2 : currentShape (dispatch onDoubleClick s2) = None).
  { unfold dispatch, onDoubleClick. rewrite S', T2. reflexivity. }
  rewrite H3, H1, H2, L4, L5, K4, K5, C2. cbn [map app].
  repeat split.
  - now rewrite last_cons_head.
  - cbn [List.length]. rewrite length_app, length_map. cbn [List.length]. lia.
Qed.

(** The committed polyline does not have 3 vertices: it has 4, the last one
    twice (6 when the presses of the double-click itself are counted). *)
Lemma polyline_commit_keeps_live_vertex :
  ~ (exists sh, userShapes polylineSession = [sh]
                /\ List.length (Shape.points sh) = 3%nat)
  /\ map Shape.points (userShapes polylineSession)
     = [ [ Point.mk 0 0; Point.mk 1 0; Point.mk 1 1; Point.mk 1 1 ] ]
  /\ map (fun sh => List.length (Shape.points sh)) (userShapes polylineSessionBrowser)
     = [ 6%nat ].
Proof.
  split; [|split; vm_compute; reflexivity].
  intros (sh & E & L).
  assert (E' : map (fun x => List.length (Shape.points x)) (userShapes polylineSession)
               = [ 4%nat ]) by (vm_compute; reflexivity).
  rewrite E in E'. cbn [map] in E'. rewrite L in E'. discriminate E'.
Qed.

Lemma polyline_commit_witness :
  userShapes polylineSession
  = [ Shape.mk "1700000000000"
        (Shape.polyline [ Point.mk 0 0; Point.mk 1 0; Point.mk 1 1; Point.mk 1 1 ])
        emerald ]
  /\ history polylineSession = [ [] ]
  /\ future polylineSession = []
  /\ currentShape polylineSession = None.
Proof.
  pose proof (polyline_commit demoProps demoDom
                (mkSvgRoot 0 (Some (fun pt => pt))) (fun pt => pt)
                (step demoProps (mount demoProps) (demoDom, ToolButton draw_polyline))
                (pointer 0 0) [ pointer 1 0; pointer 1 1 ]) as P.
  specialize (P eq_refl eq_refl).
  specialize (P ltac:(repeat constructor)).
  specialize (P ltac:(vm_compute; reflexivity)).
  specialize (P ltac:(vm_compute; discriminate)).
  specialize (P ltac:(vm_compute; reflexivity)).
  cbv zeta in P. destruct P as (U & _ & H & F & C).
  unfold polylineSession. split; [|split; [|split]].
  - rewrite U. vm_compute. reflexivity.
  - rewrite H. vm_compute. reflexivity.
  - exact F.
  - exact C.
Defined.

(** ** Parsing the bounds *)

Section Tokens.

Local Open Scope string_scope.

Lemma append_assoc (a b c : string) : (a ++ b) ++ c = a ++ (b ++ c).
Proof. induction a as [|x a IH]; cbn; [reflexivity | now rewrite IH]. Qed.

Lemma trimStart_white (w s : string) :
  allWhite w = true -> JS.trimStart (w ++ s) = JS.trimStart s.
Proof.
  induction w as [|c w IH]; cbn; [reflexivity|].
  intros H. apply andb_prop in H as (Hc & Hw). rewrite Hc. now apply IH.
Qed.

Lemma trimStart_token (t s : string) :
  isToken t = true -> JS.trimStart (t ++ s) = t ++ s.
Proof.
  destruct t as [|c t]; [discriminate|]. cbn.
  intros H. apply andb_prop in H as (Hc & _).
  apply negb_true_iff in Hc. now rewrite Hc.
Qed.

Lemma trimEnd_white (w : string) : allWhite w = true -> JS.trimEnd w = "".
Proof.
  induction w as [|c w IH]; cbn; [reflexivity|].
  intros H. apply andb_prop in H as (Hc & Hw). now rewrite (IH Hw), Hc.
Qed.

Lemma trimEnd_noWhite (t : string) : noWhite t = true -> JS.trimEnd t = t.
Proof.
  induction t as [|c t IH]; cbn; [reflexivity|].
  intros H. apply andb_prop in H as (Hc & Ht).
  apply negb_true_iff in Hc. now rewrite (IH Ht), Hc.
Qed.

Lemma trimEnd_append (s t : string) :
  JS.isEmpty (JS.trimEnd t) = false -> JS.trimEnd (s ++ t) = s ++ JS.trimEnd t.
Proof.
  intros N. induction s as [|c s IH]; cbn; [reflexivity|].
  rewrite IH. destruct (s ++ JS.trimEnd t) eqn:E.
  - destruct s; cbn in E; [|discriminate]. rewrite E in N. discriminate.
  - cbn. now rewrite andb_false_r.
Qed.

Lemma trimEnd_token_white (s t w : string) :
  isToken t = true -> allWhite w = true ->
  JS.trimEnd (s ++ t ++ w) = s ++ t.
Proof.
  intros Ht Hw. apply andb_prop in Ht as (Hn & Hnw).
  assert (E : JS.trimEnd (t ++ w) = t).
  { clear Hn. induction t as [|c t IH]; cbn.
    - now apply trimEnd_white.
    - cbn in Hnw. apply andb_prop in Hnw as (Hc & Ht).
      apply negb_true_iff in Hc. now rewrite (IH Ht), Hc. }
  rewrite trimEnd_append; rewrite E; [reflexivity|].
  destruct t; [discriminate | reflexivity].
Qed.

(** After white space the flag no longer matters once a token starts. *)
Lemma split_run_token_start (t s : string) (f : bool) :
  isToken t = true -> JS.split_run f (t ++ s) = JS.split_run false (t ++ s).
Proof.
  destruct t as [|c t]; [discriminate|]. cbn.
  intros H. apply andb_prop in H as (Hc & _).
  apply negb_true_iff in Hc. now rewrite Hc.
Qed.

Lemma split_run_white_then_token (w t s : string) :
  allWhite w = true -> isToken t = true ->
  JS.split_run true (w ++ t ++ s) = JS.split_run false (t ++ s).
Proof.
  intros Hw Ht. induction w as [|c w IH]; cbn.
  - now apply split_run_token_start.
  - cbn in Hw. apply andb_prop in Hw as (Hc & Hw). rewrite Hc. now apply IH.
Qed.

Lemma split_run_separator (w t s : string) :
  isSeparator w = true -> isToken t = true ->
  JS.split_run false (w ++ t ++ s) = "" :: JS.split_run false (t ++ s).
Proof.
  intros Hw Ht. destruct w as [|c w]; [discriminate|].
  cbn in Hw. apply andb_prop in Hw as (Hc & Hw). cbn. rewrite Hc.
  f_equal. now apply split_run_white_then_token.
Qed.

Lemma split_run_not_nil (f : bool) (s : string) : JS.split_run f s <> [].
Proof.
  revert f. induction s as [|c s IH]; intros f; cbn; [discriminate|].
  destruct (JS.isWhiteSpace c).
  - destruct f; [apply IH | discriminate].
  - destruct (JS.split_run false s); discriminate.
Qed.

Lemma split_run_noWhite (t s : string) :
  noWhite t = true ->
  JS.split_run false (t ++ s)
  = match JS.split_run false s with
    | tok :: rest => (t ++ tok) :: rest
    | [] => [t]
    end.
Proof.
  induction t as [|c t IH]; cbn.
  - intros _. destruct (JS.split_run false s) eqn:E; [|reflexivity].
    now apply split_run_not_nil in E.
  - intros H. apply andb_prop in H as (Hc & Ht).
    apply negb_true_iff in Hc. rewrite Hc, (IH Ht).
    destruct (JS.split_run false s); reflexivity.
Qed.

Lemma append_empty_r (t : string) : t ++ "" = t.
Proof. induction t as [|c t IH]; cbn; [reflexivity | now rewrite IH]. Qed.

Lemma split_run_token_separator (t w u s : string) :
  isToken t = true -> isSeparator w = true -> isToken u = true ->
  JS.split_run false (t ++ w ++ u ++ s) = t :: JS.split_run false (u ++ s).
Proof.
  intros Ht Hw Hu. apply andb_prop in Ht as (_ & Ht).
  rewrite (split_run_noWhite t _ Ht), (split_run_separator w u s Hw Hu).
  now rewrite append_empty_r.
Qed.

Lemma split_run_last_token (t : string) :
  isToken t = true -> JS.split_run false t = [t].
Proof.
  intros Ht. apply andb_prop in Ht as (_ & Ht).
  rewrite <- (append_empty_r t) at 1. rewrite (split_run_noWhite t "" Ht).
  cbn. now rewrite append_empty_r.
Qed.

(** Four tokens between runs of white space are split into those tokens. *)
Lemma split_trim_four_tokens (lead a s1 b s2 c s3 d trail : string) :
  allWhite lead = true -> allWhite trail = true ->
  isToken a = true -> isToken b = true -> isToken c = true -> isToken d = true ->
  isSeparator s1 = true -> isSeparator s2 = true -> isSeparator s3 = true ->
  JS.split_ws (JS.trim (lead ++ a ++ s1 ++ b ++ s2 ++ c ++ s3 ++ d ++ trail))
  = [a; b; c; d].
Proof.
  intros Hl Ht Ha Hb Hc Hd H1 H2 H3. unfold JS.trim, JS.split_ws.
  rewrite (trimStart_white lead _ Hl), (trimStart_token a _ Ha).
  replace (a ++ s1 ++ b ++ s2 ++ c ++ s3 ++ d ++ trail)
    with ((a ++ s1 ++ b ++ s2 ++ c ++ s3) ++ d ++ trail)
    by (now rewrite !append_assoc).
  rewrite (trimEnd_token_white _ d trail Hd Ht), !append_assoc.
  rewrite (split_run_token_separator a s1 b _ Ha H1 Hb).
  rewrite (split_run_token_separator b s2 c _ Hb H2 Hc).
  rewrite <- (append_empty_r d).
  rewrite (split_run_token_separator c s3 d _ Hc H3 Hd).
  rewrite append_empty_r, (split_run_last_token d Hd). reflexivity.
Qed.

End Tokens.

(** Four tokens that are not numbers are not replaced by the default: the
    length is all [baseViewBox] looks at, and the entries are NaN. *)
Lemma four_words_are_not_defaulted :
  four_numeric_tokens "a b c d" = false
  /\ baseViewBox "a b c d" <> [0; 0; 100; 100]%float
  /\ map Prim2SF (baseViewBox "a b c d") = [S754_nan; S754_nan; S754_nan; S754_nan]
  /\ four_numeric_tokens "0 0 100 1OO" = false
  /\ baseViewBox "0 0 100 1OO" <> [0; 0; 100; 100]%float.
Proof.
  split; [vm_compute; reflexivity|]. split; [|split; [vm_compute; reflexivity|split]].
  - intros E. apply (f_equal (map Prim2SF)) in E. vm_compute in E. discriminate E.
  - vm_compute. reflexivity.
  - intros E. apply (f_equal (map Prim2SF)) in E. vm_compute in E. discriminate E.
Qed.

(** C5 (amended) -- Bounds parsing.  The parse is total and always has four
    entries.  A bounds string whose trimmed text does not split into exactly
    four white-space separated tokens parses to [0, 0, 100, 100]; one that
    does parses to what [Number] makes of each token (NaN for a token that is
    not a number).  In particular four tokens between runs of white space
    parse to the numbers of those tokens. *)
Theorem bounds_parsing (vb lead a s1 b s2 c s3 d trail : string)
  (Hlead : allWhite lead = true) (Htrail : allWhite trail = true)
  (Ha : isToken a = true) (Hb : isToken b = true)
  (Hc : isToken c = true) (Hd : isToken d = true)
  (H1 : isSeparator s1 = true) (H2 : isSeparator s2 = true)
  (H3 : isSeparator s3 = true) :
  List.length (baseViewBox vb) = 4%nat
  /\ (List.length (JS.split_ws (JS.trim vb)) <> 4%nat ->
      baseViewBox vb = [0; 0; 100; 100]%float)
  /\ (List.length (JS.split_ws (JS.trim vb)) = 4%nat ->
      baseViewBox vb = map JS.Number (JS.split_ws (JS.trim vb)))
  /\ baseViewBox (lead ++ a ++ s1 ++ b ++ s2 ++ c ++ s3 ++ d ++ trail)%string
     = [JS.Number a; JS.Number b; JS.Number c; JS.Number d]
  /\ baseViewBox "0 0 100 100" = [0; 0; 100; 100]%float
  /\ baseViewBox "" = [0; 0; 100; 100]%float
  /\ baseViewBox "0 0 100" = [0; 0; 100; 100]%float
  /\ baseViewBox "0,0,100,100" = [0; 0; 100; 100]%float
  /\ baseViewBox "1 2 3 4 5" = [0; 0; 100; 100]%float.
Proof.
  split; [apply baseViewBox_length|]. split; [|split; [|split]].
  - intros N. unfold baseViewBox. rewrite length_map.
    apply Nat.eqb_neq in N. now rewrite N.
  - intros E. unfold baseViewBox. rewrite length_map, E. reflexivity.
  - unfold baseViewBox.
    rewrite (split_trim_four_tokens lead a s1 b s2 c s3 d trail); auto.
  - repeat split; vm_compute; reflexivity.
Qed.

Lemma bounds_parsing_witness :
  baseViewBox "  -5 2.5  40   3e1 " = [-5; 2.5; 40; 30]%float
  /\ List.length (baseViewBox "no bounds") = 4%nat.
Proof.
  destruct (bounds_parsing "no bounds" "  " "-5" " " "2.5" "  " "40" "   " "3e1" " ")
    as (L & _ & _ & P & _); try (vm_compute; reflexivity).
  split; [|exact L].
  change ("  -5 2.5  40   3e1 "%string)
    with ("  " ++ "-5" ++ " " ++ "2.5" ++ "  " ++ "40" ++ "   " ++ "3e1" ++ " ")%string.
  rewrite P. vm_compute. reflexivity.
Defined.

(** ** Hit-testing *)

Lemma chain_unfold (e : Element) :
  chain e = e :: match parentElement e with Some q => chain q | None => [] end.
Proof. destruct e; reflexivity. Qed.

Section HitTest.

Variable dom : Dom.

(** The walk finds the nearest identifiable node when it is fewer than
    [n] levels up, and nothing when it is further. *)
Lemma find_candidate_at (n : nat) :
  forall (cur : Element) (k : nat) (found : Element),
    nth_error (chain cur) k = Some found ->
    identifiable (element_id found) = true ->
    (forall j e, j < k -> nth_error (chain cur) j = Some e ->
                 identifiable (element_id e) = false) ->
    (forall j e, j <= k -> nth_error (chain cur) j = Some e ->
                 is_svgRef dom e = false) ->
    find_candidate dom n (Some cur)
    = if (k <? n)%nat then Some (select_element found) else None.
Proof.
  induction n as [|n IH]; intros cur k found Hk Hid Hbelow Hroot; [reflexivity|].
  cbn [find_candidate]. rewrite chain_unfold in Hk, Hbelow, Hroot.
  rewrite (Hroot 0%nat cur (Nat.le_0_l k) eq_refl).
  destruct k as [|k].
  - cbn in Hk. injection Hk as ->. rewrite Hid. reflexivity.
  - rewrite (Hbelow 0%nat cur (Nat.lt_0_succ k) eq_refl).
    cbn [nth_error] in Hk.
    destruct (parentElement cur) as [q|]; [|destruct k; discriminate Hk].
    change (S k <? S n)%nat with (k <? n)%nat.
    apply (IH q k found Hk Hid).
    + intros j e Hj He. apply (Hbelow (S j) e); [lia | exact He].
    + intros j e Hj He. apply (Hroot (S j) e); [lia | exact He].
Qed.

(** The loop computes the described search. *)
Lemma find_candidate_find (n : nat) :
  forall cur : Element,
    find_candidate dom n (Some cur)
    = option_map select_element
        (find (fun e => identifiable (element_id e))
              (firstn n (below_canvas dom (chain cur)))).
Proof.
  induction n as [|n IH]; intros cur; [reflexivity|].
  cbn [find_candidate]. rewrite chain_unfold. cbn [below_canvas].
  destruct (is_svgRef dom cur); [reflexivity|]. cbn [firstn find].
  destruct (identifiable (element_id cur)); [reflexivity|].
  destruct (parentElement cur) as [q|]; [apply IH|].
  destruct n; reflexivity.
Qed.

Lemma handleElementClick_hitTest (target : Element) (s : State) :
  selectedElement (dispatch (handleElementClick dom target) s)
  = option_map select_element (hitTest dom target).
Proof.
  unfold dispatch, handleElementClick, hitTest.
  destruct (is_background dom target); [reflexivity|].
  rewrite find_candidate_find.
  destruct (find _ _); reflexivity.
Qed.

Lemma find_candidate_none (n : nat) :
  forall cur : Element,
    (forall e, In e (firstn n (chain cur)) -> identifiable (element_id e) = false) ->
    find_candidate dom n (Some cur) = None.
Proof.
  induction n as [|n IH]; intros cur H; [reflexivity|].
  cbn [find_candidate]. rewrite chain_unfold in H. cbn [firstn] in H.
  destruct (is_svgRef dom cur); [reflexivity|].
  rewrite (H cur (or_introl eq_refl)).
  destruct (parentElement cur) as [q|]; [|destruct n; reflexivity].
  apply IH. intros e He. apply H. now right.
Qed.

End HitTest.

(** C8 -- Hit-test.  For a click on a node that is not the canvas or the
    background, the walk looks at the node and at most four ancestors (five
    levels), passes nodes with an empty identifier or one starting with
    [grid] or [arrow], and selects the nearest node with another identifier
    when it is within those five levels (at most four ancestors up); when it
    is five or more ancestors up, or there is none, the selection is
    cleared. *)
Theorem hit_test_depth_bound (dom : Dom) (target : Element) (s : State)
  (k : nat) (found : Element)
  (Hfront : is_background dom target = false)
  (Hk : nth_error (chain target) k = Some found)
  (Hid : identifiable (element_id found) = true)
  (Hbelow : forall j e, j < k -> nth_error (chain target) j = Some e ->
                        identifiable (element_id e) = false)
  (Hroot : forall j e, j <= k -> nth_error (chain target) j = Some e ->
                       is_svgRef dom e = false) :
  selectedElement (dispatch (handleElementClick dom target) s)
  = (if (k <? 5)%nat then Some (select_element found) else None)
  /\ (forall target' s',
        selectedElement (dispatch (handleElementClick dom target') s')
        = option_map select_element (hitTest dom target'))
  /\ (forall target' s',
        (forall e, In e (firstn 5 (chain target')) ->
                   identifiable (element_id e) = false) ->
        selectedElement (dispatch (handleElementClick dom target') s') = None)
  /\ (forall id, identifiable id = true <->
                 id <> EmptyString /\ String.prefix "grid" id = false
                 /\ String.prefix "arrow" id = false).
Proof.
  split; [|split; [|split]].
  - unfold dispatch, handleElementClick. rewrite Hfront.
    rewrite (find_candidate_at dom 5 target k found Hk Hid Hbelow Hroot).
    destruct (k <? 5)%nat; reflexivity.
  - intros target' s'. apply handleElementClick_hitTest.
  - intros target' s' H. unfold dispatch, handleElementClick.
    destruct (is_background dom target'); [reflexivity|].
    rewrite (find_candidate_none dom 5 target' H). reflexivity.
  - intros id. unfold identifiable. rewrite !andb_true_iff, !negb_true_iff.
    destruct id; cbn [JS.isEmpty]; intuition congruence.
Qed.

(** A computable way to check the theorem's side conditions on a chain. *)
Lemma nth_error_firstn_forallb (P : Element -> bool) (l : list Element) (k : nat) :
  forallb (fun e => negb (P e)) (firstn k l) = true ->
  forall j e, j < k -> nth_error l j = Some e -> P e = false.
Proof.
  intros H j e Hj He. rewrite forallb_forall in H.
  apply negb_true_iff, H. clear H.
  apply (nth_error_In _ j). revert l k Hj He.
  induction j as [|j IH]; intros [|a l] [|k] Hj He; try discriminate; try lia.
  - exact He.
  - cbn [firstn nth_error] in *. apply IH; [lia | exact He].
Qed.

Lemma hit_test_depth_bound_witness :
  selectedElement (dispatch (handleElementClick demoDom (nested 4 columnC1)) initialState)
  = Some (Selected.mk "C-1" "column" [ ("id", "C-1"); ("data-type", "column") ]%string
                      (Some (mkDOMRect 10 10 4 4)))
  /\ selectedElement
       (dispatch (handleElementClick demoDom (nested 6 columnC1)) initialState)
     = None.
Proof.
  split.
  - pose proof (hit_test_depth_bound demoDom (nested 4 columnC1) initialState
                  4 columnC1) as P.
    specialize (P ltac:(vm_compute; reflexivity) ltac:(vm_compute; reflexivity)
                  ltac:(vm_compute; reflexivity)).
    specialize (P ltac:(apply nth_error_firstn_forallb; vm_compute; reflexivity)).
    specialize (P ltac:(intros j e Hj;
                        apply (nth_error_firstn_forallb (is_svgRef demoDom) _ 5);
                        [vm_compute; reflexivity | lia])).
    destruct P as (H & _). rewrite H. reflexivity.
  - pose proof (hit_test_depth_bound demoDom (nested 6 columnC1) initialState
                  6 columnC1) as P.
    specialize (P ltac:(vm_compute; reflexivity) ltac:(vm_compute; reflexivity)
                  ltac:(vm_compute; reflexivity)).
    specialize (P ltac:(apply nth_error_firstn_forallb; vm_compute; reflexivity)).
    specialize (P ltac:(intros j e Hj;
                        apply (nth_error_firstn_forallb (is_svgRef demoDom) _ 7);
                        [vm_compute; reflexivity | lia])).
    destruct P as (H & _). rewrite H. reflexivity.
Defined.

(** * Further properties of the component *)

(** ** Undo and redo as inverses *)

Lemma State_ext (a b : State) :
  viewState a = viewState b -> isPanning a = isPanning b ->
  lastMousePos a = lastMousePos b -> snapEnabled a = snapEnabled b ->
  cursorPos a = cursorPos b -> activeTool a = activeTool b ->
  measureStart a = measureStart b -> measurements a = measurements b ->
  detailInput a = detailInput b -> userShapes a = userShapes b ->
  currentShape a = currentShape b -> drawStep a = drawStep b ->
  history a = history b -> future a = future b ->
  selectedElement a = selectedElement b -> dragStartRef a = dragStartRef b ->
  a = b.
Proof.
  destruct a, b. cbn. intros. subst. reflexivity.
Qed.

Lemma handleUndo_outside (s : State) : same_outside_history s (dispatch handleUndo s).
Proof.
  unfold same_outside_history, dispatch, handleUndo.
  destruct (List.length (history s) =? 0)%nat; cbn; repeat split.
Qed.

Lemma handleRedo_outside (s : State) : same_outside_history s (dispatch handleRedo s).
Proof.
  unfold same_outside_history, dispatch, handleRedo.
  destruct (List.length (future s) =? 0)%nat; cbn; repeat split.
Qed.

Lemma same_outside_history_trans (a b c : State) :
  same_outside_history a b -> same_outside_history b c -> same_outside_history a c.
Proof.
  unfold same_outside_history.
  intros (A1 & A2 & A3 & A4 & A5 & A6 & A7 & A8 & A9 & A10 & A11 & A12 & A13)
         (B1 & B2 & B3 & B4 & B5 & B6 & B7 & B8 & B9 & B10 & B11 & B12 & B13).
  repeat split; congruence.
Qed.

Lemma same_outside_history_ext (a b : State) :
  same_outside_history a b ->
  userShapes b = userShapes a -> history b = history a -> future b = future a ->
  b = a.
Proof.
  unfold same_outside_history.
  intros (A1 & A2 & A3 & A4 & A5 & A6 & A7 & A8 & A9 & A10 & A11 & A12 & A13) U Hh F.
  apply State_ext; assumption.
Qed.

(** Redo undoes an undo: with a non-empty past, undo followed by redo gives
    back the very same state. *)
Theorem redo_after_undo (s : State) (Hpast : history s <> []) :
  dispatch handleRedo (dispatch handleUndo s) = s.
Proof.
  destruct (exists_last Hpast) as (h & p & E).
  destruct (dispatch_undo_top s h p E) as (U & H & F).
  destruct (dispatch_redo_front (dispatch handleUndo s) (future s) (userShapes s) F)
    as (U' & H' & F').
  apply same_outside_history_ext.
  - eapply same_outside_history_trans; [apply handleUndo_outside | apply handleRedo_outside].
  - exact U'.
  - rewrite H', H, U. symmetry. exact E.
  - exact F'.
Qed.

Lemma redo_after_undo_witness :
  let s := run demoProps dragRect (mount demoProps) in
  history s = [ [] ] /\ dispatch handleRedo (dispatch handleUndo s) = s.
Proof.
  split; [vm_compute; reflexivity|].
  apply redo_after_undo. vm_compute. discriminate.
Defined.

(** Undo undoes a redo: with a non-empty future, redo followed by undo gives
    back the very same state. *)
Theorem undo_after_redo (s : State) (Hfuture : future s <> []) :
  dispatch handleUndo (dispatch handleRedo s) = s.
Proof.
  destruct (future s) as [|a f] eqn:E; [congruence|].
  destruct (dispatch_redo_front s f a E) as (U & H & F).
  destruct (dispatch_undo_top (dispatch handleRedo s) (history s) (userShapes s) H)
    as (U' & H' & F').
  apply same_outside_history_ext.
  - eapply same_outside_history_trans; [apply handleRedo_outside | apply handleUndo_outside].
  - exact U'.
  - exact H'.
  - rewrite F', U, F. symmetry. exact E.
Qed.

Lemma undo_after_redo_witness :
  let s := dispatch handleUndo (run demoProps dragRect (mount demoProps)) in
  future s <> [] /\ dispatch handleUndo (dispatch handleRedo s) = s.
Proof.
  assert (N : future (dispatch handleUndo (run demoProps dragRect (mount demoProps)))
              <> []) by (vm_compute; discriminate).
  split; [exact N|]. apply undo_after_redo. exact N.
Defined.

(** Undo and redo only move frames between the two stacks: the number of
    frames in past and future together never changes. *)
Theorem undo_redo_keep_frame_count (s : State) :
  List.length (history (dispatch handleUndo s))
  + List.length (future (dispatch handleUndo s))
  = List.length (history s) + List.length (future s)
  /\ List.length (history (dispatch handleRedo s))
     + List.length (future (dispatch handleRedo s))
     = List.length (history s) + List.length (future s).
Proof.
  split.
  - destruct (history s) as [|a l] eqn:E.
    + now rewrite (dispatch_undo_empty s E), E.
    + assert (N : history s <> []) by congruence.
      destruct (exists_last N) as (h & p & E').
      destruct (dispatch_undo_top s h p E') as (_ & H & F).
      rewrite H, F, <- E, E', length_app. cbn. lia.
  - destruct (future s) as [|a f] eqn:E.
    + now rewrite (dispatch_redo_empty s E), E.
    + destruct (dispatch_redo_front s f a E) as (_ & H & F).
      rewrite H, F, length_app. cbn. lia.
Qed.

(** Erase-all is undoable for the shapes but not for the measurements: with
    shapes on the canvas, the eraser followed by undo brings the shape list
    and the past back, while the measurement list stays empty. *)
Theorem eraser_then_undo (s : State) (Hshapes : userShapes s <> []) :
  let s' := dispatch handleUndo (dispatch eraser s) in
  userShapes s' = userShapes s
  /\ history s' = history s
  /\ future s' = [ [] ]
  /\ measurements s' = []
  /\ currentShape s' = None.
Proof.
  cbv zeta. destruct (eraser_commit s Hshapes) as ((H & F) & U).
  destruct (dispatch_undo_top (dispatch eraser s) (history s) (userShapes s) H)
    as (U' & H' & F').
  destruct (handleUndo_outside (dispatch eraser s)) as (M & _ & _ & _ & _ & C & _).
  repeat split; try assumption.
  - now rewrite F', U, F.
  - rewrite M. unfold dispatch, eraser, clearUserShapes, clearMeasurements.
    destruct (0 <? List.length (userShapes s))%nat; reflexivity.
  - rewrite C. unfold dispatch, eraser, clearUserShapes, clearMeasurements.
    destruct (0 <? List.length (userShapes s))%nat; reflexivity.
Qed.

Lemma eraser_then_undo_witness :
  let s := run demoProps
               ((demoDom, ToolButton measure) :: clickAt 0 0 ++ clickAt 3 4 ++ dragRect)
               (mount demoProps) in
  let s' := dispatch handleUndo (dispatch eraser s) in
  List.length (measurements s) = 1%nat
  /\ userShapes s' = userShapes s /\ measurements s' = [].
Proof.
  cbv zeta.
  pose proof (eraser_then_undo
                (run demoProps
                     ((demoDom, ToolButton measure)
                      :: clickAt 0 0 ++ clickAt 3 4 ++ dragRect)
                     (mount demoProps))) as P.
  specialize (P ltac:(vm_compute; discriminate)).
  cbv zeta in P. destruct P as (U & _ & _ & M & _).
  split; [vm_compute; reflexivity|]. split; [exact U | exact M].
Defined.

(** ** What an event can do to shapes and history *)

Ltac split_cases :=
  repeat match goal with
         | |- context [match ?x with _ => _ end] =>
             lazymatch x with
             | context [match _ with _ => _ end] => fail
             | _ => destruct x eqn:?
             end
         end.

Ltac shape_action_done :=
  unfold shape_action, is_neutral, is_commit;
  first [ left; repeat split; reflexivity
        | right; left; split;
          [ split; reflexivity
          | first [ left; reflexivity | right; eexists; reflexivity ] ] ].

Lemma shape_action_undo (s : State) : shape_action s (dispatch handleUndo s).
Proof.
  destruct (history s) as [|a l] eqn:E.
  - rewrite (dispatch_undo_empty s E). left. repeat split.
  - right. right. left. split; [congruence | reflexivity].
Qed.

Lemma shape_action_redo (s : State) : shape_action s (dispatch handleRedo s).
Proof.
  destruct (future s) as [|a l] eqn:E.
  - rewrite (dispatch_redo_empty s E). left. repeat split.
  - right. right. right. split; [congruence | reflexivity].
Qed.

Lemma shape_action_onMouseDown (dom : Dom) (e : MouseEvent) (s : State) :
  shape_action s (dispatch (onMouseDown dom e) s).
Proof.
  unfold dispatch, onMouseDown, handleDrawingStart, saveState.
  split_cases; shape_action_done.
Qed.

Lemma shape_action_onMouseMove (dom : Dom) (e : MouseEvent) (s : State) :
  shape_action s (dispatch (onMouseMove dom e) s).
Proof.
  unfold dispatch, onMouseMove, updateDrawingPreview.
  split_cases; shape_action_done.
Qed.

Lemma shape_action_onMouseUp (dom : Dom) (e : MouseEvent) (s : State) :
  shape_action s (dispatch (onMouseUp dom e) s).
Proof.
  unfold dispatch, onMouseUp, handleElementClick, saveState.
  split_cases; shape_action_done.
Qed.

Lemma shape_action_onMouseLeave (dom : Dom) (e : MouseEvent) (s : State) :
  shape_action s (dispatch (onMouseLeave dom e) s).
Proof.
  unfold dispatch, onMouseLeave, onMouseUp, handleElementClick, saveState.
  split_cases; shape_action_done.
Qed.

(** Whatever the event and the state, the user-shape list and the two stacks
    are either left alone, or changed by a commit (the list it started from
    pushed onto the past, the future emptied, the list extended by one shape
    or emptied), or by an undo or a redo. *)
Theorem every_event_is_a_shape_action (p : Props) (dom : Dom) (ev : Event) (s : State) :
  shape_action s (step p s (dom, ev)).
Proof.
  unfold step, fst, snd. destruct ev; cbn [handler].
  - apply shape_action_onMouseDown.
  - apply shape_action_onMouseMove.
  - apply shape_action_onMouseUp.
  - apply shape_action_onMouseLeave.
  - unfold dispatch, onDoubleClick, saveState. split_cases; shape_action_done.
  - unfold dispatch.
    destruct (handleKeyDown_cases e s) as [-> | [-> | ->]].
    + apply shape_action_undo.
    + apply shape_action_redo.
    + left. repeat split.
  - destruct t; shape_action_done.
  - apply shape_action_undo.
  - apply shape_action_redo.
  - unfold dispatch, eraser, clearMeasurements, clearUserShapes, saveState.
    destruct (userShapes s) eqn:E; cbn [List.length Nat.ltb Nat.leb].
    + left. unfold is_neutral. cbn. rewrite E. repeat split.
    + unfold shape_action, is_commit. right. left. cbn. rewrite E.
      split; [split; reflexivity | left; reflexivity].
  - unfold dispatch, handleZoomIn, handleZoom. split_cases; shape_action_done.
  - unfold dispatch, handleZoomOut, handleZoom. split_cases; shape_action_done.
  - shape_action_done.
  - shape_action_done.
  - shape_action_done.
  - unfold dispatch, handleRequestDetail. split_cases; shape_action_done.
  - shape_action_done.
Qed.

(** ** Measurements only grow *)

Lemma ToolType_eqb_eq (a b : ToolType) : ToolType_eqb a b = true -> a = b.
Proof. destruct a, b; cbn; congruence. Qed.

(** Apart from the eraser, no event removes or changes a committed
    measurement: the list stays, or one measurement is appended, and that
    only by a press of the measure tool with a start point recorded. *)
Theorem measurements_only_grow (p : Props) (dom : Dom) (ev : Event) (s : State)
  (Hev : ev <> EraserButton) :
  let s' := step p s (dom, ev) in
  measurements s' = measurements s
  \/ exists e start pos d,
       ev = MouseDown e /\ activeTool s = measure
       /\ measureStart s = Some start /\ cursorPos s = Some pos
       /\ measurements s' = measurements s ++ [ Measurement.mk start pos d ].
Proof.
  cbv zeta. unfold step, fst, snd. destruct ev; cbn [handler]; try congruence.
  - unfold dispatch, onMouseDown, handleDrawingStart, saveState.
    split_cases; try (left; reflexivity).
    right. do 4 eexists. repeat split; try reflexivity.
    now apply ToolType_eqb_eq.
  - unfold dispatch, onMouseMove, updateDrawingPreview.
    split_cases; left; reflexivity.
  - unfold dispatch, onMouseUp, handleElementClick, saveState.
    split_cases; left; reflexivity.
  - unfold dispatch, onMouseLeave, onMouseUp, handleElementClick, saveState.
    split_cases; left; reflexivity.
  - unfold dispatch, onDoubleClick, saveState. split_cases; left; reflexivity.
  - left. unfold dispatch.
    destruct (handleKeyDown_cases e s) as [-> | [-> | ->]].
    + apply (handleUndo_outside s).
    + apply (handleRedo_outside s).
    + reflexivity.
  - left. destruct t; reflexivity.
  - left. apply (handleUndo_outside s).
  - left. apply (handleRedo_outside s).
  - left. unfold dispatch, handleZoomIn, handleZoom. split_cases; reflexivity.
  - left. unfold dispatch, handleZoomOut, handleZoom. split_cases; reflexivity.
  - left. reflexivity.
  - left. reflexivity.
  - left. reflexivity.
  - left. unfold dispatch, handleRequestDetail. split_cases; reflexivity.
  - left. reflexivity.
Qed.

Lemma measurements_only_grow_witness :
  let s := run demoProps
               ((demoDom, ToolButton measure) :: clickAt 0 0 ++ moveTo 3 4)
               (mount demoProps) in
  let s' := step demoProps s (demoDom, MouseDown (pointer 3 4)) in
  measurements s' = measurements s
  \/ exists e start pos d,
       MouseDown (pointer 3 4) = MouseDown e /\ activeTool s = measure
       /\ measureStart s = Some start /\ cursorPos s = Some pos
       /\ measurements s' = measurements s ++ [ Measurement.mk start pos d ].
Proof.
  apply (measurements_only_grow demoProps demoDom (MouseDown (pointer 3 4))).
  discriminate.
Defined.

(** ** Pointer events away from the select tool *)

Lemma apply_updates_preserve {A : Type} (f : State -> A) (us : list Update) (s : State) :
  Forall (fun u => forall st, f (u st) = f st) us -> f (apply_updates us s) = f s.
Proof.
  unfold apply_updates. revert s.
  induction us as [|u us IH]; intros s H; [reflexivity|].
  inversion H as [|? ? Hu Hus]; subst. cbn [fold_left].
  rewrite (IH (u s) Hus). apply Hu.
Qed.

Ltac forall_updates :=
  repeat first [ apply Forall_nil
               | apply Forall_cons; [intros ?; reflexivity|]
               | apply Forall_app; split ].

(** With any tool but select, no pointer event moves the viewport or
    touches the selection: panning and inspecting belong to select alone. *)
Theorem pointer_events_outside_select (p : Props) (dom : Dom) (ev : Event) (s : State)
  (Hev : is_pointer_event ev = true) (Htool : activeTool s <> select) :
  viewState (step p s (dom, ev)) = viewState s
  /\ selectedElement (step p s (dom, ev)) = selectedElement s.
Proof.
  unfold step, fst, snd.
  destruct (activeTool s) eqn:T; try congruence;
    destruct ev; try discriminate Hev; cbn [handler];
    unfold dispatch, onMouseLeave, onMouseDown, onMouseMove, onMouseUp,
      onDoubleClick, handleDrawingStart, updateDrawingPreview, saveState;
    rewrite T; cbn [ToolType_eqb startsWith_draw andb orb];
    rewrite ?andb_false_r;
    split; apply apply_updates_preserve; split_cases; forall_updates.
Qed.

Lemma pointer_events_outside_select_witness :
  let s := run demoProps ((demoDom, ToolButton draw_circle) :: moveTo 5 5)
               (mount demoProps) in
  viewState (step demoProps s (demoDom, MouseUp (pointer 5 5))) = viewState s
  /\ selectedElement (step demoProps s (demoDom, MouseUp (pointer 5 5)))
     = selectedElement s.
Proof.
  apply (pointer_events_outside_select demoProps demoDom (MouseUp (pointer 5 5))).
  - reflexivity.
  - vm_compute. discriminate.
Defined.

(** ** The view controls *)

(** Zoom in, zoom out and fit-to-screen write the viewport and nothing else,
    and fit-to-screen always lands on the base bounds, whatever the viewport
    was. *)
Theorem view_controls_only_move_the_viewport (p : Props) (dom : Dom) (ev : Event)
  (s : State) (Hev : is_view_control ev = true) :
  step p s (dom, ev) = setViewState (value (viewState (step p s (dom, ev)))) s
  /\ viewState (step p s (dom, ResetButton)) = Some (baseView p).
Proof.
  split; [|reflexivity].
  unfold step, fst, snd.
  destruct ev; try discriminate Hev; cbn [handler];
    unfold dispatch, handleZoomIn, handleZoomOut, handleZoom, handleReset;
    destruct s as [vs ? ? ? ? ? ? ? ? ? ? ? ? ? ? ?]; cbn;
    try reflexivity; destruct vs; reflexivity.
Qed.

Lemma setViewState_userShapes (g : option (View.t JS.number) -> option (View.t JS.number))
  (s : State) : userShapes (setViewState g s) = userShapes s.
Proof. reflexivity. Qed.

Lemma view_controls_only_move_the_viewport_witness :
  let s := run demoProps (dragRect ++ [ (demoDom, ZoomInButton) ]) (mount demoProps) in
  userShapes (step demoProps s (demoDom, ResetButton)) = userShapes s
  /\ viewState (step demoProps s (demoDom, ResetButton)) = Some (baseView demoProps).
Proof.
  cbv zeta.
  pose proof (view_controls_only_move_the_viewport demoProps demoDom ResetButton
              (run demoProps (dragRect ++ [ (demoDom, ZoomInButton) ]) (mount demoProps))
              eq_refl) as P.
  destruct P as (E & V).
  split; [|exact V].
  exact (eq_trans (f_equal userShapes E) (setViewState_userShapes _ _)).
Defined.

(** ** Keyboard *)

(** A key press without Ctrl or Meta, or of a key other than [z] and [y],
    changes nothing, and no key press touches anything but the user shapes
    and the two stacks. *)
Theorem keyboard_shortcuts (e : KeyboardEvent) (s : State) :
  (metaKey e || ctrlKey e = false -> dispatch (handleKeyDown e) s = s)
  /\ (key e <> "z"%string -> key e <> "y"%string -> dispatch (handleKeyDown e) s = s)
  /\ same_outside_history s (dispatch (handleKeyDown e) s).
Proof.
  split; [|split].
  - intros M. unfold dispatch, handleKeyDown. rewrite M. reflexivity.
  - intros Nz Ny. unfold dispatch, handleKeyDown.
    apply String.eqb_neq in Nz, Ny. rewrite Nz, Ny, !andb_false_r. reflexivity.
  - unfold dispatch. destruct (handleKeyDown_cases e s) as [-> | [-> | ->]].
    + apply handleUndo_outside.
    + apply handleRedo_outside.
    + repeat split.
Qed.

(** ** A press and release without a drag *)

Lemma press_starts_drag_shape (dom : Dom) (e : MouseEvent) (s : State) (pos : Point.t) :
  button e = 0%Z -> cursorPos s = Some pos ->
  activeTool s = draw_rect \/ activeTool s = draw_circle ->
  let s1 := dispatch (onMouseDown dom e) s in
  activeTool s1 = activeTool s
  /\ userShapes s1 = userShapes s /\ history s1 = history s /\ future s1 = future s
  /\ currentShape s1
     = Some (Shape.mk (Date_now dom)
               (match activeTool s with
                | draw_rect =>
                    Shape.rect (Point.x pos) (Point.y pos) 0 0 (Point.x pos) (Point.y pos)
                | _ => Shape.circle (Point.x pos) (Point.y pos) 0
                end) emerald).
Proof.
  intros B C T. cbv zeta. unfold dispatch, onMouseDown. rewrite B, C.
  destruct T as [T | T]; rewrite T; repeat split; exact T.
Qed.

(** With the rectangle or the circle tool, pressing and releasing without a
    pointer-move in between never adds a shape: the zero-size shape is
    dropped, shapes and stacks are as before and nothing stays in progress. *)
Theorem press_release_without_drag (dom : Dom) (e e' : MouseEvent) (s : State)
  (pos : Point.t)
  (Hbutton : button e = 0%Z) (Hcursor : cursorPos s = Some pos)
  (Htool : activeTool s = draw_rect \/ activeTool s = draw_circle) :
  let s' := dispatch (onMouseUp dom e') (dispatch (onMouseDown dom e) s) in
  userShapes s' = userShapes s
  /\ history s' = history s
  /\ future s' = future s
  /\ currentShape s' = None.
Proof.
  cbv zeta.
  destruct (press_starts_drag_shape dom e s pos Hbutton Hcursor Htool)
    as (T1 & U1 & H1 & F1 & C1).
  set (s1 := dispatch (onMouseDown dom e) s) in *.
  assert (F : future (dispatch (onMouseUp dom e') s1) = future s1).
  { unfold dispatch, onMouseUp. rewrite C1, T1.
    destruct Htool as [T | T]; rewrite T; reflexivity. }
  destruct Htool as [T | T]; rewrite T in *.
  - destruct (onMouseUp_rect dom e' s1 _ C1 T1) as (C & U & H).
    cbn [Shape.data_w Shape.shape] in U, H.
    change (positive (Some 0%float)) with false in U, H.
    rewrite C, U, H, F. auto.
  - destruct (onMouseUp_circle dom e' s1 _ C1 T1) as (C & U & H).
    cbn [Shape.data_r Shape.shape] in U, H.
    change (positive (Some 0%float)) with false in U, H.
    rewrite C, U, H, F. auto.
Qed.

Lemma press_release_without_drag_witness :
  let s := run demoProps ((demoDom, ToolButton draw_circle) :: moveTo 5 5)
               (mount demoProps) in
  let s' := run demoProps [ (demoDom, MouseDown (pointer 5 5));
                            (demoDom, MouseUp (pointer 5 5)) ] s in
  userShapes s' = [] /\ history s' = [] /\ currentShape s' = None.
Proof.
  cbv zeta.
  pose proof (press_release_without_drag demoDom (pointer 5 5) (pointer 5 5)
                (run demoProps ((demoDom, ToolButton draw_circle) :: moveTo 5 5)
                     (mount demoProps)) (Point.mk 5 5)) as P.
  specialize (P eq_refl ltac:(vm_compute; reflexivity)
                ltac:(right; vm_compute; reflexivity)).
  cbv zeta in P. destruct P as (U & H & _ & C).
  split; [|split].
  - vm_compute in U. vm_compute. exact U.
  - vm_compute in H. vm_compute. exact H.
  - vm_compute in C. vm_compute. exact C.
Defined.

(** ** The three-click arc *)

Section ArcClicks.

Variables (p : Props) (dom : Dom) (svg : SvgRoot) (inverse : Point.t -> Point.t).
Hypothesis Hsvg : svgRef dom = Some svg.
Hypothesis Hctm : inverseCTM svg = Some inverse.

Lemma arc_move (e : MouseEvent) (s : State) (v : View.t JS.number) :
  activeTool s = draw_arc -> viewState s = Some v ->
  let c := cursorAt (snapEnabled s) inverse e in
  let s' := dispatch (onMouseMove dom e) s in
  cursorPos s' = Some c
  /\ drawStep s' = drawStep s
  /\ same_drawing_context s s'
  /\ forall i col p1 p2 ctl,
       currentShape s = Some (Shape.mk i (Shape.arc p1 p2 ctl) col) ->
       currentShape s'
       = Some (Shape.mk i
                 (if (drawStep s =? 1)%Z then
                    Shape.arc p1 c (Point.mk ((Point.x p1 + Point.x c) / 2)
                                             ((Point.y p1 + Point.y c) / 2))
                  else if (drawStep s =? 2)%Z then Shape.arc p1 p2 c
                  else Shape.arc p1 p2 ctl) col).
Proof.
  intros T V. cbv zeta. unfold same_drawing_context, dispatch, onMouseMove.
  rewrite T, V, Hsvg, Hctm, andb_false_r. unfold updateDrawingPreview.
  destruct (currentShape s) as [cur|] eqn:C.
  - destruct (Shape.shape cur) eqn:D.
    1-3: cbn; rewrite T, V; repeat split; auto;
      intros i col q1 q2 qc Q; injection Q as ->; discriminate D.
    destruct (drawStep s =? 1)%Z eqn:D1; [|destruct (drawStep s =? 2)%Z eqn:D2];
      cbn; rewrite ?T, ?V; repeat split; auto;
      intros i col q1 q2 qc Q; injection Q as ->; cbn in D |- *;
      rewrite ?D1, ?D2; injection D as <- <- <-; first [reflexivity | exact C].
  - cbn. rewrite T, V. repeat split; auto. intros; discriminate.
Qed.

Lemma arc_up (e : MouseEvent) (s : State) :
  activeTool s = draw_arc ->
  let s' := dispatch (onMouseUp dom e) s in
  currentShape s' = currentShape s /\ drawStep s' = drawStep s
  /\ same_drawing_context s s'.
Proof.
  intros T. cbv zeta. unfold same_drawing_context, dispatch, onMouseUp.
  rewrite T. cbn [ToolType_eqb orb].
  destruct (currentShape s) eqn:C; cbn; rewrite T; repeat split; auto.
Qed.

Lemma arc_down_first (e : MouseEvent) (s : State) (c : Point.t) :
  button e = 0%Z -> activeTool s = draw_arc -> cursorPos s = Some c ->
  drawStep s = 0%Z ->
  let s' := dispatch (onMouseDown dom e) s in
  currentShape s' = Some (Shape.mk (Date_now dom) (Shape.arc c c c) emerald)
  /\ drawStep s' = 1%Z /\ same_drawing_context s s'.
Proof.
  intros B T C D. cbv zeta. unfold same_drawing_context, dispatch, onMouseDown.
  rewrite B, T, C. cbn [Z.eqb negb ToolType_eqb startsWith_draw handleDrawingStart].
  rewrite D. cbn. rewrite T. repeat split.
Qed.

Lemma arc_down_second (e : MouseEvent) (s : State) (c : Point.t) :
  button e = 0%Z -> activeTool s = draw_arc -> cursorPos s = Some c ->
  drawStep s = 1%Z ->
  let s' := dispatch (onMouseDown dom e) s in
  currentShape s' = currentShape s
  /\ drawStep s' = 2%Z /\ same_drawing_context s s'.
Proof.
  intros B T C D. cbv zeta. unfold same_drawing_context, dispatch, onMouseDown.
  rewrite B, T, C. cbn [Z.eqb negb ToolType_eqb startsWith_draw handleDrawingStart].
  rewrite D. cbn. rewrite T. repeat split.
Qed.

Lemma arc_down_third (e : MouseEvent) (s : State) (c : Point.t) (cur : Shape.t) :
  button e = 0%Z -> activeTool s = draw_arc -> cursorPos s = Some c ->
  drawStep s = 2%Z -> currentShape s = Some cur ->
  let s' := dispatch (onMouseDown dom e) s in
  userShapes s' = userShapes s ++ [cur]
  /\ history s' = history s ++ [userShapes s]
  /\ future s' = []
  /\ currentShape s' = None
  /\ drawStep s' = 0%Z
  /\ activeTool s' = draw_arc.
Proof.
  intros B T C D K. cbv zeta. unfold dispatch, onMouseDown.
  rewrite B, T, C. cbn [Z.eqb negb ToolType_eqb startsWith_draw handleDrawingStart].
  rewrite D, K. cbn. rewrite T. repeat split.
Qed.

(** One click of the arc tool before the last: where the gesture stands
    after it. *)
Lemma arc_click_first (e : MouseEvent) (s : State) :
  button e = 0%Z -> activeTool s = draw_arc -> viewState s <> None ->
  drawStep s = 0%Z ->
  let c := cursorAt (snapEnabled s) inverse e in
  let s' := run p (click dom e) s in
  currentShape s' = Some (Shape.mk (Date_now dom) (Shape.arc c c c) emerald)
  /\ drawStep s' = 1%Z /\ same_drawing_context s s'.
Proof.
  intros B T V D. cbv zeta. rewrite run_click.
  destruct (viewState s) as [v|] eqn:Ev; [clear V | congruence].
  destruct (arc_move e s v T Ev) as (M1 & M2 & M3 & _).
  set (s1 := dispatch (onMouseMove dom e) s) in *.
  assert (T1 : activeTool s1 = draw_arc) by (destruct M3 as (-> & _); exact T).
  assert (D1 : drawStep s1 = 0%Z) by congruence.
  destruct (arc_down_first e s1 _ B T1 M1 D1) as (C2 & D2 & K2).
  set (s2 := dispatch (onMouseDown dom e) s1) in *.
  assert (T2 : activeTool s2 = draw_arc) by (destruct K2 as (-> & _); exact T1).
  destruct (arc_up e s2 T2) as (C3 & D3 & K3).
  rewrite C3, D3, C2, D2. repeat split.
  all: eapply same_drawing_context_trans; [|exact K3];
    eapply same_drawing_context_trans; [exact M3 | exact K2].
Qed.

Lemma arc_click_second (e : MouseEvent) (s : State) (i col : string)
  (p1 p2 ctl : Point.t) :
  button e = 0%Z -> activeTool s = draw_arc -> viewState s <> None ->
  drawStep s = 1%Z ->
  currentShape s = Some (Shape.mk i (Shape.arc p1 p2 ctl) col) ->
  let c := cursorAt (snapEnabled s) inverse e in
  let s' := run p (click dom e) s in
  currentShape s'
  = Some (Shape.mk i
            (Shape.arc p1 c (Point.mk ((Point.x p1 + Point.x c) / 2)
                                      ((Point.y p1 + Point.y c) / 2))) col)
  /\ drawStep s' = 2%Z /\ same_drawing_context s s'.
Proof.
  intros B T V D C. cbv zeta. rewrite run_click.
  destruct (viewState s) as [v|] eqn:Ev; [clear V | congruence].
  destruct (arc_move e s v T Ev) as (M1 & M2 & M3 & M4).
  specialize (M4 _ _ _ _ _ C). rewrite D in M4. cbn [Z.eqb] in M4.
  set (s1 := dispatch (onMouseMove dom e) s) in *.
  assert (T1 : activeTool s1 = draw_arc) by (destruct M3 as (-> & _); exact T).
  assert (D1 : drawStep s1 = 1%Z) by congruence.
  destruct (arc_down_second e s1 _ B T1 M1 D1) as (C2 & D2 & K2).
  set (s2 := dispatch (onMouseDown dom e) s1) in *.
  assert (T2 : activeTool s2 = draw_arc) by (destruct K2 as (-> & _); exact T1).
  destruct (arc_up e s2 T2) as (C3 & D3 & K3).
  rewrite C3, D3, C2, D2, M4. repeat split.
  all: eapply same_drawing_context_trans; [|exact K3];
    eapply same_drawing_context_trans; [exact M3 | exact K2].
Qed.

Lemma arc_click_third (e : MouseEvent) (s : State) (i col : string)
  (p1 p2 ctl : Point.t) :
  button e = 0%Z -> activeTool s = draw_arc -> viewState s <> None ->
  drawStep s = 2%Z ->
  currentShape s = Some (Shape.mk i (Shape.arc p1 p2 ctl) col) ->
  let c := cursorAt (snapEnabled s) inverse e in
  let s' := run p (click dom e) s in
  userShapes s' = userShapes s ++ [ Shape.mk i (Shape.arc p1 p2 c) col ]
  /\ history s' = history s ++ [ userShapes s ]
  /\ future s' = []
  /\ currentShape s' = None
  /\ drawStep s' = 0%Z.
Proof.
  intros B T V D C. cbv zeta. rewrite run_click.
  destruct (viewState s) as [v|] eqn:Ev; [clear V | congruence].
  destruct (arc_move e s v T Ev) as (M1 & M2 & M3 & M4).
  specialize (M4 _ _ _ _ _ C). rewrite D in M4. cbn [Z.eqb] in M4.
  set (s1 := dispatch (onMouseMove dom e) s) in *.
  pose proof M3 as (K1 & _ & _ & K4 & K5 & _).
  assert (T1 : activeTool s1 = draw_arc) by congruence.
  assert (D1 : drawStep s1 = 2%Z) by congruence.
  destruct (arc_down_third e s1 _ _ B T1 M1 D1 M4) as (U2 & H2 & F2 & C2 & D2 & T2).
  set (s2 := dispatch (onMouseDown dom e) s1) in *.
  destruct (arc_up e s2 T2) as (C3 & D3 & (_ & _ & _ & U3 & H3 & F3)).
  rewrite C3, D3, U3, H3, F3, U2, H2, F2, C2, D2, K4, K5. repeat split.
Qed.

End ArcClicks.

(** With the arc tool at rest (step 0), three clicks at [c1], [c2], [c3]
    commit exactly one arc from [c1] to [c2] whose control point is [c3]:
    the arc is appended, the shape list it started from is pushed onto the
    past, the future is emptied, and the tool is at rest again. *)
Theorem arc_commit (p : Props) (dom : Dom) (svg : SvgRoot)
  (inverse : Point.t -> Point.t) (s : State) (e1 e2 e3 : MouseEvent)
  (Hsvg : svgRef dom = Some svg) (Hctm : inverseCTM svg = Some inverse)
  (B1 : button e1 = 0%Z) (B2 : button e2 = 0%Z) (B3 : button e3 = 0%Z)
  (Htool : activeTool s = draw_arc) (Hview : viewState s <> None)
  (Hstep : drawStep s = 0%Z) :
  let c1 := cursorAt (snapEnabled s) inverse e1 in
  let c2 := cursorAt (snapEnabled s) inverse e2 in
  let c3 := cursorAt (snapEnabled s) inverse e3 in
  let s' := run p (click dom e1 ++ click dom e2 ++ click dom e3) s in
  userShapes s'
  = userShapes s ++ [ Shape.mk (Date_now dom) (Shape.arc c1 c2 c3) emerald ]
  /\ history s' = history s ++ [ userShapes s ]
  /\ future s' = []
  /\ currentShape s' = None
  /\ drawStep s' = 0%Z.
Proof.
  cbv zeta. rewrite !run_app.
  destruct (arc_click_first p dom svg inverse Hsvg Hctm e1 s B1 Htool Hview Hstep)
    as (C1 & D1 & K1).
  set (s1 := run p (click dom e1) s) in *.
  pose proof K1 as (T1 & V1 & S1 & U1 & H1 & F1).
  assert (T1' : activeTool s1 = draw_arc) by congruence.
  assert (V1' : viewState s1 <> None) by congruence.
  destruct (arc_click_second p dom svg inverse Hsvg Hctm e2 s1 _ _ _ _ _
              B2 T1' V1' D1 C1) as (C2 & D2 & K2).
  set (s2 := run p (click dom e2) s1) in *.
  pose proof K2 as (T2 & V2 & S2 & U2 & H2 & F2).
  assert (T2' : activeTool s2 = draw_arc) by congruence.
  assert (V2' : viewState s2 <> None) by congruence.
  destruct (arc_click_third p dom svg inverse Hsvg Hctm e3 s2 _ _ _ _ _
              B3 T2' V2' D2 C2) as (U3 & H3 & F3 & C3 & D3).
  rewrite U3, H3, F3, C3, D3, U2, H2, U1, H1, S2, S1. repeat split.
Qed.

Lemma arc_commit_witness :
  let s := step demoProps (mount demoProps) (demoDom, ToolButton draw_arc) in
  let s' := run demoProps (clickAt 0 0 ++ clickAt 4 0 ++ clickAt 2 3) s in
  userShapes s'
  = [ Shape.mk "1700000000000"
        (Shape.arc (Point.mk 0 0) (Point.mk 4 0) (Point.mk 2 3)) emerald ]
  /\ history s' = [ [] ] /\ drawStep s' = 0%Z.
Proof.
  cbv zeta.
  pose proof (arc_commit demoProps demoDom (mkSvgRoot 0 (Some (fun pt => pt)))
                (fun pt => pt)
                (step demoProps (mount demoProps) (demoDom, ToolButton draw_arc))
                (pointer 0 0) (pointer 4 0) (pointer 2 3)
                eq_refl eq_refl eq_refl eq_refl eq_refl) as P.
  specialize (P ltac:(vm_compute; reflexivity) ltac:(vm_compute; discriminate)
                ltac:(vm_compute; reflexivity)).
  cbv zeta in P. destruct P as (U & H & _ & _ & D).
  split; [|split].
  - vm_compute in U. vm_compute. exact U.
  - vm_compute in H. vm_compute. exact H.
  - vm_compute in D. vm_compute. exact D.
Defined.

(** ** An invariant of the drawing state *)

Lemma abs_not_negative (x : float) : JS.lt (JS.Math_abs x) 0 = false.
Proof.
  unfold JS.lt, JS.Math_abs. rewrite ltb_spec, abs_spec.
  destruct (Prim2SF x) as [s|s| |s m e]; reflexivity.
Qed.

Lemma binary_round_aux_not_negative (m e : Z) (l : location) :
  SFltb (binary_round_aux prec emax false m e l) (S754_zero false) = false.
Proof.
  unfold binary_round_aux.
  destruct (shr_fexp prec emax m e l) as [mrs' e'].
  destruct (shr_fexp prec emax _ e' loc_Exact) as [mrs'' e''].
  destruct (shr_m mrs''); try reflexivity.
  destruct (e'' <=? emax - prec)%Z; reflexivity.
Qed.

Lemma sqrt_not_negative (x : float) : PrimFloat.ltb (PrimFloat.sqrt x) 0 = false.
Proof.
  rewrite ltb_spec, sqrt_spec.
  destruct (Prim2SF x) as [s|s| |s m e];
    try reflexivity; try (destruct s; reflexivity).
  destruct s; [reflexivity|].
  unfold SF64sqrt, SFsqrt.
  destruct (SFsqrt_core_binary prec emax (Z.pos m) e) as [[mz ez] lz].
  apply binary_round_aux_not_negative.
Qed.

Lemma mul_not_negative (a b : float) :
  PrimFloat.ltb a 0 = false -> PrimFloat.ltb b 0 = false ->
  PrimFloat.ltb (a * b) 0 = false.
Proof.
  rewrite !ltb_spec, mul_spec.
  change (Prim2SF 0) with (S754_zero false).
  destruct (Prim2SF a) as [sa|sa| |sa ma ea], (Prim2SF b) as [sb|sb| |sb mb eb];
    try reflexivity; try (destruct sa; reflexivity);
    try (destruct sb; reflexivity);
    try (destruct sa, sb; (reflexivity || discriminate)).
  destruct sa; [discriminate|]. destruct sb; [intros _; discriminate|].
  intros _ _. unfold SF64mul, SFmul, xorb.
  apply binary_round_aux_not_negative.
Qed.

Lemma hypot_max_not_negative (values : list float) (max : float) :
  PrimFloat.ltb max 0 = false ->
  PrimFloat.ltb
    (fold_left (fun max value =>
                  if is_nan value then max
                  else if PrimFloat.ltb max (PrimFloat.abs value)
                       then PrimFloat.abs value else max) values max) 0 = false.
Proof.
  revert max. induction values as [|v r IH]; intros max H; cbn [fold_left].
  - exact H.
  - apply IH. destruct (is_nan v); [exact H|].
    destruct (PrimFloat.ltb max (PrimFloat.abs v)); [apply abs_not_negative | exact H].
Qed.

Lemma hypot_of_not_negative (values : list float) :
  JS.lt (JS.Math_hypot_of values) 0 = false.
Proof.
  unfold JS.lt, JS.Math_hypot_of.
  destruct (PrimFloat.eqb (JS.hypot_max values) infinity); [reflexivity|].
  destruct (existsb is_nan values); [reflexivity|].
  destruct (PrimFloat.eqb (JS.hypot_max values) 0); [reflexivity|].
  apply mul_not_negative; [apply sqrt_not_negative|].
  unfold JS.hypot_max. apply hypot_max_not_negative. reflexivity.
Qed.

Lemma hypot_not_negative (x y : float) : JS.lt (JS.Math_hypot x y) 0 = false.
Proof. apply hypot_of_not_negative. Qed.

Section Invariant.

#[local] Opaque JS.Math_round JS.Math_hypot JS.parseFloat_toFixed snap
  JS.Math_abs JS.lt JS.gt.

Lemma tool_match_same_kind (t : ToolType) (a b : Shape.t) :
  tool_match t a -> same_kind a b -> tool_match t b.
Proof.
  unfold tool_match, same_kind.
  destruct t, (Shape.shape a), (Shape.shape b); auto.
Qed.

Lemma wellFormed_fields (s s' : State) :
  drawStep s' = drawStep s -> currentShape s' = currentShape s ->
  activeTool s' = activeTool s -> userShapes s' = userShapes s ->
  history s' = history s -> future s' = future s ->
  wellFormed s -> wellFormed s'.
Proof.
  unfold wellFormed. intros -> -> -> -> -> ->. auto.
Qed.

(** The shape in progress replaced by one of the same kind. *)
Lemma wellFormed_preview (s s' : State) (cur sh : Shape.t) :
  currentShape s = Some cur -> currentShape s' = Some sh ->
  preview_ok sh -> same_kind cur sh ->
  drawStep s' = drawStep s ->
  activeTool s' = activeTool s -> userShapes s' = userShapes s ->
  history s' = history s -> future s' = future s ->
  wellFormed s -> wellFormed s'.
Proof.
  unfold wellFormed. intros C C' P K -> -> -> -> -> (D & W & R).
  split; [exact D|]. split; [|exact R].
  intros sh' E. rewrite C' in E. injection E as <-. split; [exact P|].
  apply (tool_match_same_kind _ cur); [apply (W cur C) | exact K].
Qed.

(** A new shape in progress, of the kind of the active tool. *)
Lemma wellFormed_start (s s' : State) (sh : Shape.t) :
  currentShape s' = Some sh -> preview_ok sh -> tool_match (activeTool s) sh ->
  step_in_range s' ->
  activeTool s' = activeTool s -> userShapes s' = userShapes s ->
  history s' = history s -> future s' = future s ->
  wellFormed s -> wellFormed s'.
Proof.
  unfold wellFormed. intros C' P K D' -> -> -> -> (D & W & R).
  split; [exact D'|]. split; [|exact R].
  intros sh' E. rewrite C' in E. injection E as <-. auto.
Qed.

(** Nothing in progress any more, lists as they were. *)
Lemma wellFormed_clear (s s' : State) :
  currentShape s' = None -> step_in_range s' ->
  userShapes s' = userShapes s -> history s' = history s -> future s' = future s ->
  wellFormed s -> wellFormed s'.
Proof.
  unfold wellFormed. intros C' D' -> -> -> (D & W & R).
  split; [exact D'|]. split; [|exact R]. intros sh E. congruence.
Qed.

(** The tool changed to one that does not draw. *)
Lemma wellFormed_other_tool (s s' : State) :
  startsWith_draw (activeTool s') = false ->
  drawStep s' = drawStep s -> currentShape s' = currentShape s ->
  userShapes s' = userShapes s -> history s' = history s -> future s' = future s ->
  wellFormed s -> wellFormed s'.
Proof.
  unfold wellFormed. intros T -> -> -> -> -> (D & W & R).
  split; [exact D|]. split; [|exact R].
  intros sh E. split; [apply (W sh E)|].
  unfold tool_match. destruct (activeTool s'); try discriminate T; exact I.
Qed.

(** The step counter changed, the rest stayed. *)
Lemma wellFormed_drawStep (s s' : State) :
  step_in_range s' -> currentShape s' = currentShape s ->
  activeTool s' = activeTool s -> userShapes s' = userShapes s ->
  history s' = history s -> future s' = future s ->
  wellFormed s -> wellFormed s'.
Proof.
  unfold wellFormed. intros D' -> -> -> -> -> (D & W & R). auto.
Qed.

(** A commit of the shape in progress. *)
Lemma wellFormed_commit (s s' : State) (cur : Shape.t) :
  stored_ok cur -> currentShape s' = None -> step_in_range s' ->
  userShapes s' = userShapes s ++ [cur] ->
  history s' = history s ++ [userShapes s] -> future s' = [] ->
  wellFormed s -> wellFormed s'.
Proof.
  unfold wellFormed. intros K C' D' -> -> -> (D & W & U & H & F).
  split; [exact D'|]. split; [intros sh E; congruence|].
  split; [|split].
  - apply Forall_app. auto.
  - apply Forall_app. auto.
  - constructor.
Qed.

Lemma set_last_length (c : Point.t) (pts : list Point.t) :
  List.length (set_last c pts) = List.length pts.
Proof.
  destruct pts as [|a l]; [reflexivity|].
  assert (N : a :: l <> []) by discriminate.
  destruct (exists_last N) as (l' & z & ->).
  rewrite set_last_snoc, !length_app. reflexivity.
Qed.

Lemma current_preview_ok (s : State) (cur : Shape.t) :
  wellFormed s -> currentShape s = Some cur ->
  preview_ok cur /\ tool_match (activeTool s) cur.
Proof. intros (_ & W & _) C. exact (W cur C). Qed.

Lemma zero_not_negative : JS.lt 0 0 = false.
Proof. reflexivity. Qed.

Ltac range_done :=
  unfold step_in_range;
  first [ left; reflexivity | right; left; reflexivity | right; right; reflexivity
        | match goal with W : wellFormed _ |- _ => exact (proj1 W) end ].

Ltac kind_done :=
  unfold same_kind; cbn [Shape.shape];
  match goal with D : Shape.shape _ = _ |- _ => rewrite D; exact I end.

Ltac preview_done :=
  unfold preview_ok; cbn [Shape.shape];
  first [ exact I
        | split; first [ apply abs_not_negative | apply zero_not_negative ]
        | apply hypot_not_negative
        | apply zero_not_negative
        | match goal with
          | W : wellFormed ?s, C : currentShape ?s = Some ?cur,
            D : Shape.shape ?cur = Shape.polyline _ |- _ =>
              let P := fresh in
              destruct (current_preview_ok s cur W C) as (P & _);
              unfold preview_ok in P; rewrite D in P;
              rewrite ?set_last_length, ?length_app; cbn [List.length]; lia
          end
        | cbn [List.length]; lia ].

Ltac wf_same :=
  match goal with
  | W : wellFormed ?s |- wellFormed (apply_updates _ ?s) =>
      apply (wellFormed_fields s); [reflexivity .. | exact W]
  end.

Ltac wf_preview :=
  match goal with
  | W : wellFormed ?s, C : currentShape ?s = Some ?cur
    |- wellFormed (apply_updates _ ?s) =>
      eapply (wellFormed_preview s _ cur);
      [exact C | reflexivity | preview_done | kind_done | reflexivity .. | exact W]
  end.

Ltac wf_start :=
  match goal with
  | W : wellFormed ?s, T : activeTool ?s = _ |- wellFormed (apply_updates _ ?s) =>
      eapply (wellFormed_start s);
      [reflexivity | preview_done | rewrite T; exact I | range_done
      | reflexivity .. | exact W]
  end.

Ltac wf_drawStep :=
  match goal with
  | W : wellFormed ?s |- wellFormed (apply_updates _ ?s) =>
      apply (wellFormed_drawStep s); [range_done | reflexivity .. | exact W]
  end.

Ltac wf_clear :=
  match goal with
  | W : wellFormed ?s |- wellFormed (apply_updates _ ?s) =>
      apply (wellFormed_clear s); [reflexivity | range_done | reflexivity .. | exact W]
  end.

Lemma wellFormed_onMouseMove (dom : Dom) (e : MouseEvent) (s : State) :
  wellFormed s -> wellFormed (dispatch (onMouseMove dom e) s).
Proof.
  intros W. unfold dispatch, onMouseMove, updateDrawingPreview.
  split_cases; first [ wf_same | wf_preview ].
Qed.

(** What is committed at pointer-up, double-click or the third arc click. *)
Lemma committed_rect_ok (s : State) (cur : Shape.t) :
  wellFormed s -> currentShape s = Some cur ->
  positive (Shape.data_w cur) = true -> stored_ok cur.
Proof.
  intros W C V. destruct (current_preview_ok s cur W C) as (P & _).
  unfold stored_ok, preview_ok, Shape.data_w, positive in *.
  destruct (Shape.shape cur); try discriminate V. split; [exact V | apply P].
Qed.

Lemma committed_circle_ok (s : State) (cur : Shape.t) :
  wellFormed s -> currentShape s = Some cur ->
  positive (Shape.data_r cur) = true -> stored_ok cur.
Proof.
  intros W C V. unfold stored_ok, Shape.data_r, positive in *.
  destruct (Shape.shape cur); try discriminate V. exact V.
Qed.

Lemma committed_by_tool_ok (s : State) (cur : Shape.t) :
  wellFormed s -> currentShape s = Some cur ->
  activeTool s = draw_polyline \/ activeTool s = draw_arc -> stored_ok cur.
Proof.
  intros W C T. destruct (current_preview_ok s cur W C) as (P & M).
  unfold stored_ok, preview_ok, tool_match in *.
  destruct T as [T | T]; rewrite T in M;
    destruct (Shape.shape cur); try contradiction; auto.
Qed.

Ltac wf_commit lem :=
  match goal with
  | W : wellFormed ?s, C : currentShape ?s = Some ?cur
    |- wellFormed (apply_updates _ ?s) =>
      apply (wellFormed_commit s _ cur);
      [ lem | reflexivity | range_done | reflexivity | reflexivity | reflexivity
      | exact W ]
  end.

Lemma wellFormed_onMouseUp (dom : Dom) (e : MouseEvent) (s : State) :
  wellFormed s -> wellFormed (dispatch (onMouseUp dom e) s).
Proof.
  intros W. unfold dispatch, onMouseUp, handleElementClick, saveState.
  split_cases;
    first [ wf_same
          | wf_clear
          | wf_commit ltac:(eapply committed_rect_ok; eassumption)
          | wf_commit ltac:(eapply committed_circle_ok; eassumption) ].
Qed.

Lemma wellFormed_setCursorPos (v : option Point.t) (s : State) :
  wellFormed s -> wellFormed (setCursorPos (value v) s).
Proof. apply wellFormed_fields; reflexivity. Qed.

Lemma apply_updates_app (a b : list Update) (s : State) :
  apply_updates (a ++ b) s = apply_updates b (apply_updates a s).
Proof. apply fold_left_app. Qed.

Lemma wellFormed_onMouseLeave (dom : Dom) (e : MouseEvent) (s : State) :
  wellFormed s -> wellFormed (dispatch (onMouseLeave dom e) s).
Proof.
  intros W. unfold dispatch, onMouseLeave. rewrite apply_updates_app.
  apply wellFormed_setCursorPos. now apply wellFormed_onMouseUp.
Qed.

Lemma wellFormed_onDoubleClick (s : State) :
  wellFormed s -> wellFormed (dispatch onDoubleClick s).
Proof.
  intros W. unfold dispatch, onDoubleClick, saveState.
  split_cases;
    first [ wf_same
          | wf_commit ltac:(eapply committed_by_tool_ok;
                            [eassumption | eassumption
                            | left; now apply ToolType_eqb_eq]) ].
Qed.

Lemma wellFormed_onMouseDown (dom : Dom) (e : MouseEvent) (s : State) :
  wellFormed s -> wellFormed (dispatch (onMouseDown dom e) s).
Proof.
  intros W. unfold dispatch, onMouseDown, handleDrawingStart, saveState.
  split_cases;
    first [ wf_same
          | wf_start
          | wf_preview
          | wf_drawStep
          | wf_clear
          | wf_commit ltac:(eapply committed_by_tool_ok;
                            [eassumption | eassumption | right; assumption]) ].
Qed.


Lemma Forall_last_frame (l : list (list Shape.t)) :
  Forall (Forall stored_ok) l ->
  Forall stored_ok (last l []) /\ Forall (Forall stored_ok) (removelast l).
Proof.
  intros H. destruct l as [|a r]; [split; constructor|].
  assert (N : a :: r <> []) by discriminate.
  destruct (exists_last N) as (l' & z & E). rewrite E in *.
  rewrite last_last, removelast_last.
  apply Forall_app in H as (H1 & H2). inversion H2; subst. auto.
Qed.

Lemma wellFormed_handleUndo (s : State) :
  wellFormed s -> wellFormed (dispatch handleUndo s).
Proof.
  intros W. pose proof W as (D & C & U & H & F).
  destruct (handleUndo_outside s) as (_ & _ & _ & T' & D' & C' & _).
  unfold wellFormed. rewrite T', D', C'. split; [exact D|]. split; [exact C|].
  unfold dispatch, handleUndo.
  destruct (List.length (history s) =? 0)%nat; [cbn; auto|].
  destruct (Forall_last_frame _ H) as (L & R). cbn. auto.
Qed.

Lemma wellFormed_handleRedo (s : State) :
  wellFormed s -> wellFormed (dispatch handleRedo s).
Proof.
  intros W. pose proof W as (D & C & U & H & F).
  destruct (handleRedo_outside s) as (_ & _ & _ & T' & D' & C' & _).
  unfold wellFormed. rewrite T', D', C'. split; [exact D|]. split; [exact C|].
  unfold dispatch, handleRedo.
  destruct (future s) as [|a f] eqn:E; [cbn; rewrite E; auto|].
  inversion F; subst. cbn. repeat split; auto.
  apply Forall_app. auto.
Qed.

Lemma wellFormed_eraser (s : State) :
  wellFormed s -> wellFormed (dispatch eraser s).
Proof.
  intros W. pose proof W as (D & C & U & H & F).
  unfold wellFormed, dispatch, eraser, clearMeasurements, clearUserShapes, saveState.
  destruct (0 <? List.length (userShapes s))%nat; cbn.
  - split; [left; reflexivity|]. split; [intros sh E; discriminate E|].
    split; [constructor|]. split; [apply Forall_app; auto | constructor].
  - split; [left; reflexivity|]. split; [intros sh E; discriminate E|].
    split; [constructor | auto].
Qed.

Lemma wellFormed_toolButton (t : ToolType) (s : State) :
  wellFormed s -> wellFormed (dispatch (toolButton t) s).
Proof.
  intros W. unfold dispatch, toolButton.
  destruct t;
    first [ apply (wellFormed_other_tool s); [reflexivity .. | exact W]
          | wf_clear ].
Qed.

Lemma wellFormed_resetEffect (p : Props) (s : State) :
  wellFormed s -> wellFormed (dispatch (resetEffect p) s).
Proof.
  intros (D & C & _). unfold wellFormed, dispatch, resetEffect. cbn.
  repeat split; auto; try constructor; apply (C sh); assumption.
Qed.

Lemma wellFormed_mount (p : Props) : wellFormed (mount p).
Proof.
  unfold mount. apply wellFormed_resetEffect.
  split; [left; reflexivity|]. split; [intros sh E; discriminate E|].
  split; [|split]; constructor.
Qed.

(** Every event keeps the drawing state well formed. *)
Lemma wellFormed_step (p : Props) (dom : Dom) (ev : Event) (s : State) :
  wellFormed s -> wellFormed (step p s (dom, ev)).
Proof.
  intros W. unfold step, fst, snd. destruct ev; cbn [handler].
  - now apply wellFormed_onMouseDown.
  - now apply wellFormed_onMouseMove.
  - now apply wellFormed_onMouseUp.
  - now apply wellFormed_onMouseLeave.
  - now apply wellFormed_onDoubleClick.
  - unfold dispatch. destruct (handleKeyDown_cases e s) as [-> | [-> | ->]].
    + now apply wellFormed_handleUndo.
    + now apply wellFormed_handleRedo.
    + exact W.
  - now apply wellFormed_toolButton.
  - now apply wellFormed_handleUndo.
  - now apply wellFormed_handleRedo.
  - now apply wellFormed_eraser.
  - unfold dispatch, handleZoomIn, handleZoom. split_cases; [wf_same | exact W].
  - unfold dispatch, handleZoomOut, handleZoom. split_cases; [wf_same | exact W].
  - unfold dispatch. wf_same.
  - unfold dispatch. wf_same.
  - unfold dispatch. wf_same.
  - unfold dispatch, handleRequestDetail. split_cases; [|exact W].
    apply (wellFormed_other_tool s); [reflexivity .. | exact W].
  - unfold dispatch. wf_same.
Qed.

End Invariant.

Lemma reachable_wellFormed (p0 p : Props) (s : State) :
  reachable p0 p s -> wellFormed s.
Proof.
  induction 1 as [| p s dom ev _ IH | p f s _ IH | p p' s _ IH].
  - apply wellFormed_mount.
  - now apply wellFormed_step.
  - unfold dispatch, handleInspectorUpdate.
    destruct (selectedElement s); [|exact IH].
    destruct (no_content p); [exact IH|].
    apply (wellFormed_fields s); [reflexivity .. | exact IH].
  - unfold rerender. destruct (String.eqb (viewBox p) (viewBox p')); [exact IH|].
    now apply wellFormed_resetEffect.
Qed.

(** In every state the component can reach: the arc step is 0, 1 or 2; a
    shape in progress under a drawing tool is of that tool's kind, so the
    polyline press always finds a vertex list to extend, and a polyline in
    progress has at least two vertices; every rectangle in the shape list
    has a width above zero and a height that is not negative, every circle a
    radius above zero, and every polyline at least two vertices. *)
Theorem reachable_states_are_well_formed (p0 p : Props) (s : State)
  (Hreach : reachable p0 p s) :
  (drawStep s = 0 \/ drawStep s = 1 \/ drawStep s = 2)%Z
  /\ (forall cur, currentShape s = Some cur -> activeTool s = draw_polyline ->
        exists points, Shape.shape cur = Shape.polyline points
                       /\ 2 <= List.length points)
  /\ (forall cur, currentShape s = Some cur ->
        preview_ok cur /\ tool_match (activeTool s) cur)
  /\ Forall stored_ok (userShapes s)
  /\ Forall (Forall stored_ok) (history s)
  /\ Forall (Forall stored_ok) (future s).
Proof.
  pose proof (reachable_wellFormed p0 p s Hreach) as W.
  pose proof W as (D & C & U & H & F).
  repeat split; auto; try (apply (C cur); assumption).
  intros cur E T. destruct (C cur E) as (P & M).
  unfold tool_match, preview_ok in *. rewrite T in M.
  destruct (Shape.shape cur) as [| |points|]; try contradiction.
  exists points. auto.
Qed.

Lemma reachable_states_are_well_formed_witness :
  Forall stored_ok (userShapes (run demoProps dragRect (mount demoProps)))
  /\ userShapes (run demoProps dragRect (mount demoProps)) <> [].
Proof.
  split; [|vm_compute; discriminate].
  assert (R : reachable demoProps demoProps (run demoProps dragRect (mount demoProps))).
  { cbn [run dragRect moveTo app fold_left]. repeat apply reachable_step.
    apply reachable_mount. }
  exact (proj1 (proj2 (proj2 (proj2
           (reachable_states_are_well_formed demoProps demoProps _ R))))).
Defined.

(** ** Who changes the selection *)

Lemma handleElementClick_update (dom : Dom) (target : Element) (s : State) :
  handleElementClick dom target s
  = [ setSelectedElement (value (option_map select_element (hitTest dom target))) ].
Proof.
  unfold handleElementClick, hitTest.
  destruct (is_background dom target); [reflexivity|].
  rewrite find_candidate_find. destruct (find _ _); reflexivity.
Qed.

Lemma below_canvas_incl (dom : Dom) (l : list Element) (e : Element) :
  In e (below_canvas dom l) -> In e l.
Proof.
  induction l as [|a l IH]; cbn; [auto|].
  destruct (is_svgRef dom a); cbn; [contradiction|]. intuition.
Qed.

Lemma In_firstn {A : Type} (n : nat) (l : list A) (x : A) :
  In x (firstn n l) -> In x l.
Proof.
  revert l. induction n as [|n IH]; intros [|a l]; cbn; try contradiction.
  intros [-> | H]; [now left | right; now apply IH].
Qed.

Lemma hitTest_some (dom : Dom) (target el : Element) :
  hitTest dom target = Some el ->
  identifiable (element_id el) = true /\ In el (chain target)
  /\ is_background dom target = false.
Proof.
  unfold hitTest. destruct (is_background dom target); [discriminate|].
  intros F. apply find_some in F as (I & P). split; [exact P|]. split; [|reflexivity].
  apply (below_canvas_incl dom). revert I. apply In_firstn.
Qed.

Ltac selection_kept :=
  intros E; left; rewrite <- E; symmetry;
  apply apply_updates_preserve; solve [forall_updates].

Ltac selection_clicked dom e :=
  let Hx := fresh "Hx" in
  let Hh := fresh "Hh" in
  let el := fresh "el" in
  intros Hx; right;
  match type of Hx with
  | selectedElement (apply_updates ?us ?st) = _ =>
      change (selectedElement (apply_updates us st))
        with (option_map select_element (hitTest dom (target e))) in Hx
  end;
  destruct (hitTest dom (target e)) as [el|] eqn:Hh; [|discriminate Hx];
  cbn [option_map] in Hx;
  destruct (hitTest_some dom (target e) el Hh) as (? & ? & _);
  exists e, el; eexists; repeat split;
  first [ eassumption | now apply ToolType_eqb_eq | left; reflexivity
        | right; reflexivity | congruence ].

(** Among the pointer, keyboard and toolbar events the selection is set by
    one thing only: releasing the pointer (or leaving the canvas) with the
    select tool after a press less than five pixels away; and what is then
    selected is an element of the clicked node's ancestor chain whose
    identifier is not empty and does not start with [grid] or [arrow].
    Every other event leaves a selection as it is or, as the inspector's
    close button does, removes it.  (The inspector's "apply" edits the
    selection it finds; see below.) *)
Theorem selection_comes_from_a_click (p : Props) (dom : Dom) (ev : Event) (s : State)
  (sel : Selected.t)
  (Hsel : selectedElement (step p s (dom, ev)) = Some sel) :
  selectedElement s = Some sel
  \/ exists e el start,
       (ev = MouseUp e \/ ev = MouseLeave e)
       /\ activeTool s = select
       /\ dragStartRef s = Some start
       /\ JS.lt (JS.Math_hypot (clientX e - Point.x start) (clientY e - Point.y start)) 5
          = true
       /\ hitTest dom (target e) = Some el
       /\ identifiable (element_id el) = true
       /\ In el (chain (target e))
       /\ sel = select_element el.
Proof.
  revert Hsel. unfold step, fst, snd. destruct ev; cbn [handler].
  - unfold dispatch, onMouseDown, handleDrawingStart, saveState.
    split_cases; selection_kept.
  - unfold dispatch, onMouseMove, updateDrawingPreview.
    split_cases; selection_kept.
  - unfold dispatch, onMouseUp, saveState.
    rewrite handleElementClick_update.
    split_cases; try selection_kept.
    all: selection_clicked dom e.
  - unfold dispatch, onMouseLeave, onMouseUp, saveState.
    rewrite handleElementClick_update.
    split_cases; try selection_kept.
    all: selection_clicked dom e.
  - unfold dispatch, onDoubleClick, saveState. split_cases; selection_kept.
  - intros E. left. rewrite <- E. symmetry. unfold dispatch.
    destruct (handleKeyDown_cases e s) as [-> | [-> | ->]].
    + apply (handleUndo_outside s).
    + apply (handleRedo_outside s).
    + reflexivity.
  - destruct t; selection_kept.
  - intros E. left. rewrite <- E. symmetry. apply (handleUndo_outside s).
  - intros E. left. rewrite <- E. symmetry. apply (handleRedo_outside s).
  - unfold dispatch, eraser, clearMeasurements, clearUserShapes, saveState.
    split_cases; selection_kept.
  - unfold dispatch, handleZoomIn, handleZoom. split_cases; selection_kept.
  - unfold dispatch, handleZoomOut, handleZoom. split_cases; selection_kept.
  - selection_kept.
  - selection_kept.
  - selection_kept.
  - unfold dispatch, handleRequestDetail. split_cases; selection_kept.
  - intros E. discriminate E.
Qed.

Lemma selection_comes_from_a_click_witness :
  let ev := mkMouseEvent 0 10 10 (nested 2 columnC1) in
  let s := step demoProps (mount demoProps) (demoDom, MouseDown ev) in
  selectedElement (step demoProps s (demoDom, MouseUp ev))
  = Some (select_element columnC1)
  /\ (selectedElement s = Some (select_element columnC1)
      \/ exists e el start,
           (MouseUp ev = MouseUp e \/ MouseUp ev = MouseLeave e)
           /\ activeTool s = select
           /\ dragStartRef s = Some start
           /\ JS.lt (JS.Math_hypot (clientX e - Point.x start)
                                   (clientY e - Point.y start)) 5 = true
           /\ hitTest demoDom (target e) = Some el
           /\ identifiable (element_id el) = true
           /\ In el (chain (target e))
           /\ select_element columnC1 = select_element el).
Proof.
  cbv zeta.
  assert (H : selectedElement
                (step demoProps
                   (step demoProps (mount demoProps)
                      (demoDom, MouseDown (mkMouseEvent 0 10 10 (nested 2 columnC1))))
                   (demoDom, MouseUp (mkMouseEvent 0 10 10 (nested 2 columnC1))))
              = Some (select_element columnC1)) by (vm_compute; reflexivity).
  split; [exact H|].
  exact (selection_comes_from_a_click demoProps demoDom _ _ _ H).
Defined.

(** ** The detail form *)

Section Trim.

Local Open Scope string_scope.

Lemma trimStart_allWhite (w : string) : allWhite w = true -> JS.trimStart w = "".
Proof.
  induction w as [|c w IH]; cbn; [reflexivity|].
  intros H. apply andb_prop in H as (Hc & Hw). rewrite Hc. now apply IH.
Qed.

Lemma trim_allWhite (w : string) : allWhite w = true -> JS.trim w = "".
Proof. intros H. unfold JS.trim. now rewrite (trimStart_allWhite w H). Qed.

Lemma trimStart_first (s : string) : is_white (firstUnit (JS.trimStart s)) = false.
Proof.
  induction s as [|c s IH]; cbn; [reflexivity|].
  destruct (JS.isWhiteSpace c) eqn:E; [exact IH | cbn; exact E].
Qed.

Lemma trimEnd_first (s : string) :
  is_white (firstUnit s) = false -> is_white (firstUnit (JS.trimEnd s)) = false.
Proof.
  destruct s as [|c s]; cbn; [auto|]. intros H. rewrite H. cbn. exact H.
Qed.

Lemma trimEnd_last (s : string) : is_white (lastUnit (JS.trimEnd s)) = false.
Proof.
  induction s as [|c s IH]; cbn; [reflexivity|].
  destruct (JS.trimEnd s) as [|d r] eqn:E; cbn.
  - destruct (JS.isWhiteSpace c) eqn:W; cbn; [reflexivity | exact W].
  - rewrite andb_false_r. exact IH.
Qed.

(** What [trim] returns neither starts nor ends with white space. *)
Lemma trim_ends (s : string) :
  is_white (firstUnit (JS.trim s)) = false /\ is_white (lastUnit (JS.trim s)) = false.
Proof.
  unfold JS.trim. split; [apply trimEnd_first, trimStart_first | apply trimEnd_last].
Qed.

End Trim.

(** Submitting the detail form with blank text, or without a callback, does
    nothing at all.  When it does call back, the identifier passed is the
    text without its surrounding white space, never empty; the field is
    cleared, the tool goes back to select and the shape in progress and the
    rest of the state stay. *)
Theorem detail_request (p : Props) (s : State) (id : string) :
  (allWhite (detailInput s) = true ->
   dispatch (handleRequestDetail p) s = s /\ requestedDetail p s = None)
  /\ (onReqDetail p = false ->
      dispatch (handleRequestDetail p) s = s /\ requestedDetail p s = None)
  /\ (requestedDetail p s = Some id ->
      id = JS.trim (detailInput s) /\ id <> EmptyString
      /\ is_white (firstUnit id) = false /\ is_white (lastUnit id) = false
      /\ dispatch (handleRequestDetail p) s
         = setActiveTool (value select) (setDetailInput (value EmptyString) s)).
Proof.
  unfold dispatch, handleRequestDetail, requestedDetail. split; [|split].
  - intros W. rewrite (trim_allWhite _ W). split; reflexivity.
  - intros N. rewrite N, andb_false_r. split; reflexivity.
  - destruct (negb (JS.isEmpty (JS.trim (detailInput s))) && onReqDetail p) eqn:E;
      [|discriminate].
    intros Q. injection Q as <-. apply andb_prop in E as (E & _).
    split; [reflexivity|]. split.
    + intros Z. rewrite Z in E. discriminate E.
    + destruct (trim_ends (detailInput s)) as (F & L). auto.
Qed.

(** ** The inspector *)

Lemma assoc_assign_same (k v : string) (obj : list (string * string)) :
  assoc k (assign k v obj) = Some v.
Proof.
  induction obj as [|[k' v'] r IH]; cbn.
  - now rewrite String.eqb_refl.
  - destruct (String.eqb k k') eqn:E; cbn; rewrite ?String.eqb_refl, ?E; auto.
Qed.

Lemma assoc_assign_other (k k' v : string) (obj : list (string * string)) :
  k' <> k -> assoc k' (assign k v obj) = assoc k' obj.
Proof.
  intros N. apply String.eqb_neq in N.
  induction obj as [|[k0 v0] r IH]; cbn.
  - now rewrite N.
  - destruct (String.eqb k k0) eqn:E; cbn.
    + apply String.eqb_eq in E. subst k0. now rewrite N.
    + now rewrite IH.
Qed.

Lemma assign_present (k v : string) (obj : list (string * string)) :
  assoc k obj = Some v -> assign k v obj = obj.
Proof.
  induction obj as [|[k' v'] r IH]; cbn; [discriminate|].
  destruct (String.eqb k k') eqn:E.
  - apply String.eqb_eq in E. subst k'. now intros [= ->].
  - intros H. now rewrite (IH H).
Qed.

Lemma assign_length_present (k v : string) (obj : list (string * string)) :
  assoc k obj <> None -> List.length (assign k v obj) = List.length obj.
Proof.
  induction obj as [|[k' v'] r IH]; cbn; [congruence|].
  destruct (String.eqb k k'); cbn; [reflexivity|]. intros H. now rewrite (IH H).
Qed.

(** What the four assignments of [handleApply] leave in the object. *)
Lemma spread_handleApply (a : list (string * string)) (f : PanelFields) :
  let b := spread a (handleApply f) in
  assoc "id" b = Some (localId f)
  /\ assoc "stroke" b = Some (stroke f)
  /\ assoc "fill" b = Some (fill f)
  /\ assoc "stroke-width" b = Some (strokeWidth f)
  /\ forall k, k <> "id"%string -> k <> "stroke"%string -> k <> "fill"%string ->
               k <> "stroke-width"%string -> assoc k b = assoc k a.
Proof.
  cbv zeta. unfold spread, handleApply. cbn [fold_left fst snd].
  repeat split.
  - rewrite !assoc_assign_other by discriminate. apply assoc_assign_same.
  - rewrite !assoc_assign_other by discriminate. apply assoc_assign_same.
  - rewrite !assoc_assign_other by discriminate. apply assoc_assign_same.
  - apply assoc_assign_same.
  - intros k N1 N2 N3 N4. now rewrite !assoc_assign_other.
Qed.

(** Applying the inspector: nothing happens without a selection or without
    drawing content; otherwise the selection takes the identifier of the
    panel, its four edited attributes read back as entered, every other
    attribute, the type and the bounding box are kept, and nothing else in
    the state changes. *)
Theorem inspector_update_mirrors_the_fields (p : Props) (f : PanelFields) (s : State)
  (sel : Selected.t)
  (Hsel : selectedElement s = Some sel) (Hcontent : no_content p = false) :
  exists sel',
    dispatch (handleInspectorUpdate p f) s = setSelectedElement (value (Some sel')) s
    /\ Selected.id sel' = localId f
    /\ Selected.type sel' = Selected.type sel
    /\ Selected.bbox sel' = Selected.bbox sel
    /\ assoc "id" (Selected.attributes sel') = Some (localId f)
    /\ assoc "stroke" (Selected.attributes sel') = Some (stroke f)
    /\ assoc "fill" (Selected.attributes sel') = Some (fill f)
    /\ assoc "stroke-width" (Selected.attributes sel') = Some (strokeWidth f)
    /\ (forall k, k <> "id"%string -> k <> "stroke"%string -> k <> "fill"%string ->
                  k <> "stroke-width"%string ->
                  assoc k (Selected.attributes sel') = assoc k (Selected.attributes sel))
    /\ (forall s0, selectedElement s0 = None ->
                   dispatch (handleInspectorUpdate p f) s0 = s0)
    /\ (forall p0 s0, no_content p0 = true ->
                      dispatch (handleInspectorUpdate p0 f) s0 = s0).
Proof.
  exists (Selected.mk (localId f) (Selected.type sel)
            (spread (Selected.attributes sel) (handleApply f)) (Selected.bbox sel)).
  destruct (spread_handleApply (Selected.attributes sel) f) as (A1 & A2 & A3 & A4 & A5).
  split; [|repeat split; auto].
  - unfold dispatch, handleInspectorUpdate. rewrite Hsel, Hcontent.
    destruct s. cbn in *. rewrite Hsel. reflexivity.
  - intros s0 E. unfold dispatch, handleInspectorUpdate. rewrite E. reflexivity.
  - intros p0 s0 E. unfold dispatch, handleInspectorUpdate. rewrite E.
    destruct (selectedElement s0); reflexivity.
Qed.

Lemma inspector_update_mirrors_the_fields_witness :
  exists sel',
    selectedElement
      (dispatch (handleInspectorUpdate demoProps (mkPanelFields "C-9" "#ff0000" "none" "3"))
         demoSelection) = Some sel'
    /\ Selected.id sel' = "C-9"%string
    /\ assoc "stroke" (Selected.attributes sel') = Some "#ff0000"%string
    /\ assoc "data-type" (Selected.attributes sel') = Some "column"%string.
Proof.
  destruct (inspector_update_mirrors_the_fields demoProps
              (mkPanelFields "C-9" "#ff0000" "none" "3") demoSelection
              (select_element columnC1))
    as (sel' & E & I & _ & _ & _ & S & _ & _ & O & _).
  - vm_compute. reflexivity.
  - reflexivity.
  - exists sel'. rewrite E. split; [reflexivity|]. split; [exact I|].
    split; [exact S|]. rewrite O by discriminate. reflexivity.
Defined.

Lemma assign_length_le (k v : string) (obj : list (string * string)) :
  List.length (assign k v obj) <= S (List.length obj).
Proof.
  induction obj as [|[k' v'] r IH]; cbn; [lia|].
  destruct (String.eqb k k'); cbn; lia.
Qed.

Lemma or_default_not_empty (v : option string) (d : string) :
  d <> EmptyString -> or_default (Some (or_default v d)) d = or_default v d.
Proof.
  intros N. unfold or_default at 1.
  destruct (JS.isEmpty (or_default v d)) eqn:E; [|reflexivity].
  unfold or_default in E. destruct v as [x|].
  - destruct (JS.isEmpty x) eqn:Ex; [|congruence].
    destruct d; [congruence | discriminate E].
  - destruct d; [congruence | discriminate E].
Qed.

(** Pressing "apply" without editing anything keeps the identifier and puts
    the panel's defaults in for a missing or empty stroke, fill and stroke
    width; the panel then shows the same fields again, and a second "apply"
    changes nothing more. *)
Theorem inspector_apply_unedited (p : Props) (s : State) (sel : Selected.t)
  (Hsel : selectedElement s = Some sel) (Hcontent : no_content p = false)
  (Hid : assoc "id" (Selected.attributes sel) = Some (Selected.id sel)) :
  let f := panelFields (Selected.id sel) (Selected.attributes sel) in
  let s1 := dispatch (handleInspectorUpdate p f) s in
  exists sel1,
    selectedElement s1 = Some sel1
    /\ Selected.id sel1 = Selected.id sel
    /\ List.length (Selected.attributes sel1) <= List.length (Selected.attributes sel) + 3
    /\ panelFields (Selected.id sel1) (Selected.attributes sel1) = f
    /\ dispatch (handleInspectorUpdate p f) s1 = s1.
Proof.
  cbv zeta.
  pose (f := panelFields (Selected.id sel) (Selected.attributes sel)).
  pose (a1 := spread (Selected.attributes sel) (handleApply f)).
  exists (Selected.mk (localId f) (Selected.type sel) a1 (Selected.bbox sel)).
  destruct (spread_handleApply (Selected.attributes sel) f) as (A1 & A2 & A3 & A4 & _).
  fold a1 in A1, A2, A3, A4.
  assert (E1 : dispatch (handleInspectorUpdate p f) s
               = setSelectedElement
                   (value (Some (Selected.mk (localId f) (Selected.type sel) a1
                                             (Selected.bbox sel)))) s).
  { unfold dispatch, handleInspectorUpdate. rewrite Hsel, Hcontent.
    destruct s. cbn in *. rewrite Hsel. reflexivity. }
  fold f. rewrite E1. split; [reflexivity|]. split; [reflexivity|]. split; [|split].
  - cbn [Selected.attributes]. unfold a1, spread, handleApply.
    cbn [fold_left fst snd].
    change (localId f) with (Selected.id sel).
    rewrite (assign_present _ _ _ Hid).
    pose proof (assign_length_le "stroke-width" (strokeWidth f)
                  (assign "fill" (fill f)
                     (assign "stroke" (stroke f) (Selected.attributes sel)))).
    pose proof (assign_length_le "fill" (fill f)
                  (assign "stroke" (stroke f) (Selected.attributes sel))).
    pose proof (assign_length_le "stroke" (stroke f) (Selected.attributes sel)).
    lia.
  - cbn [Selected.id Selected.attributes]. unfold panelFields at 1.
    rewrite A2, A3, A4. unfold f, panelFields.
    cbn [localId stroke fill strokeWidth].
    rewrite !or_default_not_empty by discriminate. reflexivity.
  - assert (S2 : spread a1 (handleApply f) = a1).
    { unfold spread, handleApply. cbn [fold_left fst snd].
      rewrite (assign_present _ _ _ A1).
      rewrite (assign_present _ _ _ A2).
      rewrite (assign_present _ _ _ A3).
      now rewrite (assign_present _ _ _ A4). }
    clearbody a1. clearbody f. clear E1 Hsel.
    unfold dispatch, handleInspectorUpdate. destruct s. cbn -[spread handleApply].
    rewrite Hcontent. cbn -[spread handleApply].
    unfold setSelectedElement, value. cbn -[spread handleApply].
    rewrite S2. reflexivity.
Qed.

Lemma inspector_apply_unedited_witness :
  let f := panelFields "C-1" [ ("id", "C-1"); ("data-type", "column") ]%string in
  let s1 := dispatch (handleInspectorUpdate demoProps f) demoSelection in
  f = mkPanelFields "C-1" "#22d3ee" "none" "2"
  /\ exists sel1, selectedElement s1 = Some sel1
                  /\ dispatch (handleInspectorUpdate demoProps f) s1 = s1.
Proof.
  cbv zeta. split; [reflexivity|].
  destruct (inspector_apply_unedited demoProps demoSelection (select_element columnC1))
    as (sel1 & E & _ & _ & _ & I).
  - vm_compute. reflexivity.
  - reflexivity.
  - reflexivity.
  - exists sel1. split; [exact E | exact I].
Defined.

(** ** The patch of the live document *)

Lemma patchFirst_length (id : string) (f : PanelFields) (doc : Document) :
  List.length (patchFirst id f doc) = List.length doc.
Proof.
  induction doc as [|el r IH]; cbn; [reflexivity|].
  destruct (has_id id el); cbn; [reflexivity | now rewrite IH].
Qed.

Lemma patchFirst_absent (id : string) (f : PanelFields) (doc : Document) :
  forallb (fun el => negb (has_id id el)) doc = true -> patchFirst id f doc = doc.
Proof.
  induction doc as [|el r IH]; cbn; [reflexivity|].
  intros H. apply andb_prop in H as (H1 & H2).
  apply negb_true_iff in H1. now rewrite H1, (IH H2).
Qed.

Lemma patchFirst_present (id : string) (f : PanelFields)
  (before after : Document) (el : list (string * string)) :
  forallb (fun x => negb (has_id id x)) before = true -> has_id id el = true ->
  patchFirst id f (before ++ el :: after)
  = before ++ patchElement id f el :: after.
Proof.
  intros H E. induction before as [|x r IH]; cbn.
  - now rewrite E.
  - cbn in H. apply andb_prop in H as (H1 & H2).
    apply negb_true_iff in H1. now rewrite H1, (IH H2).
Qed.

Lemma patchElement_attributes (id : string) (f : PanelFields)
  (el : list (string * string)) :
  has_id id el = true ->
  assoc "id" (patchElement id f el) = Some (localId f)
  /\ assoc "stroke" (patchElement id f el) = Some (stroke f)
  /\ assoc "fill" (patchElement id f el) = Some (fill f)
  /\ assoc "stroke-width" (patchElement id f el) = Some (strokeWidth f)
  /\ forall k, k <> "id"%string -> k <> "stroke"%string -> k <> "fill"%string ->
               k <> "stroke-width"%string ->
               assoc k (patchElement id f el) = assoc k el.
Proof.
  intros H. unfold patchElement. repeat split.
  - rewrite !assoc_assign_other by discriminate.
    destruct (String.eqb_spec (localId f) id) as [E|N].
    + unfold has_id in H. destruct (assoc "id" el) as [v|]; [|discriminate H].
      apply String.eqb_eq in H. congruence.
    + apply assoc_assign_same.
  - rewrite !assoc_assign_other by discriminate. apply assoc_assign_same.
  - rewrite !assoc_assign_other by discriminate. apply assoc_assign_same.
  - apply assoc_assign_same.
  - intros k N1 N2 N3 N4. rewrite !assoc_assign_other by assumption.
    destruct (String.eqb (localId f) id); [reflexivity|].
    now rewrite assoc_assign_other.
Qed.

(** The patch of the document never adds or removes an element.  It changes
    the first element carrying the selected identifier and no other: that
    element gets the panel's identifier and three style attributes and keeps
    its other attributes.  When no element carries the identifier (it was
    renamed or cleared) the document is left as it is, although the
    selection state is updated all the same. *)
Theorem document_patch (p : Props) (f : PanelFields) (s : State) (sel : Selected.t)
  (before after : Document) (el : list (string * string))
  (Hsel : selectedElement s = Some sel) (Hcontent : no_content p = false)
  (Hid : Selected.id sel <> EmptyString)
  (Hbefore : forallb (fun x => negb (has_id (Selected.id sel) x)) before = true)
  (Hel : has_id (Selected.id sel) el = true) :
  patchDocument p f s (before ++ el :: after)
  = before ++ patchElement (Selected.id sel) f el :: after
  /\ assoc "id" (patchElement (Selected.id sel) f el) = Some (localId f)
  /\ assoc "stroke" (patchElement (Selected.id sel) f el) = Some (stroke f)
  /\ assoc "fill" (patchElement (Selected.id sel) f el) = Some (fill f)
  /\ assoc "stroke-width" (patchElement (Selected.id sel) f el) = Some (strokeWidth f)
  /\ (forall k, k <> "id"%string -> k <> "stroke"%string -> k <> "fill"%string ->
                k <> "stroke-width"%string ->
                assoc k (patchElement (Selected.id sel) f el) = assoc k el)
  /\ (forall doc, List.length (patchDocument p f s doc) = List.length doc)
  /\ (forall doc,
        forallb (fun x => negb (has_id (Selected.id sel) x)) doc = true ->
        patchDocument p f s doc = doc
        /\ option_map Selected.id
             (selectedElement (dispatch (handleInspectorUpdate p f) s))
           = Some (localId f)).
Proof.
  assert (N : JS.isEmpty (Selected.id sel) = false)
    by (destruct (Selected.id sel); [congruence | reflexivity]).
  destruct (patchElement_attributes (Selected.id sel) f el Hel)
    as (A1 & A2 & A3 & A4 & A5).
  split; [|repeat split; auto].
  - unfold patchDocument. rewrite Hsel, Hcontent, N.
    now apply patchFirst_present.
  - intros doc. unfold patchDocument. rewrite Hsel, Hcontent, N.
    apply patchFirst_length.
  - unfold patchDocument. rewrite Hsel, Hcontent, N. now apply patchFirst_absent.
  - unfold dispatch, handleInspectorUpdate. rewrite Hsel, Hcontent.
    cbn. rewrite Hsel. reflexivity.
Qed.

Lemma document_patch_witness :
  let doc := [ [ ("id", "grid-layer") ]; [ ("id", "C-1"); ("data-type", "column") ];
               [ ("id", "C-2") ] ]%string in
  patchDocument demoProps (mkPanelFields "C-9" "#ff0000" "none" "3") demoSelection doc
  = [ [ ("id", "grid-layer") ];
      [ ("id", "C-9"); ("data-type", "column"); ("stroke", "#ff0000");
        ("fill", "none"); ("stroke-width", "3") ];
      [ ("id", "C-2") ] ]%string.
Proof.
  cbv zeta.
  destruct (document_patch demoProps (mkPanelFields "C-9" "#ff0000" "none" "3")
              demoSelection (select_element columnC1)
              [ [ ("id", "grid-layer") ] ]%string [ [ ("id", "C-2") ] ]%string
              [ ("id", "C-1"); ("data-type", "column") ]%string)
    as (E & _).
  - vm_compute. reflexivity.
  - reflexivity.
  - discriminate.
  - reflexivity.
  - reflexivity.
  - cbn [app] in E. rewrite E. reflexivity.
Defined.
